(** * TrueCoach workout exporter: a shallow embedding of [truecoach-export.js]

    The script is one asynchronous function, [exportTrueCoachWorkouts], run in
    a browser tab.  It reads a session cookie, pages through a JSON API, joins
    workout items to their workouts through a [Map], and serialises the joined
    rows as CSV.

    Layout of this development:
    - [Js]: the fragment of ECMAScript the script relies on (values as they
      come out of [JSON.parse], the coercions [ToBoolean], [ToString],
      [ToNumber], property reads, [Map], the string methods used);
    - [Run]: exceptions, the trace of observable events, and the small monad
      the script is written in;
    - the script itself, function by function, under the names of the source;
    - [Csv]: a reference reader for RFC 4180 text, used to state what the
      serialised output means;
    - the notions the properties are stated with, and [Examples]: a few
      browsers to run the script in;
    - the properties, then the properties on concrete inputs.

    Modelling boundaries, stated once:
    - a string is a sequence of UTF-16 code units; the model keeps the code
      units below 256 (Rocq's [ascii]), which covers every character the
      script tests for.  The pictographs that prefix the console messages of
      the source are left out of the message texts;
    - a number is an integer ([Z]), printed in decimal with all its digits.
      Fractional doubles, and integers of magnitude above 2^53 (which a
      double does not hold exactly, and which the engine prints with the
      shortest digits that identify the double), are outside the model;
      [StringToNumber], which may produce them, is a parameter;
    - there is no infinite number.  A page count given as [1e999] or as the
      text [Infinity] is outside the model, and with it the runs of the
      source that never leave the page loop: the loop of the model always
      ends.  A property that says that a run ends, or that its requests are
      finitely many, carries the hypothesis [announcesFiniteTotal];
    - [document.cookie] is one text for the whole run.  The source reads it
      again at every turn of the loop (through [getApiBase]); a cookie that
      changes while the script runs is outside the model;
    - objects carry no identity.  Every object the script handles is a fresh
      node of a [JSON.parse] result, and the only place identity is observed
      is the key comparison of [Map], where two object keys always come from
      different nodes and therefore never compare equal. *)

From Stdlib Require Import ZArith String Ascii List Bool DecimalString Lia.
From Stdlib Require DecimalZ.
From Equations Require Import Equations.
Import ListNotations.

Set Warnings "-register-all".

Local Open Scope string_scope.
Local Open Scope Z_scope.

(** ** Characters the script tests for *)

Definition DQUOTE : ascii := "034"%char.
Definition COMMA : ascii := ","%char.
Definition LF : ascii := "010"%char.
Definition CR : ascii := "013"%char.

Definition str1 (c : ascii) : string := String c EmptyString.

(** * The ECMAScript fragment *)

Module Js.

(** Exceptions.  [Error] is the script's own [new Error(message)]; the others
    are raised by the engine or the host, whose message texts are not fixed by
    the language. *)
Inductive Exn : Type :=
| Error (message : string)
| TypeError
| SyntaxError
| URIError
| HostError (reason : string).

Inductive Res (A : Type) : Type :=
| Ok (a : A)
| Throw (e : Exn).
Arguments Ok {A} a.
Arguments Throw {A} e.

Definition isOk {A} (r : Res A) : bool :=
  match r with Ok _ => true | Throw _ => false end.

(** Values, as [JSON.parse] builds them, plus [undefined] (the result of
    reading a property that is not there).  The property list of an object
    holds each key once; [lookup] reads the first entry of a key. *)
Inductive Value : Type :=
| JUndefined
| JNull
| JBool (b : bool)
| JNum (n : Z)
| JStr (s : string)
| JArr (elems : list Value)
| JObj (props : list (string * Value)).

Inductive Type_ : Type :=
| TUndefined | TNull | TBoolean | TNumber | TString | TObject.

(** The language type of a value (ECMAScript 6.1); arrays are objects. *)
Definition typeOf (v : Value) : Type_ :=
  match v with
  | JUndefined => TUndefined
  | JNull => TNull
  | JBool _ => TBoolean
  | JNum _ => TNumber
  | JStr _ => TString
  | JArr _ | JObj _ => TObject
  end.

Fixpoint lookup (k : string) (props : list (string * Value)) : option Value :=
  match props with
  | [] => None
  | (k', v) :: rest => if String.eqb k k' then Some v else lookup k rest
  end.

Definition hasOwn (props : list (string * Value)) (k : string) : bool :=
  match lookup k props with Some _ => true | None => false end.

(** [v.k] for the property names the script reads ([authenticated],
    [access_token], [user_id], [meta], [total_pages], [total_count],
    [workouts], [workout_items], [id], [workout_id], [due], [title], [name],
    [info], [result], [state]): none of them exists on a prototype, so on
    anything but a plain object the read gives [undefined], and on
    [undefined] and [null] it throws. *)
Definition Get (v : Value) (k : string) : Res Value :=
  match v with
  | JUndefined | JNull => Throw TypeError
  | JObj props =>
      Ok (match lookup k props with Some x => x | None => JUndefined end)
  | _ => Ok JUndefined
  end.

(** [v?.k] *)
Definition OptGet (v : Value) (k : string) : Value :=
  match v with
  | JObj props => match lookup k props with Some x => x | None => JUndefined end
  | _ => JUndefined
  end.

(** [ToBoolean] (ECMAScript 7.1.2). *)
Definition ToBoolean (v : Value) : bool :=
  match v with
  | JUndefined | JNull => false
  | JBool b => b
  | JNum n => negb (n =? 0)
  | JStr s => negb (String.eqb s EmptyString)
  | JArr _ | JObj _ => true
  end.

(** [a || b] *)
Definition or_ (a b : Value) : Value := if ToBoolean a then a else b.

(** [Number::toString] on integers. *)
Definition NumberToString (n : Z) : string :=
  NilZero.string_of_int (Z.to_int n).

(** [Array.prototype.join] on an array of strings. *)
Fixpoint join (sep : string) (l : list string) : string :=
  match l with
  | [] => EmptyString
  | [s] => s
  | s :: rest => s ++ sep ++ join sep rest
  end.

(** [ToString] (ECMAScript 7.1.17).  On an array it is
    [Array.prototype.join], which writes [undefined] and [null] elements as
    the empty string.  On a plain object it goes through
    [OrdinaryToPrimitive]: the inherited [toString] answers
    ["[object Object]"], unless the object has an own property named
    [toString], which a JSON value cannot make callable; [valueOf] then does
    not yield a primitive either, and the conversion throws. *)
Fixpoint ToString (v : Value) : Res string :=
  match v with
  | JUndefined => Ok "undefined"
  | JNull => Ok "null"
  | JBool true => Ok "true"
  | JBool false => Ok "false"
  | JNum n => Ok (NumberToString n)
  | JStr s => Ok s
  | JArr elems =>
      let fix elements (l : list Value) : Res (list string) :=
        match l with
        | [] => Ok []
        | e :: rest =>
            match (match e with
                   | JUndefined | JNull => Ok EmptyString
                   | _ => ToString e
                   end) with
            | Throw x => Throw x
            | Ok s =>
                match elements rest with
                | Throw x => Throw x
                | Ok ss => Ok (s :: ss)
                end
            end
        end in
      match elements elems with
      | Throw x => Throw x
      | Ok ss => Ok (join "," ss)
      end
  | JObj props =>
      if hasOwn props "toString" then Throw TypeError
      else Ok "[object Object]"
  end.

Section Numeric.

(** [StringToNumber] (ECMAScript 7.1.4.1.1) restricted to integral results;
    [None] stands for NaN. *)
Variable StringToNumber : string -> option Z.

(** [ToNumber] (ECMAScript 7.1.4); [None] stands for NaN.  An object is first
    turned into a primitive, which for a JSON value is the string [ToString]
    gives. *)
Definition ToNumber (v : Value) : Res (option Z) :=
  match v with
  | JUndefined => Ok None
  | JNull => Ok (Some 0)
  | JBool true => Ok (Some 1)
  | JBool false => Ok (Some 0)
  | JNum n => Ok (Some n)
  | JStr s => Ok (StringToNumber s)
  | JArr _ | JObj _ =>
      match ToString v with
      | Throw x => Throw x
      | Ok s => Ok (StringToNumber s)
      end
  end.

(** [a <= b] for a number [a]: false as soon as [b] is NaN. *)
Definition le_ (a : Z) (b : Value) : Res bool :=
  match ToNumber b with
  | Throw x => Throw x
  | Ok None => Ok false
  | Ok (Some n) => Ok (a <=? n)
  end.

End Numeric.

(** [SameValueZero] (ECMAScript 7.2.11), the key comparison of [Map].  Two
    objects are the same only when they are one object, which never happens
    between two nodes of parsed JSON. *)
Definition SameValueZero (x y : Value) : bool :=
  match x, y with
  | JUndefined, JUndefined => true
  | JNull, JNull => true
  | JBool a, JBool b => Bool.eqb a b
  | JNum a, JNum b => a =? b
  | JStr a, JStr b => String.eqb a b
  | _, _ => false
  end.

(** [Map]: entries in insertion order.  [set] overwrites the value of a key
    that is present and keeps its position, else appends. *)
Definition Map : Type := list (Value * Value).

Definition Map_new : Map := [].

Fixpoint Map_set (m : Map) (k v : Value) : Map :=
  match m with
  | [] => [(k, v)]
  | (k', v') :: rest =>
      if SameValueZero k' k then (k', v) :: rest
      else (k', v') :: Map_set rest k v
  end.

Fixpoint Map_get (m : Map) (k : Value) : Value :=
  match m with
  | [] => JUndefined
  | (k', v') :: rest => if SameValueZero k' k then v' else Map_get rest k
  end.

(** *** String methods *)

(** [str.startsWith(search)] *)
Definition startsWith (str search : string) : bool := String.prefix search str.

(** [str.includes(search)] *)
Fixpoint includes (str search : string) : bool :=
  if String.prefix search str then true
  else match str with
       | EmptyString => false
       | String _ rest => includes rest search
       end.

(** [str.split(sep)] for a one-character separator. *)
Fixpoint split (sep : ascii) (str : string) : list string :=
  match str with
  | EmptyString => [EmptyString]
  | String c rest =>
      if Ascii.eqb c sep then EmptyString :: split sep rest
      else match split sep rest with
           | [] => [str1 c]
           | piece :: pieces => String c piece :: pieces
           end
  end.

(** White space and line terminators below code unit 256. *)
Definition isWhiteSpace (c : ascii) : bool :=
  match nat_of_ascii c with
  | 9%nat | 10%nat | 11%nat | 12%nat | 13%nat | 32%nat | 160%nat => true
  | _ => false
  end.

Fixpoint trimStart (s : string) : string :=
  match s with
  | EmptyString => EmptyString
  | String c rest => if isWhiteSpace c then trimStart rest else s
  end.

Fixpoint trimEnd (s : string) : string :=
  match s with
  | EmptyString => EmptyString
  | String c rest =>
      match trimEnd rest with
      | EmptyString => if isWhiteSpace c then EmptyString else str1 c
      | kept => String c kept
      end
  end.

(** [str.trim()] *)
Definition trim (s : string) : string := trimEnd (trimStart s).

(** [str.replace(/c/g, by)] for a one-character pattern. *)
Fixpoint replaceAll (c : ascii) (by_ : string) (str : string) : string :=
  match str with
  | EmptyString => EmptyString
  | String x rest =>
      (if Ascii.eqb x c then by_ else str1 x) ++ replaceAll c by_ rest
  end.

(** Iterating a value with spread syntax: arrays give their elements, strings
    their characters, anything else is not iterable. *)
Definition iterate (v : Value) : Res (list Value) :=
  match v with
  | JArr elems => Ok elems
  | JStr s => Ok (map (fun c => JStr (str1 c)) (list_ascii_of_string s))
  | _ => Throw TypeError
  end.

End Js.

(** * Effects: what a run can be seen to do *)

Module Run.
Import Js.

(** The request of [fetch(url, {method: 'GET', headers: {...}})]: every header
    but [Authorization] is a constant of the script. *)
Record Request : Type := mkRequest {
  url : string;
  authorization : string
}.

(** The parts of a [Response] the script reads; [json] is what
    [await response.json()] gives. *)
Record Response : Type := mkResponse {
  ok : bool;
  status : Z;
  statusText : string;
  json : Res Value
}.

(** The browser, as far as the script uses it. *)
Record Host : Type := mkHost {
  document_cookie : string;
  decodeURIComponent : string -> Res string;
  JSON_parse : string -> Res Value;
  StringToNumber : string -> option Z;
  fetch : Request -> Res Response;
  (** [new Date().toISOString()] *)
  Date_toISOString : string
}.

(** Observable events, in the order they happen.  The second argument of
    [ConsoleError], when present, stands for the exception the script passes
    to [console.error] (or its [message]).  [Download] stands for the
    [Blob]/anchor sequence that hands the text to the browser under a
    file name. *)
Inductive Event : Type :=
| Fetch (request : Request)
| Sleep (ms : Z)
| ConsoleLog (message : string)
| ConsoleWarn (message : string)
| ConsoleError (message : string) (about : option Exn)
| Download (filename : string) (content : string).

(** A computation: the events it emitted, then its value or the exception
    that ended it. *)
Definition M (A : Type) : Type := (list Event * Res A)%type.

Definition ret {A} (a : A) : M A := ([], Ok a).

Definition bind {A B} (m : M A) (k : A -> M B) : M B :=
  match m with
  | (t, Throw e) => (t, Throw e)
  | (t, Ok a) => let (t', r) := k a in ((t ++ t')%list, r)
  end.

Definition lift {A} (r : Res A) : M A := ([], r).
Definition throw {A} (e : Exn) : M A := ([], Throw e).
Definition emit (ev : Event) : M unit := ([ev], Ok tt).

(** [try { m } catch (error) { handler error }] *)
Definition tryCatch {A} (m : M A) (handler : Exn -> M A) : M A :=
  match m with
  | (t, Throw e) => let (t', r) := handler e in ((t ++ t')%list, r)
  | (t, Ok a) => (t, Ok a)
  end.

Definition trace {A} (m : M A) : list Event := fst m.
Definition result {A} (m : M A) : Res A := snd m.

End Run.

Declare Scope run_scope.
Delimit Scope run_scope with run.
Notation "x <- m ;; k" := (Run.bind m (fun x => k))
  (at level 61, m at next level, right associativity) : run_scope.
Notation "m ;; k" := (Run.bind m (fun _ => k))
  (at level 61, right associativity) : run_scope.

(** * The script *)

Import Js Run.
Local Open Scope run_scope.

Definition PER_PAGE : Z := 20.
Definition STATES : string := "completed".

Definition getAuthCookie (h : Host) : M Value :=
  let cookies := map trim (split ";" (document_cookie h)) in
  match find (fun c => startsWith c "ember_simple_auth-session=") cookies with
  | None => ret JNull
  | Some cookie =>
      if negb (ToBoolean (JStr cookie)) then ret JNull
      else
        value <- lift (decodeURIComponent h
                         (nth 1 (split "=" cookie) "undefined")) ;;
        match JSON_parse h value with
        | Throw e =>
            emit (ConsoleError
                    "Failed to parse ember_simple_auth-session cookie" (Some e)) ;;
            ret JNull
        | Ok json => ret json
        end
  end.

(** Extract bearer token from Ember Simple Auth session cookie *)
Definition getBearerToken (h : Host) : M Value :=
  json <- getAuthCookie h ;;
  ret (or_ (OptGet (OptGet json "authenticated") "access_token") JNull).

Definition getClientID (h : Host) : M Value :=
  json <- getAuthCookie h ;;
  ret (or_ (OptGet (OptGet json "authenticated") "user_id") JNull).

Definition getApiBase (h : Host) : M string :=
  CLIENT_ID <- getClientID h ;;
  client <- lift (ToString CLIENT_ID) ;;
  ret ("https://app.truecoach.co/proxy/api/clients/" ++ client ++ "/workouts").

(** The variables the page loop assigns. *)
Record LoopState : Type := mkLoopState {
  allWorkouts : list Value;
  allWorkoutItems : list Value;
  currentPage : Z;
  totalPages : Value
}.

Definition initialState : LoopState :=
  {| allWorkouts := []; allWorkoutItems := [];
     currentPage := 1; totalPages := JNum 1 |}.

(** The body of the [do ... while] loop, from [getApiBase()] to the delay. *)
Definition iteration (h : Host) (token : Value) (st : LoopState) : M LoopState :=
  API_BASE <- getApiBase h ;;
  let url := API_BASE ++ "?states=" ++ STATES
             ++ "&per_page=" ++ NumberToString PER_PAGE
             ++ "&page=" ++ NumberToString (currentPage st)
             ++ "&order=desc" in
  bearer <- lift (ToString token) ;;
  let request := {| url := url; authorization := "Bearer " ++ bearer |} in
  emit (Fetch request) ;;
  response <- lift (fetch h request) ;;
  (if negb (ok response)
   then throw (Error ("API request failed: "
                      ++ NumberToString (status response) ++ " "
                      ++ statusText response))
   else ret tt) ;;
  data <- lift (json response) ;;
  (* On first request, get total pages *)
  totalPages' <-
    (if currentPage st =? 1 then
       meta <- lift (Get data "meta") ;;
       total_pages <- lift (Get meta "total_pages") ;;
       total_count <- lift (Get meta "total_count") ;;
       count <- lift (ToString total_count) ;;
       pages <- lift (ToString total_pages) ;;
       emit (ConsoleLog ("Found " ++ count ++ " workouts across "
                         ++ pages ++ " pages")) ;;
       ret total_pages
     else ret (totalPages st)) ;;
  pages <- lift (ToString totalPages') ;;
  emit (ConsoleLog ("Fetching page " ++ NumberToString (currentPage st)
                    ++ " of " ++ pages ++ "...")) ;;
  (* Collect data *)
  workouts <- lift (Get data "workouts") ;;
  newWorkouts <- lift (iterate (or_ workouts (JArr []))) ;;
  workout_items <- lift (Get data "workout_items") ;;
  newItems <- lift (iterate (or_ workout_items (JArr []))) ;;
  let currentPage' := currentPage st + 1 in
  (* Small delay to avoid rate limiting *)
  more <- lift (le_ (StringToNumber h) currentPage' totalPages') ;;
  (if more : bool then emit (Sleep 200) else ret tt) ;;
  ret {| allWorkouts := (allWorkouts st ++ newWorkouts)%list;
         allWorkoutItems := (allWorkoutItems st ++ newItems)%list;
         currentPage := currentPage';
         totalPages := totalPages' |}.

(** The loop condition [currentPage <= totalPages]. *)
Definition loopCondition (h : Host) (st : LoopState) : Res bool :=
  le_ (StringToNumber h) (currentPage st) (totalPages st).

(** Termination measure of the loop: the first component falls once page 1
    has fixed [totalPages], the second counts the pages still to fetch. *)
Definition phase (st : LoopState) : nat :=
  if currentPage st <=? 1 then 1%nat else 0%nat.

Definition pagesLeft (h : Host) (st : LoopState) : nat :=
  match ToNumber (StringToNumber h) (totalPages st) with
  | Ok (Some n) => Z.to_nat (n - currentPage st + 1)
  | _ => 0%nat
  end.

Definition loopMeasure (h : Host) (st : LoopState) : nat * nat :=
  (phase st, pagesLeft h st).

(** Inversion of a computation that ended normally. *)
Lemma bind_Ok_inv {A B} (m : M A) (k : A -> M B) t b :
  Run.bind m k = (t, Ok b) ->
  exists t1 a t2, m = (t1, Ok a) /\ k a = (t2, Ok b) /\ t = (t1 ++ t2)%list.
Proof.
  unfold Run.bind. destruct m as [t1 [a | e]]; [| discriminate].
  destruct (k a) as [t2 r] eqn:Hk. intros H. inversion H; subst.
  exists t1, a, t2. auto.
Qed.

Ltac bind_invs H :=
  lazymatch type of H with
  | Run.bind _ _ = (_, Ok _) =>
      let Hm := fresh "Hm" in
      apply bind_Ok_inv in H;
      destruct H as (? & ? & ? & Hm & H & ?);
      bind_invs H
  | _ => idtac
  end.

(** One turn of the loop moves to the next page, and leaves [totalPages]
    alone on every page but the first. *)
Lemma iteration_step h token st t st' :
  iteration h token st = (t, Ok st') ->
  currentPage st' = currentPage st + 1 /\
  (currentPage st <> 1 -> totalPages st' = totalPages st).
Proof.
  unfold iteration. intros H. bind_invs H.
  inversion H; subst; clear H. simpl. split; [reflexivity |].
  intros Hne.
  match goal with
  | Hm : (if currentPage st =? 1 then _ else _) = _ |- _ =>
      destruct (Z.eqb_spec (currentPage st) 1) as [E | _]; [contradiction |];
      inversion Hm; reflexivity
  end.
Qed.

(** While the loop condition holds after a turn, the measure has fallen. *)
Lemma iteration_decreases h token st t st' :
  iteration h token st = (t, Ok st') ->
  loopCondition h st' = Ok true ->
  lexprod nat nat lt lt (loopMeasure h st') (loopMeasure h st).
Proof.
  intros Hit Hc. apply iteration_step in Hit. destruct Hit as [Hp Ht].
  unfold loopMeasure, phase, pagesLeft.
  unfold loopCondition, le_ in Hc.
  destruct (Z.leb_spec (currentPage st) 1) as [Hle | Hgt].
  - destruct (Z.leb_spec (currentPage st') 1) as [Hle' | Hgt'].
    + assert (Hne : currentPage st <> 1) by lia.
      rewrite <- (Ht Hne).
      destruct (ToNumber (StringToNumber h) (totalPages st')) as [[n |] | e];
        try discriminate.
      inversion Hc as [Hn]. apply Z.leb_le in Hn.
      apply right_lex. lia.
    + apply left_lex. lia.
  - destruct (Z.leb_spec (currentPage st') 1) as [Hle' | Hgt']; [lia |].
    assert (Hne : currentPage st <> 1) by lia.
    rewrite <- (Ht Hne).
    destruct (ToNumber (StringToNumber h) (totalPages st')) as [[n |] | e];
      try discriminate.
    inversion Hc as [Hn]. apply Z.leb_le in Hn.
    apply right_lex. lia.
Qed.

Definition inspect {A} (a : A) : {b : A | a = b} := exist _ a eq_refl.

(** The order is well founded; the layers of [Acc_intro] put in front let
    closed runs of the loop evaluate. *)
#[local] Instance loopOrder_wf : WellFounded (lexprod nat nat lt lt) :=
  Acc_intro_generator 32 (wf_lexprod nat nat lt lt lt_wf lt_wf).
#[local] Opaque loopOrder_wf.

(** The [do { ... } while (currentPage <= totalPages)] loop. *)
Equations? doWhile (h : Host) (token : Value) (st : LoopState) : M LoopState
  by wf (loopMeasure h st) (lexprod nat nat lt lt) :=
doWhile h token st with inspect (iteration h token st) := {
  | exist _ (t, Throw e) _ => (t, Throw e);
  | exist _ (t, Ok st') Hit with inspect (loopCondition h st') := {
    | exist _ (Throw e) _ => (t, Throw e);
    | exist _ (Ok false) _ => (t, Ok st');
    | exist _ (Ok true) Hc =>
        let (t', r) := doWhile h token st' in ((t ++ t')%list, r) } }.
Proof. eapply iteration_decreases; eassumption. Qed.
#[local] Transparent loopOrder_wf.

(** Build workout lookup map for joining:
    [for (const workout of allWorkouts) workoutMap.set(workout.id, workout)] *)
Fixpoint buildWorkoutMap (workoutMap : Map) (workouts : list Value) : Res Map :=
  match workouts with
  | [] => Ok workoutMap
  | workout :: rest =>
      match Get workout "id" with
      | Throw e => Throw e
      | Ok id => buildWorkoutMap (Map_set workoutMap id workout) rest
      end
  end.

(** Header row *)
Definition headerRow : list Value :=
  [JStr "date"; JStr "exercise_name"; JStr "instructions"; JStr "result";
   JStr "state"; JStr "workout_title"].

(** Data rows - join workout items to their parent workout:
    the [for (const item of allWorkoutItems)] loop, pushing onto [csvRows]. *)
Fixpoint dataRows (workoutMap : Map) (csvRows : list (list Value))
    (items : list Value) : M (list (list Value)) :=
  match items with
  | [] => ret csvRows
  | item :: rest =>
      workout_id <- lift (Get item "workout_id") ;;
      let workout := Map_get workoutMap workout_id in
      if negb (ToBoolean workout) then
        id <- lift (Get item "id") ;;
        shown <- lift (ToString id) ;;
        emit (ConsoleWarn ("Orphan workout item: " ++ shown)) ;;
        dataRows workoutMap csvRows rest
      else
        due <- lift (Get workout "due") ;;
        name <- lift (Get item "name") ;;
        info <- lift (Get item "info") ;;
        result <- lift (Get item "result") ;;
        state <- lift (Get item "state") ;;
        title <- lift (Get workout "title") ;;
        let empty := JStr EmptyString in
        dataRows workoutMap
          (csvRows ++ [[or_ due empty; or_ name empty; or_ info empty;
                        or_ result empty; or_ state empty;
                        or_ title empty]])%list
          rest
  end.

(** [array.map(f)] for a callback that may throw. *)
Fixpoint mapRes {A B} (f : A -> Res B) (l : list A) : Res (list B) :=
  match l with
  | [] => Ok []
  | x :: rest =>
      match f x with
      | Throw e => Throw e
      | Ok y =>
          match mapRes f rest with
          | Throw e => Throw e
          | Ok ys => Ok (y :: ys)
          end
      end
  end.

(** The callback of the inner [map]: escape quotes and wrap in quotes if the
    text contains comma, quote, or newline. *)
Definition csvCell (cell : Value) : Res string :=
  match ToString cell with
  | Throw e => Throw e
  | Ok str =>
      if includes str "," || includes str (str1 DQUOTE)
         || includes str (str1 LF) || includes str (str1 CR)
      then Ok (str1 DQUOTE
               ++ replaceAll DQUOTE (String DQUOTE (str1 DQUOTE)) str
               ++ str1 DQUOTE)
      else Ok str
  end.

Definition csvRow (row : list Value) : Res string :=
  match mapRes csvCell row with
  | Throw e => Throw e
  | Ok cells => Ok (join "," cells)
  end.

(** Convert to CSV string with proper escaping *)
Definition csvContent (csvRows : list (list Value)) : Res string :=
  match mapRes csvRow csvRows with
  | Throw e => Throw e
  | Ok lines => Ok (join (str1 LF) lines)
  end.

(** [`truecoach-workouts-${new Date().toISOString().split('T')[0]}.csv`] *)
Definition downloadName (h : Host) : string :=
  "truecoach-workouts-"
  ++ hd "undefined" (split "T" (Date_toISOString h)) ++ ".csv".

(** The part of the [try] block that follows the page loop: join,
    serialise, hand over. *)
Definition exportRows (h : Host) (workouts items : list Value) : M unit :=
  emit (ConsoleLog ("Fetched "
                    ++ NumberToString (Z.of_nat (length workouts))
                    ++ " workouts and "
                    ++ NumberToString (Z.of_nat (length items))
                    ++ " exercises")) ;;
  workoutMap <- lift (buildWorkoutMap Map_new workouts) ;;
  csvRows <- dataRows workoutMap [headerRow] items ;;
  content <- lift (csvContent csvRows) ;;
  (* Trigger download *)
  emit (Download (downloadName h) content) ;;
  emit (ConsoleLog ("Export complete! Downloaded "
                    ++ NumberToString (Z.of_nat (length csvRows) - 1)
                    ++ " exercise records.")) ;;
  emit (ConsoleLog "Check your Downloads folder for the CSV file.").

Definition exportTrueCoachWorkouts (h : Host) : M unit :=
  emit (ConsoleLog "TrueCoach Export - Starting...") ;;
  token <- getBearerToken h ;;
  if negb (ToBoolean token) then
    emit (ConsoleError
            "Could not extract bearer token. Make sure you are logged into TrueCoach."
            None)
  else
    emit (ConsoleLog "Bearer token extracted successfully") ;;
    tryCatch
      (st <- doWhile h token initialState ;;
       exportRows h (allWorkouts st) (allWorkoutItems st))
      (fun error =>
         emit (ConsoleError "Export failed:" (Some error)) ;;
         emit (ConsoleError
                 "Make sure you are logged into TrueCoach in this browser tab."
                 None)).

(** * A reference reader for RFC 4180 text

    Fields are separated by commas and records by a line break (LF, CRLF or
    CR).  A field that starts with a double quote runs to the matching double
    quote, with two double quotes in a row standing for one; inside it commas
    and line breaks are data.  A line break at the very end of the text does
    not start a further record. *)

Module Csv.

Inductive State : Type :=
| FieldStart   (* nothing of the current field read yet *)
| Unquoted     (* inside a field that did not start with a quote *)
| Quoted       (* inside a quoted field *)
| QuoteSeen    (* inside a quoted field, just after a double quote *)
| AfterCR.     (* a CR has just closed a record *)

Record Config : Type := mkConfig {
  state : State;
  field : string;              (* the text of the current field so far *)
  row : list string;           (* the fields of the current record so far *)
  rows : list (list string)    (* the records read so far *)
}.

Definition start : Config :=
  {| state := FieldStart; field := EmptyString; row := []; rows := [] |}.

Definition endField (cfg : Config) : Config :=
  {| state := FieldStart; field := EmptyString;
     row := (row cfg ++ [field cfg])%list; rows := rows cfg |}.

Definition endRecord (after : State) (cfg : Config) : Config :=
  {| state := after; field := EmptyString; row := [];
     rows := (rows cfg ++ [(row cfg ++ [field cfg])%list])%list |}.

Definition addChar (st : State) (c : ascii) (cfg : Config) : Config :=
  {| state := st; field := field cfg ++ str1 c;
     row := row cfg; rows := rows cfg |}.

Definition goto (st : State) (cfg : Config) : Config :=
  {| state := st; field := field cfg; row := row cfg; rows := rows cfg |}.

Definition atFieldStart (cfg : Config) (c : ascii) : Config :=
  if Ascii.eqb c DQUOTE then goto Quoted cfg
  else if Ascii.eqb c COMMA then endField cfg
  else if Ascii.eqb c LF then endRecord FieldStart cfg
  else if Ascii.eqb c CR then endRecord AfterCR cfg
  else addChar Unquoted c cfg.

Definition step (cfg : Config) (c : ascii) : Config :=
  match state cfg with
  | FieldStart => atFieldStart cfg c
  | AfterCR =>
      if Ascii.eqb c LF then goto FieldStart cfg else atFieldStart cfg c
  | Unquoted =>
      if Ascii.eqb c COMMA then endField cfg
      else if Ascii.eqb c LF then endRecord FieldStart cfg
      else if Ascii.eqb c CR then endRecord AfterCR cfg
      else addChar Unquoted c cfg
  | Quoted =>
      if Ascii.eqb c DQUOTE then goto QuoteSeen cfg
      else addChar Quoted c cfg
  | QuoteSeen =>
      if Ascii.eqb c DQUOTE then addChar Quoted c cfg
      else if Ascii.eqb c COMMA then endField cfg
      else if Ascii.eqb c LF then endRecord FieldStart cfg
      else if Ascii.eqb c CR then endRecord AfterCR cfg
      else addChar Unquoted c cfg
  end.

Fixpoint run (cfg : Config) (input : string) : Config :=
  match input with
  | EmptyString => cfg
  | String c rest => run (step cfg c) rest
  end.

(** End of input: a record that has begun is closed. *)
Definition finish (cfg : Config) : list (list string) :=
  match state cfg, row cfg with
  | AfterCR, _ => rows cfg
  | FieldStart, [] => rows cfg
  | _, _ => (rows cfg ++ [(row cfg ++ [field cfg])%list])%list
  end.

Definition parse (input : string) : list (list string) :=
  finish (run start input).

End Csv.

(** * Notions used to state the properties *)

(** ** Cells *)

(** The characters that force quoting: the separator, the double quote and
    the two line-break characters of RFC 4180. *)
Definition special (c : ascii) : Prop :=
  c = COMMA \/ c = DQUOTE \/ c = LF \/ c = CR.

Definition needsQuoting (s : string) : Prop :=
  exists c, In c (list_ascii_of_string s) /\ special c.

(** [s] with every double quote written twice. *)
Definition doubleQuotes (s : string) : string :=
  string_of_list_ascii
    (flat_map (fun c => if Ascii.eqb c DQUOTE then [DQUOTE; DQUOTE] else [c])
              (list_ascii_of_string s)).

(** What a cell holding the text [s] looks like in the output. *)
Definition quoted (s : string) : string :=
  str1 DQUOTE ++ doubleQuotes s ++ str1 DQUOTE.

(** The text of every cell of a table of values. *)
Definition cellStrings (table : list (list Value)) : Res (list (list string)) :=
  mapRes (mapRes ToString) table.

(** ** Records *)

Definition isObject (v : Value) : bool :=
  match v with JObj _ => true | _ => false end.

(** The conversion of [v] to text succeeds. *)
Definition textual (v : Value) : bool := isOk (ToString v).

(** A workout: an object whose [due] and [title] convert to text. *)
Definition ParentRecord (v : Value) : bool :=
  isObject v && textual (OptGet v "due") && textual (OptGet v "title").

(** A workout item: an object whose [id] and descriptive fields convert to
    text. *)
Definition ChildRecord (v : Value) : bool :=
  isObject v && textual (OptGet v "id")
  && textual (OptGet v "name") && textual (OptGet v "info")
  && textual (OptGet v "result") && textual (OptGet v "state").

(** ** The join *)

(** The item's [workout_id] is the workout's [id], as keys of a [Map]. *)
Definition matches (item workout : Value) : bool :=
  SameValueZero (OptGet workout "id") (OptGet item "workout_id").

Definition hasParent (workouts : list Value) (item : Value) : bool :=
  existsb (matches item) workouts.

(** The last workout an item matches, [undefined] when there is none. *)
Definition lastParent (workouts : list Value) (item : Value) : Value :=
  match find (matches item) (rev workouts) with
  | Some workout => workout
  | None => JUndefined
  end.

Definition joinedRow (workout item : Value) : list Value :=
  map (fun v => or_ v (JStr EmptyString))
      [OptGet workout "due"; OptGet item "name"; OptGet item "info";
       OptGet item "result"; OptGet item "state"; OptGet workout "title"].

Definition orphanWarning (item : Value) : Event :=
  ConsoleWarn ("Orphan workout item: "
               ++ match ToString (OptGet item "id") with
                  | Ok shown => shown
                  | Throw _ => EmptyString
                  end).

(** ** Runs *)

Fixpoint requests (t : list Event) : list Request :=
  match t with
  | [] => []
  | Fetch r :: rest => r :: requests rest
  | _ :: rest => requests rest
  end.

Definition isDownload (ev : Event) : bool :=
  match ev with Download _ _ => true | _ => false end.

(** The request the script sends for page [p]. *)
Definition pageRequest (client bearer : string) (p : Z) : Request :=
  {| url := "https://app.truecoach.co/proxy/api/clients/" ++ client
            ++ "/workouts?states=completed&per_page=20&page="
            ++ NumberToString p ++ "&order=desc";
     authorization := "Bearer " ++ bearer |}.

(** What [...(v || [])] accepts: nothing, an array, or a string. *)
Definition spreadable (v : Value) : bool :=
  isOk (iterate (or_ v (JArr []))).

(** The host answers [request] with a success response whose body is the
    JSON value [data], and the two record lists of [data] can be spread. *)
Definition servesPage (h : Host) (request : Request) (data : Value) : Prop :=
  exists r,
    fetch h request = Ok r /\ ok r = true /\ json r = Ok data
    /\ isObject data = true
    /\ spreadable (OptGet data "workouts") = true
    /\ spreadable (OptGet data "workout_items") = true.

(** ** Written cells *)

(** The test of the serialiser, as one boolean. *)
Definition mustQuote (s : string) : bool :=
  includes s "," || includes s (str1 DQUOTE)
  || includes s (str1 LF) || includes s (str1 CR).

(** The text written for a cell holding [s]. *)
Definition written (s : string) : string :=
  if mustQuote s then quoted s else s.

Definition lineOf (cells : list string) : string :=
  join "," (map written cells).

Definition textOf (table : list (list string)) : string :=
  join (str1 LF) (map lineOf table).

Definition headerText : list string :=
  ["date"; "exercise_name"; "instructions"; "result"; "state";
   "workout_title"].

(** What the script writes for a field holding [v]: nothing when [v] is
    falsy, else the text of [v]. *)
Definition fieldText (v : Value) : Res string :=
  if ToBoolean v then ToString v else Ok EmptyString.

(** ** Notions of the round-trip proof *)

Definition plainChar (c : ascii) : Prop :=
  Ascii.eqb c COMMA = false /\ Ascii.eqb c DQUOTE = false
  /\ Ascii.eqb c LF = false /\ Ascii.eqb c CR = false.

(** The reader has just taken in a cell holding [s]. *)
Inductive holds (s : string) (rw : list string) (rws : list (list string))
  : Csv.Config -> Prop :=
| holds_empty : s = EmptyString ->
    holds s rw rws (Csv.mkConfig Csv.FieldStart EmptyString rw rws)
| holds_unquoted : holds s rw rws (Csv.mkConfig Csv.Unquoted s rw rws)
| holds_quoted : holds s rw rws (Csv.mkConfig Csv.QuoteSeen s rw rws).

(** ** Joined rows *)

Definition joinedRows (workouts items : list Value) : list (list Value) :=
  map (fun item => joinedRow (lastParent workouts item) item)
      (filter (hasParent workouts) items).

Definition orphanWarnings (workouts items : list Value) : list Event :=
  map orphanWarning
      (filter (fun item => negb (hasParent workouts item)) items).

(** ** Events *)

Definition isFetch (ev : Event) : bool :=
  match ev with Fetch _ => true | _ => false end.

(** Console output and delays: neither a request nor a download. *)
Definition silent (ev : Event) : bool :=
  negb (isFetch ev) && negb (isDownload ev).

(** The message of the error thrown on a response that is not [ok]. *)
Definition failureMessage (r : Response) : string :=
  "API request failed: " ++ NumberToString (status r) ++ " " ++ statusText r.

(** ** Pages and sessions *)

(** The pages 1, 2, ..., [n]. *)
Definition pageNumbers (n : Z) : list Z :=
  map Z.of_nat (seq 1 (Z.to_nat n)).

(** Page 1 carries a count of pages and a count of workouts that has a
    text. *)
Definition reportsTotal (data : Value) (N : Z) : Prop :=
  OptGet (OptGet data "meta") "total_pages" = JNum N
  /\ textual (OptGet (OptGet data "meta") "total_count") = true.

(** The two credentials of a parsed session. *)
Definition access_token (json : Value) : Value :=
  OptGet (OptGet json "authenticated") "access_token".

Definition user_id (json : Value) : Value :=
  OptGet (OptGet json "authenticated") "user_id".

(** Strict key equality, in words: the same type and the same value. *)
Definition sameKey (x y : Value) : Prop := typeOf x = typeOf y /\ x = y.

(** ** The parts of the script, for the further properties *)

(** The value of the variable [cookie] in [getAuthCookie]: the first piece
    of [document.cookie] that, once trimmed, starts with the session name. *)
Definition authCookie (h : Host) : option string :=
  find (fun c => startsWith c "ember_simple_auth-session=")
       (map trim (split ";" (document_cookie h))).

(** What [getAuthCookie] does once it holds the text to decode. *)
Definition decodeAndParse (h : Host) (encoded : string) : M Value :=
  match decodeURIComponent h encoded with
  | Throw e => ([], Throw e)
  | Ok value =>
      match JSON_parse h value with
      | Throw e =>
          ([ConsoleError "Failed to parse ember_simple_auth-session cookie"
                         (Some e)], Ok JNull)
      | Ok json => ([], Ok json)
      end
  end.

(** A count of pages that [currentPage <= totalPages] reads as a finite
    number without parsing any text: a number, a boolean, [null], or nothing
    at all. *)
Definition finiteCount (v : Value) : bool :=
  match v with
  | JStr _ | JArr _ | JObj _ => false
  | _ => true
  end.

(** Whatever answers a request for page 1 announces a finite count of
    pages. *)
Definition announcesFiniteTotal (h : Host) : Prop :=
  forall client bearer r data,
    fetch h (pageRequest client bearer 1) = Ok r -> json r = Ok data ->
    finiteCount (OptGet (OptGet data "meta") "total_pages") = true.

(** [undefined] or [null]: the values a property read throws on. *)
Definition nullish (v : Value) : bool :=
  match v with JUndefined | JNull => true | _ => false end.

(** The request the loop body builds from the API base, the text of the
    token and the page number. *)
Definition requestOf (base bearer : string) (page : Z) : Request :=
  {| url := base ++ "?states=" ++ STATES
            ++ "&per_page=" ++ NumberToString PER_PAGE
            ++ "&page=" ++ NumberToString page ++ "&order=desc";
     authorization := "Bearer " ++ bearer |}.

(** The loop body from the test of [response.ok] on, as in [iteration]. *)
Definition afterFetch (h : Host) (st : LoopState) (response : Response)
  : M LoopState :=
  ((if negb (ok response)
    then throw (Error ("API request failed: "
                       ++ NumberToString (status response) ++ " "
                       ++ statusText response))
    else ret tt) ;;
   data <- lift (json response) ;;
   totalPages' <-
     (if currentPage st =? 1 then
        meta <- lift (Get data "meta") ;;
        total_pages <- lift (Get meta "total_pages") ;;
        total_count <- lift (Get meta "total_count") ;;
        count <- lift (ToString total_count) ;;
        pages <- lift (ToString total_pages) ;;
        emit (ConsoleLog ("Found " ++ count ++ " workouts across "
                          ++ pages ++ " pages")) ;;
        ret total_pages
      else ret (totalPages st)) ;;
   pages <- lift (ToString totalPages') ;;
   emit (ConsoleLog ("Fetching page " ++ NumberToString (currentPage st)
                     ++ " of " ++ pages ++ "...")) ;;
   workouts <- lift (Get data "workouts") ;;
   newWorkouts <- lift (iterate (or_ workouts (JArr []))) ;;
   workout_items <- lift (Get data "workout_items") ;;
   newItems <- lift (iterate (or_ workout_items (JArr []))) ;;
   let currentPage' := currentPage st + 1 in
   more <- lift (le_ (StringToNumber h) currentPage' totalPages') ;;
   (if more : bool then emit (Sleep 200) else ret tt) ;;
   ret {| allWorkouts := (allWorkouts st ++ newWorkouts)%list;
          allWorkoutItems := (allWorkoutItems st ++ newItems)%list;
          currentPage := currentPage';
          totalPages := totalPages' |})%run.

(** The elements [...(v || [])] pushes. *)
Definition spread (v : Value) : list Value :=
  match iterate (or_ v (JArr [])) with
  | Ok elems => elems
  | Throw _ => []
  end.

Definition pageWorkouts (data : Value) : list Value :=
  spread (OptGet data "workouts").

Definition pageItems (data : Value) : list Value :=
  spread (OptGet data "workout_items").

(** The network side of a trace: its requests and its delays. *)
Definition isSleep (ev : Event) : bool :=
  match ev with Sleep _ => true | _ => false end.

Definition network (t : list Event) : list Event :=
  filter (fun ev => isFetch ev || isSleep ev) t.

(** Requests with a delay of 200 ms between two of them, and none before
    the first or after the last. *)
Fixpoint schedule (reqs : list Request) : list Event :=
  match reqs with
  | [] => []
  | [req] => [Fetch req]
  | req :: rest => Fetch req :: Sleep 200 :: schedule rest
  end.

(** The first line of the [catch] block. *)
Definition isFailureReport (ev : Event) : bool :=
  match ev with
  | ConsoleError message _ => String.eqb message "Export failed:"
  | _ => false
  end.

(** What the page loop may emit: requests, delays, progress lines, and the
    complaint of [getAuthCookie] about a cookie that does not parse. *)
Definition loopEvent (ev : Event) : bool :=
  match ev with
  | Fetch _ | Sleep _ | ConsoleLog _ => true
  | ConsoleError message _ =>
      String.eqb message "Failed to parse ember_simple_auth-session cookie"
  | _ => false
  end.

(** What the rest of the [try] block may emit: progress lines, orphan
    warnings and the download. *)
Definition exportEvent (ev : Event) : bool :=
  match ev with
  | ConsoleLog _ | ConsoleWarn _ | Download _ _ => true
  | _ => false
  end.

Definition startLine : Event := ConsoleLog "TrueCoach Export - Starting...".

Definition tokenLine : Event :=
  ConsoleLog "Bearer token extracted successfully".

Definition noTokenLine : Event :=
  ConsoleError
    "Could not extract bearer token. Make sure you are logged into TrueCoach."
    None.

Definition failureLines (error : Exn) : list Event :=
  [ConsoleError "Export failed:" (Some error);
   ConsoleError "Make sure you are logged into TrueCoach in this browser tab."
                None].

(** The [try ... catch] statement of the script, as in
    [exportTrueCoachWorkouts]. *)
Definition tryBlock (h : Host) (token : Value) : M unit :=
  tryCatch
    (st <- doWhile h token initialState ;;
     exportRows h (allWorkouts st) (allWorkoutItems st))%run
    (fun error =>
       emit (ConsoleError "Export failed:" (Some error)) ;;
       emit (ConsoleError
               "Make sure you are logged into TrueCoach in this browser tab."
               None))%run.

(** * Example hosts *)

Module Examples.

Definition hexValue (c : ascii) : option nat :=
  let n := nat_of_ascii c in
  if (48 <=? n)%nat && (n <=? 57)%nat then Some (n - 48)%nat
  else if (65 <=? n)%nat && (n <=? 70)%nat then Some (n - 55)%nat
  else if (97 <=? n)%nat && (n <=? 102)%nat then Some (n - 87)%nat
  else None.

(** [decodeURIComponent] on text whose escapes stay in the ASCII range. *)
Fixpoint percentDecode (s : string) : Res string :=
  match s with
  | EmptyString => Ok EmptyString
  | String "%" (String a (String b rest)) =>
      match hexValue a, hexValue b with
      | Some x, Some y =>
          if (16 * x + y <? 128)%nat then
            match percentDecode rest with
            | Ok decoded => Ok (String (ascii_of_nat (16 * x + y)) decoded)
            | Throw e => Throw e
            end
          else Throw (HostError "escape outside the ASCII range")
      | _, _ => Throw URIError
      end
  | String "%" _ => Throw URIError
  | String c rest =>
      match percentDecode rest with
      | Ok decoded => Ok (String c decoded)
      | Throw e => Throw e
      end
  end.

Definition q : string := str1 DQUOTE.

(** [{"authenticated":{"access_token":"tok","user_id":7}}] *)
Definition sessionText : string :=
  "{" ++ q ++ "authenticated" ++ q ++ ":{" ++ q ++ "access_token" ++ q ++ ":"
  ++ q ++ "tok" ++ q ++ "," ++ q ++ "user_id" ++ q ++ ":7}}".

Definition sessionJson : Value :=
  JObj [("authenticated",
         JObj [("access_token", JStr "tok"); ("user_id", JNum 7)])].

(** [{"authenticated":{"access_token":"tok"}}] *)
Definition sessionTextNoUser : string :=
  "{" ++ q ++ "authenticated" ++ q ++ ":{" ++ q ++ "access_token" ++ q ++ ":"
  ++ q ++ "tok" ++ q ++ "}}".

Definition sessionJsonNoUser : Value :=
  JObj [("authenticated", JObj [("access_token", JStr "tok")])].

(** [JSON.parse] on the two session texts. *)
Definition parseSession (text : string) : Res Value :=
  if String.eqb text sessionText then Ok sessionJson
  else if String.eqb text sessionTextNoUser then Ok sessionJsonNoUser
  else Throw SyntaxError.

Definition cookies : string :=
  "_ga=GA1.2.3.4; ember_simple_auth-session=%7B%22authenticated%22%3A%7B%22access_token%22%3A%22tok%22%2C%22user_id%22%3A7%7D%7D".

Definition cookiesNoUser : string :=
  "_ga=GA1.2.3.4; ember_simple_auth-session=%7B%22authenticated%22%3A%7B%22access_token%22%3A%22tok%22%7D%7D".

Definition success (data : Value) : Response :=
  {| ok := true; status := 200; statusText := "OK"; json := Ok data |}.

(** A server that knows some URLs; any other request fails in the network. *)
Fixpoint serve (known : list (string * Response)) (request : Request)
  : Res Response :=
  match known with
  | [] => Throw (HostError "Failed to fetch")
  | (address, response) :: rest =>
      if String.eqb (url request) address then Ok response
      else serve rest request
  end.

Definition pageUrl (client : string) (p : Z) : string :=
  url (pageRequest client "tok" p).

Definition legDay : Value :=
  JObj [("id", JNum 5); ("due", JStr "2024-01-01"); ("title", JStr "Leg Day")].

Definition squat : Value :=
  JObj [("id", JNum 9); ("workout_id", JNum 5); ("name", JStr "Squat");
        ("result", JStr "5x5"); ("state", JStr "completed")].

Definition pageOne (total_pages : Z) : Value :=
  JObj [("meta", JObj [("total_pages", JNum total_pages);
                       ("total_count", JNum 1)]);
        ("workouts", JArr [legDay]);
        ("workout_items", JArr [squat])].

(** The same item with the number 0 as its result. *)
Definition squatZero : Value :=
  JObj [("id", JNum 9); ("workout_id", JNum 5); ("name", JStr "Squat");
        ("result", JNum 0); ("state", JStr "completed")].

(** An item whose workout is not in the result set. *)
Definition lunge : Value :=
  JObj [("id", JNum 10); ("workout_id", JNum 999); ("name", JStr "Lunge")].

(** An item whose [workout_id] is the string "5". *)
Definition plank : Value :=
  JObj [("id", JNum 11); ("workout_id", JStr "5"); ("name", JStr "Plank")].

(** A second workout under the id 5. *)
Definition legDayEdited : Value :=
  JObj [("id", JNum 5); ("due", JStr "2024-01-02");
        ("title", JStr "Leg Day (edited)")].

(** A page without records. *)
Definition emptyPage (total_pages : Z) : Value :=
  JObj [("meta", JObj [("total_pages", JNum total_pages);
                       ("total_count", JNum 0)]);
        ("workouts", JArr []);
        ("workout_items", JArr [])].

(** A row whose cells hold a comma, a double quote and a line break. *)
Definition awkwardRow : list Value :=
  [JStr "2024-01-01"; JStr "Squat, paused"; JStr ("say " ++ q ++ "up" ++ q);
   JStr ("5x5" ++ str1 LF ++ "then 3x3"); JNum 12; JStr EmptyString].

Definition awkwardText : list string :=
  ["2024-01-01"; "Squat, paused"; "say " ++ q ++ "up" ++ q;
   "5x5" ++ str1 LF ++ "then 3x3"; "12"; EmptyString].

(** A later page: no records, and a different count of pages. *)
Definition pageTwo : Value :=
  JObj [("meta", JObj [("total_pages", JNum 7); ("total_count", JNum 1)]);
        ("workouts", JArr []);
        ("workout_items", JArr [])].

Definition browser (cookie : string) (server : Request -> Res Response)
  : Host :=
  {| document_cookie := cookie;
     decodeURIComponent := percentDecode;
     JSON_parse := parseSession;
     StringToNumber := fun _ => None;
     fetch := server;
     Date_toISOString := "2024-01-15T09:30:00.000Z" |}.

(** Two pages; the second reports seven. *)
Definition hostTwoPages : Host :=
  browser cookies
    (serve [(pageUrl "7" 1, success (pageOne 2));
            (pageUrl "7" 2, success pageTwo)]).

(** Page 1 reports zero pages. *)
Definition hostNoPages : Host :=
  browser cookies (serve [(pageUrl "7" 1, success (emptyPage 0))]).

(** Page 2 is answered with status 500. *)
Definition hostFailing : Host :=
  browser cookies
    (serve [(pageUrl "7" 1, success (pageOne 2));
            (pageUrl "7" 2,
             {| ok := false; status := 500;
                statusText := "Internal Server Error";
                json := Throw SyntaxError |})]).

(** The session has a token and no [user_id]; the server knows no client
    called [null]. *)
Definition hostNoUser : Host :=
  browser cookiesNoUser
    (fun _ => Ok {| ok := false; status := 404; statusText := "Not Found";
                    json := Throw SyntaxError |}).

End Examples.

Import Examples.

(** ** Hosts for the further properties *)

Module Situations.

(** A page without a session cookie. *)
Definition hostNoSession : Host :=
  browser "_ga=GA1.2.3.4; theme=dark" (serve []).

(** The session cookie decodes to [{], which is not JSON. *)
Definition hostUnparsable : Host :=
  browser "_ga=GA1.2.3.4; ember_simple_auth-session=%7B" (serve []).

(** The session cookie holds a broken escape. *)
Definition hostUndecodable : Host :=
  browser "ember_simple_auth-session=%zz; _ga=GA1.2.3.4" (serve []).

(** The value of the session cookie holds a [=]. *)
Definition hostEqualsInValue : Host :=
  browser "ember_simple_auth-session=abc=def" (serve []).

(** The session is the empty object [{}]: nobody is logged in. *)
Definition hostLoggedOut : Host :=
  {| document_cookie := "ember_simple_auth-session=%7B%7D";
     decodeURIComponent := percentDecode;
     JSON_parse := fun text => if String.eqb text "{}" then Ok (JObj [])
                               else Throw SyntaxError;
     StringToNumber := fun _ => None;
     fetch := serve [];
     Date_toISOString := "2024-01-15T09:30:00.000Z" |}.

(** The pages of [hostTwoPages], by number. *)
Definition twoPages (p : Z) : Value :=
  if p =? 1 then pageOne 2 else pageTwo.

(** A first page without [meta]. *)
Definition pageNoMeta : Value :=
  JObj [("workouts", JArr [legDay]); ("workout_items", JArr [squat])].

Definition hostNoMeta : Host :=
  browser cookies (serve [(pageUrl "7" 1, success pageNoMeta)]).

(** A first page whose [meta] has no [total_pages]. *)
Definition pageNoTotal : Value :=
  JObj [("meta", JObj [("total_count", JNum 1)]);
        ("workouts", JArr [legDay]);
        ("workout_items", JArr [squat])].

Definition hostNoTotal : Host :=
  browser cookies (serve [(pageUrl "7" 1, success pageNoTotal)]).

(** A workout whose [id] is a text. *)
Definition coreDay : Value :=
  JObj [("id", JStr "7"); ("due", JStr "2024-01-03");
        ("title", JStr "Core Day")].

(** An item of [coreDay], with a comma in its instructions. *)
Definition crunch : Value :=
  JObj [("id", JNum 12); ("workout_id", JStr "7"); ("name", JStr "Crunch");
        ("info", JStr "slow, controlled"); ("result", JStr "3x20");
        ("state", JStr "completed")].

(** A second page with records: a workout, an orphan and an item of the
    workout. *)
Definition pageWithRecords : Value :=
  JObj [("meta", JObj [("total_pages", JNum 2); ("total_count", JNum 2)]);
        ("workouts", JArr [coreDay]);
        ("workout_items", JArr [lunge; crunch])].

Definition recordPages (p : Z) : Value :=
  if p =? 1 then pageOne 2 else pageWithRecords.

Definition hostRecords : Host :=
  browser cookies
    (serve [(pageUrl "7" 1, success (pageOne 2));
            (pageUrl "7" 2, success pageWithRecords)]).

(** A server that answers every request with the same page, which reports
    two pages. *)
Definition hostSamePage : Host :=
  browser cookies (fun _ => Ok (success (pageOne 2))).

End Situations.

Import Situations.

Ltac destruct_scrutinee :=
  match goal with
  | |- context [match ?x with _ => _ end] =>
      lazymatch x with
      | context [match _ with _ => _ end] => fail
      | _ => destruct x eqn:?
      end
  end.

(** * Properties *)

(** ** Strings *)

Section Strings.

Lemma append_empty_r (s : string) : s ++ EmptyString = s.
Proof. induction s as [| c s IH]; simpl; [| rewrite IH]; reflexivity. Qed.

Lemma append_assoc (a b c : string) : (a ++ b) ++ c = a ++ (b ++ c).
Proof. induction a as [| x a IH]; simpl; [| rewrite IH]; reflexivity. Qed.

Lemma prefix_empty (s : string) : String.prefix EmptyString s = true.
Proof. destruct s; reflexivity. Qed.

Lemma prefix_char (c : ascii) (s : string) :
  String.prefix (str1 c) s = true <-> exists rest, s = String c rest.
Proof.
  unfold str1. destruct s as [| a s]; simpl.
  - split; [discriminate | intros [rest H]; discriminate].
  - destruct (ascii_dec c a) as [-> | Hne].
    + rewrite prefix_empty. split; eauto.
    + split; [discriminate |].
      intros [rest H]. inversion H. congruence.
Qed.

(** [str.includes(c)] for a one-character [c] is membership. *)
Lemma includes_char (s : string) (c : ascii) :
  includes s (str1 c) = true <-> In c (list_ascii_of_string s).
Proof.
  induction s as [| a s IH].
  - simpl. split; [discriminate | contradiction].
  - change (includes (String a s) (str1 c))
      with (if String.prefix (str1 c) (String a s) then true
            else includes s (str1 c)).
    destruct (String.prefix (str1 c) (String a s)) eqn:Hp.
    + apply prefix_char in Hp. destruct Hp as [rest Hp]. inversion Hp; subst.
      simpl. split; auto.
    + simpl. rewrite IH. split; [auto |].
      intros [-> | Hin]; [| assumption].
      exfalso. assert (String.prefix (str1 c) (String c s) = true) as Ht
        by (apply prefix_char; eauto).
      congruence.
Qed.

Lemma mustQuote_spec (s : string) : mustQuote s = true <-> needsQuoting s.
Proof.
  unfold mustQuote, needsQuoting, special.
  change "," with (str1 COMMA).
  repeat rewrite orb_true_iff. repeat rewrite includes_char.
  split.
  - intros [[[H | H] | H] | H]; eauto 7.
  - intros [c [Hin [-> | [-> | [-> | ->]]]]]; auto.
Qed.

Lemma mustQuote_false (s : string) : mustQuote s = false <-> ~ needsQuoting s.
Proof.
  rewrite <- mustQuote_spec. destruct (mustQuote s); split; congruence.
Qed.

Lemma string_of_list_ascii_app (l1 l2 : list ascii) :
  string_of_list_ascii (l1 ++ l2)
  = string_of_list_ascii l1 ++ string_of_list_ascii l2.
Proof. induction l1 as [| c l1 IH]; simpl; [| rewrite IH]; reflexivity. Qed.

(** The global replacement of the serialiser doubles every double quote. *)
Lemma replaceAll_doubleQuotes (s : string) :
  replaceAll DQUOTE (String DQUOTE (str1 DQUOTE)) s = doubleQuotes s.
Proof.
  unfold doubleQuotes. induction s as [| c s IH]; [reflexivity |].
  simpl. rewrite string_of_list_ascii_app, <- IH.
  destruct (Ascii.eqb c DQUOTE); reflexivity.
Qed.

End Strings.

(** ** The serialiser, cell by cell *)

Lemma csvCell_text (cell : Value) (s : string) :
  ToString cell = Ok s ->
  csvCell cell = Ok (if mustQuote s then quoted s else s).
Proof.
  intros H. unfold csvCell. rewrite H. fold (mustQuote s).
  destruct (mustQuote s); [| reflexivity].
  rewrite replaceAll_doubleQuotes. reflexivity.
Qed.

Lemma mapRes_Forall2 {A B} (f : A -> Res B) (l : list A) (out : list B) :
  mapRes f l = Ok out <-> Forall2 (fun x y => f x = Ok y) l out.
Proof.
  revert out. induction l as [| x l IH]; intros out; simpl.
  - split; intros H; inversion H; constructor.
  - destruct (f x) as [y | e] eqn:Hx.
    + destruct (mapRes f l) as [ys | e] eqn:Hl.
      * split; intros H.
        -- inversion H; subst. constructor; [assumption | apply IH; reflexivity].
        -- inversion H as [| ? ? ? ? Hy Hys]; subst.
           apply IH in Hys. congruence.
      * split; [discriminate |].
        intros H. inversion H as [| ? ? ? ? Hy Hys]; subst.
        apply IH in Hys. discriminate.
    + split; [discriminate |].
      intros H. inversion H; subst. congruence.
Qed.

(** ** Reading back what the serialiser writes *)

Module CsvFacts.
Import Csv.

Lemma run_app (cfg : Config) (a b : string) :
  run cfg (a ++ b) = run (run cfg a) b.
Proof. revert cfg. induction a as [| c a IH]; intros cfg; simpl; auto. Qed.

Lemma not_special_plain (c : ascii) : ~ special c -> plainChar c.
Proof.
  unfold special, plainChar. intros H.
  repeat split; apply Ascii.eqb_neq; intros ->; apply H; auto.
Qed.

Lemma plain_chars (s : string) :
  mustQuote s = false ->
  Forall plainChar (list_ascii_of_string s).
Proof.
  intros H. apply mustQuote_false in H. apply Forall_forall.
  intros c Hin. apply not_special_plain. intros Hs. apply H.
  exists c. auto.
Qed.

Lemma run_unquoted (s f : string) rw rws :
  Forall plainChar (list_ascii_of_string s) ->
  run (mkConfig Unquoted f rw rws) s = mkConfig Unquoted (f ++ s) rw rws.
Proof.
  revert f. induction s as [| c s IH]; intros f Hp; simpl.
  - rewrite append_empty_r. reflexivity.
  - inversion Hp as [| ? ? (Hc & Hq & Hl & Hr) Hrest]; subst.
    unfold step; simpl. rewrite Hc, Hl, Hr.
    unfold addChar; simpl. rewrite IH by assumption.
    rewrite append_assoc. reflexivity.
Qed.

Lemma run_quoted_body (s f : string) rw rws :
  run (mkConfig Quoted f rw rws) (doubleQuotes s)
  = mkConfig Quoted (f ++ s) rw rws.
Proof.
  rewrite <- replaceAll_doubleQuotes.
  revert f. induction s as [| c s IH]; intros f; simpl.
  - rewrite append_empty_r. reflexivity.
  - destruct (Ascii.eqb c DQUOTE) eqn:Hc.
    + apply Ascii.eqb_eq in Hc. subst c. simpl.
      unfold step at 2; simpl. unfold step at 1; simpl.
      unfold addChar; simpl. rewrite IH. rewrite append_assoc. reflexivity.
    + simpl. unfold step; simpl. rewrite Hc.
      unfold addChar; simpl. rewrite IH. rewrite append_assoc. reflexivity.
Qed.

Lemma run_written (s : string) rw rws :
  holds s rw rws (run (mkConfig FieldStart EmptyString rw rws) (written s)).
Proof.
  unfold written. destruct (mustQuote s) eqn:Hq.
  - unfold quoted. simpl. unfold step at 1; simpl.
    unfold atFieldStart; simpl. unfold goto; simpl.
    rewrite run_app, run_quoted_body. simpl.
    unfold step; simpl. unfold goto; simpl. constructor.
  - pose proof (plain_chars s Hq) as Hp.
    destruct s as [| c s]; simpl.
    + constructor. reflexivity.
    + inversion Hp as [| ? ? (Hc & Hd & Hl & Hr) Hrest]; subst.
      unfold step; simpl. unfold atFieldStart. rewrite Hc, Hd, Hl, Hr.
      unfold addChar; simpl. rewrite run_unquoted by assumption.
      constructor.
Qed.

Lemma holds_comma s rw rws cfg :
  holds s rw rws cfg ->
  step cfg COMMA = mkConfig FieldStart EmptyString (rw ++ [s])%list rws.
Proof. intros H; inversion H; subst; reflexivity. Qed.

Lemma holds_newline s rw rws cfg :
  holds s rw rws cfg ->
  step cfg LF
  = mkConfig FieldStart EmptyString [] (rws ++ [(rw ++ [s])%list])%list.
Proof. intros H; inversion H; subst; reflexivity. Qed.

Lemma holds_finish s rw rws cfg :
  holds s rw rws cfg -> rw <> [] ->
  finish cfg = (rws ++ [(rw ++ [s])%list])%list.
Proof.
  intros H Hne; inversion H; subst; try reflexivity.
  unfold finish; simpl. destruct rw; [contradiction | reflexivity].
Qed.

Lemma last_cons {A} (x y : A) (l : list A) : last (y :: l) x = last l y.
Proof.
  revert x y. induction l as [| z l IH]; intros x y; [reflexivity |].
  change (last (y :: z :: l) x) with (last (z :: l) x).
  rewrite (IH x z), (IH y z). reflexivity.
Qed.

(** Reading a line of cells leaves the reader holding the last one. *)
Lemma run_line (c : string) (cs : list string) rw rws :
  holds (last cs c) (rw ++ removelast (c :: cs))%list rws
        (run (mkConfig FieldStart EmptyString rw rws) (lineOf (c :: cs))).
Proof.
  revert c rw. induction cs as [| c' cs IH]; intros c rw.
  - simpl. rewrite app_nil_r. apply run_written.
  - change (lineOf (c :: c' :: cs))
      with (written c ++ String COMMA (lineOf (c' :: cs))).
    rewrite run_app. simpl run.
    rewrite (holds_comma c rw rws) by apply run_written.
    specialize (IH c' (rw ++ [c])%list).
    rewrite last_cons.
    change (removelast (c :: c' :: cs)) with (c :: removelast (c' :: cs)).
    rewrite <- app_assoc in IH. exact IH.
Qed.

Lemma removelast_last {A} (x : A) (l : list A) :
  (removelast (x :: l) ++ [last l x])%list = x :: l.
Proof.
  revert x. induction l as [| y l IH]; intros x; [reflexivity |].
  rewrite last_cons.
  change (removelast (x :: y :: l)) with (x :: removelast (y :: l)).
  rewrite <- app_comm_cons. f_equal. apply IH.
Qed.

(** Reading the lines of a table, from the start of a record. *)
Lemma run_table (table : list (list string)) rws :
  Forall (fun r => (2 <= length r)%nat) table ->
  finish (run (mkConfig FieldStart EmptyString [] rws) (textOf table))
  = (rws ++ table)%list.
Proof.
  revert rws. induction table as [| r table IH]; intros rws Hlen.
  - simpl. rewrite app_nil_r. reflexivity.
  - inversion Hlen as [| ? ? Hr Hrest]; subst.
    destruct r as [| c cs]; [simpl in Hr; lia |].
    pose proof (run_line c cs [] rws) as Hh.
    change ([] ++ removelast (c :: cs))%list with (removelast (c :: cs)) in Hh.
    destruct table as [| r' table].
    + change (textOf [c :: cs]) with (lineOf (c :: cs)).
      rewrite (holds_finish _ _ _ _ Hh).
      * rewrite removelast_last. reflexivity.
      * destruct cs; [simpl in Hr; lia | discriminate].
    + change (textOf ((c :: cs) :: r' :: table))
        with (lineOf (c :: cs) ++ String LF (textOf (r' :: table))).
      rewrite run_app. simpl run.
      rewrite (holds_newline _ _ _ _ Hh).
      rewrite removelast_last.
      rewrite IH by assumption.
      rewrite <- app_assoc. reflexivity.
Qed.

(** Reading back the text of a table gives the table. *)
Lemma parse_textOf (table : list (list string)) :
  Forall (fun r => (2 <= length r)%nat) table ->
  parse (textOf table) = table.
Proof. intros H. unfold parse, start. apply (run_table table [] H). Qed.

End CsvFacts.

(** ** The serialiser on whole tables *)

Lemma cellStrings_header : mapRes ToString headerRow = Ok headerText.
Proof. reflexivity. Qed.

Lemma csvRow_lineOf (row : list Value) (cells : list string) :
  mapRes ToString row = Ok cells ->
  csvRow row = Ok (lineOf cells).
Proof.
  intros H. unfold csvRow, lineOf.
  assert (mapRes csvCell row = Ok (map written cells)) as ->;
    [| reflexivity].
  apply mapRes_Forall2. apply mapRes_Forall2 in H.
  induction H as [| v s row cells Hv Hrest IH]; simpl; constructor; auto.
  apply csvCell_text. assumption.
Qed.

Lemma csvContent_textOf (table : list (list Value)) strs :
  cellStrings table = Ok strs ->
  csvContent table = Ok (textOf strs).
Proof.
  intros H. unfold csvContent, textOf.
  assert (mapRes csvRow table = Ok (map lineOf strs)) as ->;
    [| reflexivity].
  apply mapRes_Forall2. apply mapRes_Forall2 in H.
  induction H as [| row cells table strs Hrow Hrest IH]; simpl;
    constructor; auto.
  apply csvRow_lineOf. assumption.
Qed.

Lemma cellStrings_length (table : list (list Value)) strs (n : nat) :
  cellStrings table = Ok strs ->
  Forall (fun r => length r = n) table ->
  Forall (fun r => length r = n) strs.
Proof.
  intros H. apply mapRes_Forall2 in H.
  induction H as [| row cells table strs Hrow Hrest IH]; intros Hlen;
    constructor; inversion Hlen; subst; auto.
  apply mapRes_Forall2 in Hrow. symmetry. eapply Forall2_length. eassumption.
Qed.

Lemma cellStrings_cons (row : list Value) table cells strs :
  mapRes ToString row = Ok cells ->
  cellStrings table = Ok strs ->
  cellStrings (row :: table) = Ok (cells :: strs).
Proof.
  unfold cellStrings. intros Hr Ht. simpl. rewrite Hr, Ht. reflexivity.
Qed.

(** What is written for a text follows the rule. *)
Lemma written_rule (s : string) :
  (needsQuoting s -> written s = quoted s)
  /\ (~ needsQuoting s -> written s = s).
Proof.
  unfold written. split; intros H.
  - apply mustQuote_spec in H. rewrite H. reflexivity.
  - apply mustQuote_false in H. rewrite H. reflexivity.
Qed.

Lemma written_table (table : list (list string)) :
  Forall2 (Forall2 (fun t out =>
                      (needsQuoting t -> out = quoted t)
                      /\ (~ needsQuoting t -> out = t)))
          table (map (map written) table).
Proof.
  induction table as [| cells table IH]; simpl; constructor; [| exact IH].
  induction cells as [| t cells IHc]; simpl; constructor; [| exact IHc].
  apply written_rule.
Qed.

(** C4. Every cell whose text contains a comma, a double quote or a line
    break (LF or CR) is written between double quotes with each double quote
    of the text doubled; every other cell is written as its text, unchanged.
    The serialiser applies the rule to every cell of every row, the header
    row included: for rows whose cells have a text it returns the lines of
    the cells so written, each line its cells joined by commas, the lines
    joined by LF. *)
Theorem csv_escaping_rule (cell : Value) (s : string) :
  ToString cell = Ok s ->
  (needsQuoting s -> csvCell cell = Ok (quoted s))
  /\ (~ needsQuoting s -> csvCell cell = Ok s)
  /\ (forall (rows : list (list Value)) (strs : list (list string)),
        cellStrings rows = Ok strs ->
        exists outs : list (list string),
          csvContent (headerRow :: rows)
          = Ok (join (str1 LF) (map (join ",") outs))
          /\ Forall2 (Forall2 (fun t out =>
                                 (needsQuoting t -> out = quoted t)
                                 /\ (~ needsQuoting t -> out = t)))
                     (headerText :: strs) outs).
Proof.
  intros Hs. pose proof (csvCell_text cell s Hs) as Hc.
  split; [| split].
  - intros Hq. apply mustQuote_spec in Hq. rewrite Hq in Hc. exact Hc.
  - intros Hq. apply mustQuote_false in Hq. rewrite Hq in Hc. exact Hc.
  - intros rows strs Hstrs.
    exists (map (map written) (headerText :: strs)). split.
    + rewrite (csvContent_textOf _ _
                 (cellStrings_cons _ _ _ _ cellStrings_header Hstrs)).
      unfold textOf. rewrite map_map. reflexivity.
    + apply written_table.
Qed.

(** The table the script serialises reads back as the text of its cells. *)
Lemma serialised_reads_back (rows : list (list Value)) strs :
  Forall (fun r => length r = 6%nat) rows ->
  cellStrings rows = Ok strs ->
  exists text,
    csvContent (headerRow :: rows) = Ok text
    /\ Csv.parse text = headerText :: strs.
Proof.
  intros Hlen Hs.
  pose proof (cellStrings_cons _ _ _ _ cellStrings_header Hs) as Hall.
  exists (textOf (headerText :: strs)). split.
  - apply csvContent_textOf. assumption.
  - apply CsvFacts.parse_textOf.
    constructor; [simpl; lia |].
    pose proof (cellStrings_length _ _ _ Hs Hlen) as Hl.
    eapply Forall_impl; [| exact Hl]. simpl. intros r Hr. lia.
Qed.

(** C5. Round trip: for every sequence of six-cell rows whose cells have a
    text, reading the serialised output (header row first) with the RFC 4180
    reader gives back exactly the header and the text of every cell, commas,
    double quotes and line breaks included. *)
Theorem csv_round_trip (rows : list (list Value)) (strs : list (list string)) :
  Forall (fun r => length r = 6%nat) rows ->
  cellStrings rows = Ok strs ->
  exists text,
    csvContent (headerRow :: rows) = Ok text
    /\ Csv.parse text = headerText :: strs.
Proof. apply serialised_reads_back. Qed.

(** ** The lookup map *)

Lemma SameValueZero_eq (a b : Value) :
  SameValueZero a b = true -> a = b.
Proof.
  destruct a, b; simpl; try discriminate; intros H; try reflexivity.
  - apply Bool.eqb_prop in H. congruence.
  - apply Z.eqb_eq in H. congruence.
  - apply String.eqb_eq in H. congruence.
Qed.

Lemma SameValueZero_types (a b : Value) :
  typeOf a <> typeOf b -> SameValueZero a b = false.
Proof.
  destruct (SameValueZero a b) eqn:H; [| reflexivity].
  apply SameValueZero_eq in H. subst. intros Hne. contradiction.
Qed.

(** Reading a map after a write. *)
Lemma Map_get_set (m : Map) (k v q : Value) :
  Map_get (Map_set m k v) q
  = if SameValueZero k q then v else Map_get m q.
Proof.
  induction m as [| [k' v'] m IH]; simpl; [reflexivity |].
  destruct (SameValueZero k' k) eqn:Hk; simpl.
  - apply SameValueZero_eq in Hk. subst k'.
    destruct (SameValueZero k q); reflexivity.
  - rewrite IH.
    destruct (SameValueZero k' q) eqn:Hq, (SameValueZero k q) eqn:Hkq;
      try reflexivity.
    pose proof (SameValueZero_eq _ _ Hq) as E1.
    pose proof (SameValueZero_eq _ _ Hkq) as E2. subst. congruence.
Qed.

Lemma Get_object (v : Value) (k : string) :
  isObject v = true -> Get v k = Ok (OptGet v k).
Proof. destruct v; simpl; try discriminate; reflexivity. Qed.

Lemma Get_truthy (v : Value) (k : string) :
  ToBoolean v = true -> Get v k = Ok (OptGet v k).
Proof. destruct v; simpl; try discriminate; reflexivity. Qed.

Lemma find_app_last {A} (f : A -> bool) (l : list A) (x : A) :
  find f (l ++ [x])
  = match find f l with
    | Some y => Some y
    | None => if f x then Some x else None
    end.
Proof.
  induction l as [| y l IH]; simpl; [reflexivity |].
  destruct (f y); [reflexivity | exact IH].
Qed.

(** After the build loop, a key reads the last workout that carries it. *)
Lemma buildWorkoutMap_get (workouts : list Value) (m : Map) :
  Forall (fun w => isObject w = true) workouts ->
  exists m',
    buildWorkoutMap m workouts = Ok m'
    /\ forall q,
         Map_get m' q
         = match find (fun w => SameValueZero (OptGet w "id") q)
                      (rev workouts) with
           | Some w => w
           | None => Map_get m q
           end.
Proof.
  revert m. induction workouts as [| w ws IH]; intros m Hobj.
  - exists m. split; reflexivity.
  - inversion Hobj as [| ? ? Hw Hws]; subst.
    simpl buildWorkoutMap. rewrite (Get_object w "id" Hw).
    destruct (IH (Map_set m (OptGet w "id") w) Hws) as [m' [Hb Hg]].
    exists m'. split; [exact Hb |].
    intros q. rewrite Hg. simpl rev. rewrite find_app_last.
    destruct (find _ (rev ws)); [reflexivity |].
    rewrite Map_get_set.
    destruct (SameValueZero (OptGet w "id") q); reflexivity.
Qed.

Lemma ParentRecord_object (v : Value) :
  ParentRecord v = true -> isObject v = true.
Proof.
  unfold ParentRecord. intros H.
  apply andb_true_iff in H. destruct H as [H _].
  apply andb_true_iff in H. tauto.
Qed.

Lemma ChildRecord_object (v : Value) :
  ChildRecord v = true -> isObject v = true.
Proof.
  unfold ChildRecord. intros H.
  repeat (apply andb_true_iff in H; destruct H as [H _]). exact H.
Qed.

Lemma ChildRecord_id (v : Value) :
  ChildRecord v = true -> exists shown, ToString (OptGet v "id") = Ok shown.
Proof.
  unfold ChildRecord, textual. intros H.
  repeat (apply andb_true_iff in H; destruct H as [H ?]).
  destruct (ToString (OptGet v "id")) as [s |]; [eauto | discriminate].
Qed.

Lemma records_objects (workouts : list Value) :
  Forall (fun w => ParentRecord w = true) workouts ->
  Forall (fun w => isObject w = true) workouts.
Proof.
  intros H. eapply Forall_impl; [| exact H]. apply ParentRecord_object.
Qed.

(** The map built from the workouts answers [lastParent]. *)
Lemma workoutMap_lastParent (workouts : list Value) :
  Forall (fun w => isObject w = true) workouts ->
  exists workoutMap,
    buildWorkoutMap Map_new workouts = Ok workoutMap
    /\ forall item,
         Map_get workoutMap (OptGet item "workout_id")
         = lastParent workouts item.
Proof.
  intros Hobj. destruct (buildWorkoutMap_get workouts Map_new Hobj)
    as [m [Hb Hg]].
  exists m. split; [exact Hb |].
  intros item. rewrite Hg. unfold lastParent, matches.
  destruct (find _ (rev workouts)); reflexivity.
Qed.

Lemma lastParent_found (workouts : list Value) (item : Value) :
  Forall (fun w => isObject w = true) workouts ->
  hasParent workouts item = true ->
  isObject (lastParent workouts item) = true
  /\ In (lastParent workouts item) workouts
  /\ matches item (lastParent workouts item) = true.
Proof.
  intros Hobj Hex. unfold lastParent.
  destruct (find (matches item) (rev workouts)) as [w |] eqn:Hf.
  - apply find_some in Hf. destruct Hf as [Hin Hm].
    apply in_rev in Hin. rewrite Forall_forall in Hobj. auto.
  - exfalso. unfold hasParent in Hex. apply existsb_exists in Hex.
    destruct Hex as [w [Hin Hm]].
    pose proof (find_none _ _ Hf w) as Hn.
    rewrite <- in_rev in Hn. rewrite (Hn Hin) in Hm. discriminate.
Qed.

Lemma lastParent_missing (workouts : list Value) (item : Value) :
  hasParent workouts item = false ->
  lastParent workouts item = JUndefined.
Proof.
  intros Hex. unfold lastParent.
  destruct (find (matches item) (rev workouts)) as [w |] eqn:Hf;
    [| reflexivity].
  apply find_some in Hf. destruct Hf as [Hin Hm]. apply in_rev in Hin.
  unfold hasParent in Hex.
  assert (existsb (matches item) workouts = true) as Ht
    by (apply existsb_exists; eauto).
  congruence.
Qed.

Lemma isObject_truthy (v : Value) : isObject v = true -> ToBoolean v = true.
Proof. destruct v; simpl; try discriminate; reflexivity. Qed.

(** ** The join loop *)

Lemma dataRows_joined (workouts : list Value) (workoutMap : Map) :
  Forall (fun w => isObject w = true) workouts ->
  (forall item, Map_get workoutMap (OptGet item "workout_id")
                = lastParent workouts item) ->
  forall items csvRows,
    Forall (fun c => ChildRecord c = true) items ->
    dataRows workoutMap csvRows items
    = (orphanWarnings workouts items,
       Ok (csvRows ++ joinedRows workouts items)%list).
Proof.
  intros Hobj Hmap. induction items as [| item items IH]; intros csvRows Hrec.
  - simpl. unfold ret. rewrite app_nil_r. reflexivity.
  - inversion Hrec as [| ? ? Hitem Hitems]; subst.
    pose proof (ChildRecord_object item Hitem) as Hio.
    simpl dataRows. rewrite (Get_object item "workout_id" Hio).
    rewrite Hmap.
    unfold orphanWarnings, joinedRows. simpl filter.
    destruct (hasParent workouts item) eqn:Hp.
    + destruct (lastParent_found workouts item Hobj Hp) as [Hwo _].
      pose proof (isObject_truthy _ Hwo) as Hwt. rewrite Hwt. simpl negb.
      cbv iota.
      rewrite !(Get_object _ _ Hwo), !(Get_object _ _ Hio).
      rewrite IH by assumption.
      unfold orphanWarnings, joinedRows. simpl.
      rewrite <- app_assoc. reflexivity.
    + rewrite (lastParent_missing workouts item Hp). simpl negb. cbv iota.
      rewrite (Get_object item "id" Hio).
      destruct (ChildRecord_id item Hitem) as [shown Hshown].
      rewrite Hshown.
      rewrite IH by assumption.
      unfold orphanWarnings, joinedRows, orphanWarning. simpl.
      rewrite Hshown. reflexivity.
Qed.

(** ** Cell values *)

Lemma csvCell_field (v : Value) :
  csvCell (or_ v (JStr EmptyString))
  = match fieldText v with
    | Ok s => Ok (written s)
    | Throw e => Throw e
    end.
Proof.
  unfold fieldText, or_. destruct (ToBoolean v).
  - destruct (ToString v) as [s | e] eqn:Hs.
    + apply csvCell_text. assumption.
    + unfold csvCell. rewrite Hs. reflexivity.
  - reflexivity.
Qed.

(** C9, as the code has it.  Every cell of a data row is [field || ''] passed
    through [String]: a truthy value of any type is written as its text
    (escaped by the quoting rule); [undefined], [null] and every other falsy
    value (the number 0, [false], the empty string) are written as the empty
    cell, never as a marker such as "null" or "undefined". *)
Theorem cell_value_text (v : Value) :
  (ToBoolean v = false -> csvCell (or_ v (JStr EmptyString)) = Ok EmptyString)
  /\ (ToBoolean v = true ->
      forall s, ToString v = Ok s ->
        csvCell (or_ v (JStr EmptyString)) = Ok (written s))
  /\ (forall workoutMap csvRows item rest,
        isObject item = true ->
        ToBoolean (Map_get workoutMap (OptGet item "workout_id")) = true ->
        dataRows workoutMap csvRows (item :: rest)
        = dataRows workoutMap
            (csvRows
             ++ [map (fun field => or_ field (JStr EmptyString))
                   [OptGet (Map_get workoutMap (OptGet item "workout_id"))
                           "due";
                    OptGet item "name"; OptGet item "info";
                    OptGet item "result"; OptGet item "state";
                    OptGet (Map_get workoutMap (OptGet item "workout_id"))
                           "title"]])%list
            rest).
Proof.
  split; [| split].
  - intros H. rewrite csvCell_field. unfold fieldText. rewrite H. reflexivity.
  - intros H s Hs. rewrite csvCell_field. unfold fieldText. rewrite H, Hs.
    reflexivity.
  - intros workoutMap csvRows item rest Hobj Hfound.
    simpl dataRows. rewrite (Get_object item "workout_id" Hobj).
    cbv beta iota zeta delta [Run.bind lift].
    rewrite Hfound. simpl negb. cbv iota.
    rewrite !(Get_truthy _ _ Hfound), !(Get_object item _ Hobj).
    cbv beta iota.
    destruct (dataRows workoutMap _ rest) as [t r]. reflexivity.
Qed.

(** C3. Given the workouts and the workout items, the join loop pushes,
    after the header, exactly one row for each item whose [workout_id] is the
    [id] of some workout, in the order of the items, and no row for any other
    item: each of those is skipped with a warning that names its [id]. *)
Theorem join_rows_in_item_order (workouts items : list Value) :
  Forall (fun w => ParentRecord w = true) workouts ->
  Forall (fun c => ChildRecord c = true) items ->
  exists workoutMap,
    buildWorkoutMap Map_new workouts = Ok workoutMap
    /\ dataRows workoutMap [headerRow] items
       = (map orphanWarning
              (filter (fun item => negb (hasParent workouts item)) items),
          Ok (headerRow
              :: map (fun item => joinedRow (lastParent workouts item) item)
                     (filter (hasParent workouts) items))).
Proof.
  intros Hw Hi. pose proof (records_objects workouts Hw) as Hobj.
  destruct (workoutMap_lastParent workouts Hobj) as [m [Hb Hg]].
  exists m. split; [exact Hb |].
  rewrite (dataRows_joined workouts m Hobj Hg items [headerRow] Hi).
  reflexivity.
Qed.

Lemma find_app {A} (f : A -> bool) (l1 l2 : list A) :
  find f (l1 ++ l2)
  = match find f l1 with Some x => Some x | None => find f l2 end.
Proof.
  induction l1 as [| x l1 IH]; simpl; [reflexivity |].
  destruct (f x); [reflexivity | exact IH].
Qed.

Lemma find_all_false {A} (f : A -> bool) (l : list A) :
  (forall x, In x l -> f x = false) -> find f l = None.
Proof.
  induction l as [| x l IH]; intros H; simpl; [reflexivity |].
  rewrite (H x) by (left; reflexivity). apply IH.
  intros y Hy. apply H. right. exact Hy.
Qed.

(** C8. When several workouts carry the same [id], the lookup map keeps the
    last of them; a key no workout carries reads [undefined]; and whatever
    the duplicates, building the map succeeds. *)
Theorem workoutMap_last_write_wins (workouts : list Value) :
  Forall (fun w => isObject w = true) workouts ->
  exists workoutMap,
    buildWorkoutMap Map_new workouts = Ok workoutMap
    /\ (forall before w after key,
          workouts = (before ++ w :: after)%list ->
          SameValueZero (OptGet w "id") key = true ->
          (forall w', In w' after ->
                      SameValueZero (OptGet w' "id") key = false) ->
          Map_get workoutMap key = w)
    /\ (forall key,
          (forall w, In w workouts ->
                     SameValueZero (OptGet w "id") key = false) ->
          Map_get workoutMap key = JUndefined).
Proof.
  intros Hobj.
  destruct (buildWorkoutMap_get workouts Map_new Hobj) as [m [Hb Hg]].
  exists m. split; [exact Hb | split].
  - intros before w after key -> Hw Hafter. rewrite Hg.
    rewrite rev_app_distr. simpl rev. rewrite <- app_assoc.
    rewrite find_app, find_all_false.
    + simpl. rewrite Hw. reflexivity.
    + intros x Hx. apply Hafter. apply in_rev. exact Hx.
  - intros key Hnone. rewrite Hg. rewrite find_all_false; [reflexivity |].
    intros x Hx. apply Hnone. apply in_rev. exact Hx.
Qed.

(** C10. Keys are compared without conversion.  A workout whose [id]
    differs in type from the [workout_id] of an item is no match for it,
    whatever the two are once converted: the string "5" does not find the
    workout whose [id] is the number 5.  An item whose [workout_id] is the
    [id] of no workout as the same value of the same type finds no workout:
    it is skipped, and reported as an orphan under its [id]. *)
Theorem join_keys_strict (workouts : list Value) (item : Value) :
  Forall (fun w => ParentRecord w = true) workouts ->
  ChildRecord item = true ->
  (forall w, In w workouts ->
             ~ sameKey (OptGet w "id") (OptGet item "workout_id")) ->
  (forall w, typeOf (OptGet w "id") <> typeOf (OptGet item "workout_id") ->
             matches item w = false)
  /\ exists workoutMap,
       buildWorkoutMap Map_new workouts = Ok workoutMap
       /\ Map_get workoutMap (OptGet item "workout_id") = JUndefined
       /\ forall csvRows rest,
            dataRows workoutMap csvRows (item :: rest)
            = Run.bind (emit (orphanWarning item))
                       (fun _ => dataRows workoutMap csvRows rest).
Proof.
  intros Hw Hi Htypes.
  split; [intros w Hdiffer; apply SameValueZero_types; exact Hdiffer |].
  pose proof (records_objects workouts Hw) as Hobj.
  destruct (workoutMap_lastParent workouts Hobj) as [m [Hb Hg]].
  assert (hasParent workouts item = false) as Hnone.
  { unfold hasParent. destruct (existsb (matches item) workouts) eqn:He;
      [| reflexivity].
    apply existsb_exists in He. destruct He as [w [Hin Hm]].
    unfold matches in Hm. apply SameValueZero_eq in Hm.
    exfalso. apply (Htypes w Hin). split; [rewrite Hm; reflexivity | exact Hm]. }
  assert (Map_get m (OptGet item "workout_id") = JUndefined) as Hget
    by (rewrite Hg; apply lastParent_missing; exact Hnone).
  exists m. split; [exact Hb | split; [exact Hget |]].
  intros csvRows rest.
  pose proof (ChildRecord_object item Hi) as Hio.
  destruct (ChildRecord_id item Hi) as [shown Hshown].
  simpl dataRows. rewrite (Get_object item "workout_id" Hio).
  rewrite Hget. simpl negb. cbv iota.
  rewrite (Get_object item "id" Hio), Hshown.
  unfold orphanWarning. rewrite Hshown.
  unfold Run.bind, emit.
  destruct (dataRows m csvRows rest) as [t r]. reflexivity.
Qed.

(** ** From the records to the file *)

Lemma or_empty_text (v : Value) :
  textual v = true ->
  exists s, ToString (or_ v (JStr EmptyString)) = Ok s.
Proof.
  unfold textual, or_. intros H. destruct (ToBoolean v).
  - destruct (ToString v) as [s |]; [eauto | discriminate].
  - simpl. eauto.
Qed.

Lemma joinedRow_strings (workout item : Value) :
  ParentRecord workout = true -> ChildRecord item = true ->
  exists cells, mapRes ToString (joinedRow workout item) = Ok cells.
Proof.
  unfold ParentRecord, ChildRecord. intros Hw Hi.
  repeat (apply andb_true_iff in Hw; destruct Hw as [Hw ?]).
  repeat (apply andb_true_iff in Hi; destruct Hi as [Hi ?]).
  unfold joinedRow. simpl map.
  repeat match goal with
         | H : textual _ = true |- _ =>
             apply or_empty_text in H; destruct H as [? H]
         end.
  simpl mapRes.
  repeat match goal with
         | H : ToString _ = Ok _ |- _ => rewrite H; clear H
         end.
  eauto.
Qed.

Lemma joinedRows_strings (workouts items : list Value) :
  Forall (fun w => ParentRecord w = true) workouts ->
  Forall (fun c => ChildRecord c = true) items ->
  exists strs, cellStrings (joinedRows workouts items) = Ok strs.
Proof.
  intros Hw Hi. pose proof (records_objects workouts Hw) as Hobj.
  unfold joinedRows. induction Hi as [| item items Hitem Hitems IH].
  - exists []. reflexivity.
  - simpl filter. destruct IH as [strs IH].
    destruct (hasParent workouts item) eqn:Hp; [| eauto].
    destruct (lastParent_found workouts item Hobj Hp) as (_ & Hin & _).
    rewrite Forall_forall in Hw.
    destruct (joinedRow_strings _ item (Hw _ Hin) Hitem) as [cells Hc].
    exists (cells :: strs). simpl map.
    apply cellStrings_cons; assumption.
Qed.

Lemma joinedRows_width (workouts items : list Value) :
  Forall (fun r => length r = 6%nat) (joinedRows workouts items).
Proof.
  unfold joinedRows. apply Forall_forall. intros r Hr.
  apply in_map_iff in Hr. destruct Hr as [item [<- _]]. reflexivity.
Qed.

Lemma cellStrings_rows (table : list (list Value)) strs :
  cellStrings table = Ok strs -> length strs = length table.
Proof.
  intros H. apply mapRes_Forall2 in H. symmetry.
  eapply Forall2_length. eassumption.
Qed.

(** What the part of the script after the page loop does on records. *)
Lemma exportRows_records (h : Host) (workouts items : list Value) :
  Forall (fun w => ParentRecord w = true) workouts ->
  Forall (fun c => ChildRecord c = true) items ->
  exists text strs,
    cellStrings (joinedRows workouts items) = Ok strs
    /\ csvContent (headerRow :: joinedRows workouts items) = Ok text
    /\ Csv.parse text = headerText :: strs
    /\ exportRows h workouts items
       = ((ConsoleLog ("Fetched "
                       ++ NumberToString (Z.of_nat (length workouts))
                       ++ " workouts and "
                       ++ NumberToString (Z.of_nat (length items))
                       ++ " exercises")
           :: orphanWarnings workouts items)
          ++ [Download (downloadName h) text;
              ConsoleLog ("Export complete! Downloaded "
                          ++ NumberToString
                               (Z.of_nat
                                  (length (headerRow
                                           :: joinedRows workouts items)) - 1)
                          ++ " exercise records.");
              ConsoleLog "Check your Downloads folder for the CSV file."],
          Ok tt)%list.
Proof.
  intros Hw Hi. pose proof (records_objects workouts Hw) as Hobj.
  destruct (joinedRows_strings workouts items Hw Hi) as [strs Hs].
  destruct (serialised_reads_back _ strs (joinedRows_width workouts items) Hs)
    as [text [Hc Hp]].
  destruct (workoutMap_lastParent workouts Hobj) as [m [Hb Hg]].
  exists text, strs. repeat split; try assumption.
  unfold exportRows.
  unfold Run.bind at 1. unfold emit at 1.
  rewrite Hb. unfold lift at 1. unfold Run.bind at 1.
  rewrite (dataRows_joined workouts m Hobj Hg items [headerRow] Hi).
  unfold Run.bind at 1. simpl app at 1.
  rewrite Hc. reflexivity.
Qed.

(** C6. For all records, the text handed to the browser reads back as the
    six-column header followed by the joined rows in the order the join
    produced them, so that the number of rows is one more than the number of
    items that have a workout. *)
Theorem output_header_and_rows (h : Host) (workouts items : list Value) :
  Forall (fun w => ParentRecord w = true) workouts ->
  Forall (fun c => ChildRecord c = true) items ->
  exists text strs,
    filter isDownload (trace (exportRows h workouts items))
    = [Download (downloadName h) text]
    /\ cellStrings
         (map (fun item => joinedRow (lastParent workouts item) item)
              (filter (hasParent workouts) items)) = Ok strs
    /\ Csv.parse text = headerText :: strs
    /\ length (Csv.parse text)
       = (1 + length (filter (hasParent workouts) items))%nat.
Proof.
  intros Hw Hi.
  destruct (exportRows_records h workouts items Hw Hi)
    as (text & strs & Hs & Hc & Hp & Hrun).
  exists text, strs. split; [| split; [exact Hs | split; [exact Hp |]]].
  - rewrite Hrun. unfold trace. cbn [fst].
    rewrite filter_app. simpl.
    assert (filter isDownload (orphanWarnings workouts items) = []) as ->.
    { unfold orphanWarnings.
      induction (filter (fun item => negb (hasParent workouts item)) items);
        simpl; auto. }
    reflexivity.
  - rewrite Hp. simpl. rewrite (cellStrings_rows _ _ Hs).
    unfold joinedRows. rewrite length_map. reflexivity.
Qed.

(** ** The page loop *)

Lemma doWhile_body h token st :
  doWhile h token st
  = match iteration h token st with
    | (t, Throw e) => (t, Throw e)
    | (t, Ok st') =>
        match loopCondition h st' with
        | Throw e => (t, Throw e)
        | Ok false => (t, Ok st')
        | Ok true =>
            let (t', r) := doWhile h token st' in ((t ++ t')%list, r)
        end
    end.
Proof.
  funelim (doWhile h token st);
    repeat match goal with
           | E : iteration _ _ _ = _ |- _ => rewrite E
           | E : loopCondition _ _ = _ |- _ => rewrite E
           end; reflexivity.
Qed.

Lemma requests_app (a b : list Event) :
  requests (a ++ b) = (requests a ++ requests b)%list.
Proof.
  induction a as [| ev a IH]; simpl; [reflexivity |].
  destruct ev; simpl; rewrite IH; reflexivity.
Qed.

Lemma silent_requests (t : list Event) :
  Forall (fun ev => silent ev = true) t -> requests t = [].
Proof.
  induction 1 as [| ev t Hev Ht IH]; [reflexivity |].
  destruct ev; simpl in *; try discriminate; assumption.
Qed.

Lemma silent_downloads (t : list Event) :
  Forall (fun ev => silent ev = true) t -> filter isDownload t = [].
Proof.
  induction 1 as [| ev t Hev Ht IH]; [reflexivity |].
  destruct ev; simpl in *; try discriminate; assumption.
Qed.

Lemma silent_not_fetch (t : list Event) (req : Request) :
  Forall (fun ev => silent ev = true) t -> ~ In (Fetch req) t.
Proof.
  intros H Hin. rewrite Forall_forall in H. apply H in Hin. discriminate.
Qed.

(** The cookie is read without any request. *)
Lemma getAuthCookie_silent (h : Host) :
  Forall (fun ev => silent ev = true) (fst (getAuthCookie h)).
Proof.
  unfold getAuthCookie.
  destruct (find _ _) as [cookie |]; [| constructor].
  destruct (negb (ToBoolean (JStr cookie))); [constructor |].
  unfold Run.bind, lift.
  destruct (decodeURIComponent h _) as [value | e]; [| constructor].
  destruct (JSON_parse h value) as [json | e]; simpl; repeat constructor.
Qed.

Lemma getApiBase_silent (h : Host) :
  Forall (fun ev => silent ev = true) (fst (getApiBase h)).
Proof.
  unfold getApiBase, getClientID, Run.bind, lift, ret.
  pose proof (getAuthCookie_silent h) as H.
  destruct (getAuthCookie h) as [t [json | e]]; simpl in *.
  - destruct (ToString _); simpl; rewrite !app_nil_r; exact H.
  - exact H.
Qed.

Lemma getBearerToken_silent (h : Host) :
  Forall (fun ev => silent ev = true) (fst (getBearerToken h)).
Proof.
  unfold getBearerToken, Run.bind, ret.
  pose proof (getAuthCookie_silent h) as H.
  destruct (getAuthCookie h) as [t [json | e]]; simpl in *.
  - rewrite app_nil_r. exact H.
  - exact H.
Qed.

(** One turn of the loop sends at most one request; when the answer is not
    [ok], the turn ends there, with the error that carries the status. *)
Lemma iteration_shape h token st t res :
  iteration h token st = (t, res) ->
  (Forall (fun ev => silent ev = true) t /\ exists e, res = Throw e)
  \/ exists before req after,
       t = (before ++ Fetch req :: after)%list
       /\ Forall (fun ev => silent ev = true) before
       /\ Forall (fun ev => silent ev = true) after
       /\ (forall r, fetch h req = Ok r -> ok r = false ->
             after = [] /\ res = Throw (Error (failureMessage r))).
Proof.
  unfold iteration.
  pose proof (getApiBase_silent h) as Hbase.
  destruct (getApiBase h) as [tb [base | e]]; simpl in Hbase.
  2:{ unfold Run.bind. intros H; inversion H; subst. left. eauto. }
  destruct (ToString token) as [bearer | e].
  2:{ unfold lift, Run.bind. intros H; inversion H; subst.
      left. rewrite app_nil_r. eauto. }
  cbv beta iota zeta delta [Run.bind lift emit throw ret].
  set (req := {| url := _; authorization := _ |}).
  intros H. right. exists tb, req.
  destruct (fetch h req) as [r | e] eqn:Hf.
  - destruct (ok r) eqn:Hok; simpl negb in H; cbv iota in H.
    + repeat (match type of H with
              | context [match ?x with _ => _ end] =>
                  lazymatch x with
                  | context [match _ with _ => _ end] => fail
                  | _ => destruct x eqn:?
                  end
              end; cbv beta iota in H);
        simpl in H; inversion H; subst; clear H;
        eexists; (split; [reflexivity |]);
        (split; [assumption |]);
        (split; [repeat constructor | intros; congruence]).
    + simpl in H. inversion H; subst; clear H.
      exists []. split; [reflexivity |].
      split; [assumption |]. split; [constructor |].
      intros r' Hr' _. inversion Hr'; subst. split; reflexivity.
  - simpl in H. inversion H; subst; clear H.
    exists []. split; [reflexivity |].
    split; [assumption |]. split; [constructor |].
    intros r' Hr'; discriminate.
Qed.

Lemma iteration_failed_fetch h token st t res req r :
  iteration h token st = (t, res) ->
  In (Fetch req) t -> fetch h req = Ok r -> ok r = false ->
  exists before,
    t = (before ++ [Fetch req])%list
    /\ Forall (fun ev => silent ev = true) before
    /\ res = Throw (Error (failureMessage r)).
Proof.
  intros Hit Hin Hf Hok.
  destruct (iteration_shape _ _ _ _ _ Hit)
    as [[Hs _] | (before & req0 & after & -> & Hb & Ha & Hfail)].
  - exfalso. exact (silent_not_fetch _ _ Hs Hin).
  - apply in_app_or in Hin. destruct Hin as [Hin | [Heq | Hin]].
    + exfalso. exact (silent_not_fetch _ _ Hb Hin).
    + inversion Heq; subst req0.
      destruct (Hfail r Hf Hok) as [-> ->]. eauto.
    + exfalso. exact (silent_not_fetch _ _ Ha Hin).
Qed.

Lemma iteration_no_download h token st t res :
  iteration h token st = (t, res) -> filter isDownload t = [].
Proof.
  intros Hit.
  destruct (iteration_shape _ _ _ _ _ Hit)
    as [[Hs _] | (before & req0 & after & -> & Hb & Ha & _)].
  - apply silent_downloads. exact Hs.
  - rewrite filter_app. simpl.
    rewrite (silent_downloads _ Hb), (silent_downloads _ Ha). reflexivity.
Qed.

Lemma doWhile_no_download h token st :
  filter isDownload (fst (doWhile h token st)) = [].
Proof.
  funelim (doWhile h token st);
    match goal with
    | E : iteration _ _ _ = _ |- _ =>
        pose proof (iteration_no_download _ _ _ _ _ E) as Hd
    end; simpl; try exact Hd.
  destruct (doWhile h token st') as [t' r]. simpl in *.
  rewrite filter_app, Hd. assumption.
Qed.

(** A request answered by a response that is not [ok] is the last thing the
    loop does: it ends with the error made from the status. *)
Lemma doWhile_failed_fetch h token st req r :
  In (Fetch req) (fst (doWhile h token st)) ->
  fetch h req = Ok r -> ok r = false ->
  exists before,
    doWhile h token st
    = ((before ++ [Fetch req])%list, Throw (Error (failureMessage r)))
    /\ filter isDownload before = [].
Proof.
  intros Hin Hf Hok. revert Hin.
  funelim (doWhile h token st); simpl; intros Hin;
    match goal with
    | E : iteration _ _ _ = _ |- _ => rename E into Hiter
    end.
  - destruct (iteration_failed_fetch _ _ _ _ _ _ _ Hiter Hin Hf Hok)
      as (before & -> & Hb & Hres).
    inversion Hres; subst. exists before. split; [reflexivity |].
    apply silent_downloads. exact Hb.
  - pose proof (iteration_no_download _ _ _ _ _ Hiter) as Hd.
    destruct (doWhile h token st') as [t' r'] eqn:Hrec. simpl in *.
    apply in_app_or in Hin. destruct Hin as [Hin | Hin].
    + destruct (iteration_failed_fetch _ _ _ _ _ _ _ Hiter Hin Hf Hok)
        as (before & _ & _ & Hres). discriminate.
    + match goal with
      | IH : forall (h0 : Host), _ |- _ =>
          destruct (IH h token st' req r Hf Hok eq_refl (eq_sym Hrec))
            as (before & Heq & Hb); [rewrite Hrec; exact Hin |]
      end.
      rewrite Hrec in Heq. inversion Heq; subst.
      exists (t ++ before)%list.
      rewrite app_assoc. split; [reflexivity |].
      rewrite filter_app, Hd, Hb. reflexivity.
  - destruct (iteration_failed_fetch _ _ _ _ _ _ _ Hiter Hin Hf Hok)
      as (before & _ & _ & Hres). discriminate.
  - destruct (iteration_failed_fetch _ _ _ _ _ _ _ Hiter Hin Hf Hok)
      as (before & _ & _ & Hres). discriminate.
Qed.

Lemma dataRows_silent (workoutMap : Map) (items : list Value) :
  forall csvRows,
    Forall (fun ev => silent ev = true)
           (fst (dataRows workoutMap csvRows items)).
Proof.
  induction items as [| item items IH]; intros csvRows; [constructor |].
  simpl dataRows.
  cbv beta iota zeta delta [Run.bind lift emit throw ret].
  repeat match goal with
         | |- context [dataRows workoutMap ?a items] =>
             let Hs := fresh "Hs" in
             pose proof (IH a) as Hs;
             destruct (dataRows workoutMap a items)
         | _ => destruct_scrutinee
         end;
    simpl in *; repeat constructor; assumption.
Qed.

Lemma in_requests (t : list Event) (req : Request) :
  In (Fetch req) t <-> In req (requests t).
Proof.
  induction t as [| ev t IH]; simpl; [tauto |].
  destruct ev; simpl; rewrite <- IH; split; intros H;
    try (destruct H as [H | H]; [discriminate | assumption]); auto.
  - destruct H as [H | H]; [inversion H |]; auto.
  - destruct H as [-> | H]; auto.
Qed.

(** After the loop, no request is sent. *)
Lemma exportRows_requests (h : Host) (workouts items : list Value) :
  requests (fst (exportRows h workouts items)) = [].
Proof.
  unfold exportRows.
  cbv beta iota zeta delta [Run.bind lift emit throw ret].
  destruct (buildWorkoutMap Map_new workouts) as [m | e]; [| reflexivity].
  pose proof (dataRows_silent m items [headerRow]) as Hs.
  destruct (dataRows m [headerRow] items) as [t [csvRows | e]]; simpl in *.
  - destruct (csvContent csvRows); simpl;
      rewrite ?app_nil_r, ?requests_app, (silent_requests _ Hs); reflexivity.
  - rewrite ?app_nil_r. apply silent_requests. exact Hs.
Qed.

(** C7. In every run in which some request is answered by a response that
    is not [ok], that request is the last one sent: the run goes straight to
    the [catch] block, which reports the error carrying the failing status,
    and nothing is handed to the browser for download. *)
Theorem failed_fetch_aborts (h : Host) (req : Request) (r : Response) :
  In (Fetch req) (trace (exportTrueCoachWorkouts h)) ->
  fetch h req = Ok r -> ok r = false ->
  exists before,
    trace (exportTrueCoachWorkouts h)
    = (before
       ++ [Fetch req;
           ConsoleError "Export failed:"
             (Some (Error ("API request failed: "
                           ++ NumberToString (status r) ++ " "
                           ++ statusText r)));
           ConsoleError
             "Make sure you are logged into TrueCoach in this browser tab."
             None])%list
    /\ filter isDownload (trace (exportTrueCoachWorkouts h)) = []
    /\ result (exportTrueCoachWorkouts h) = Ok tt.
Proof.
  intros Hin Hf Hok. fold (failureMessage r).
  unfold exportTrueCoachWorkouts in *.
  pose proof (getBearerToken_silent h) as Htok.
  destruct (getBearerToken h) as [tc [token | e]]; simpl in Htok.
  2:{ exfalso. simpl in Hin. destruct Hin as [Hin | Hin]; [discriminate |].
      exact (silent_not_fetch _ _ Htok Hin). }
  unfold trace, result in *.
  cbv beta iota zeta delta [Run.bind emit] in *.
  destruct (negb (ToBoolean token)).
  { exfalso. simpl in Hin. destruct Hin as [Hin | Hin]; [discriminate |].
    apply in_app_or in Hin. destruct Hin as [Hin | [Hin | []]];
      [exact (silent_not_fetch _ _ Htok Hin) | discriminate]. }
  unfold tryCatch in *.
  cbv beta iota zeta delta [Run.bind emit] in *.
  pose proof (doWhile_failed_fetch h token initialState req r) as Hloop.
  pose proof (doWhile_no_download h token initialState) as Hnd.
  destruct (doWhile h token initialState) as [t [st | e]]; simpl in Hloop, Hnd.
  - exfalso.
    pose proof (exportRows_requests h (allWorkouts st) (allWorkoutItems st))
      as Hexp.
    destruct (exportRows h (allWorkouts st) (allWorkoutItems st))
      as [t2 [u | e2]]; simpl in Hexp, Hin;
      (destruct Hin as [Hin | Hin]; [discriminate |]);
      apply in_app_or in Hin;
      (destruct Hin as [Hin | Hin];
       [exact (silent_not_fetch _ _ Htok Hin) |]);
      (destruct Hin as [Hin | Hin]; [discriminate |]);
      repeat (apply in_app_or in Hin; destruct Hin as [Hin | Hin]);
      try (destruct (Hloop Hin Hf Hok) as (? & Heq & _); discriminate);
      try (apply in_requests in Hin; rewrite Hexp in Hin; contradiction);
      simpl in Hin; intuition discriminate.
  - simpl in Hin. destruct Hin as [Hin | Hin]; [discriminate |].
    apply in_app_or in Hin.
    destruct Hin as [Hin | Hin];
      [exfalso; exact (silent_not_fetch _ _ Htok Hin) |].
    destruct Hin as [Hin | Hin]; [discriminate |].
    apply in_app_or in Hin.
    destruct Hin as [Hin | Hin];
      [| simpl in Hin; exfalso; intuition discriminate].
    destruct (Hloop Hin Hf Hok) as (before & Heq & Hb).
    inversion Heq; subst; clear Heq.
    exists (ConsoleLog "TrueCoach Export - Starting..."
            :: tc ++ ConsoleLog "Bearer token extracted successfully"
            :: before)%list.
    split; [| split].
    + simpl. f_equal. rewrite <- !app_assoc. reflexivity.
    + simpl. rewrite !filter_app. simpl. rewrite !filter_app. simpl.
      rewrite (silent_downloads _ Htok), Hb. reflexivity.
    + reflexivity.
Qed.

(** ** Counting the requests *)

Lemma getApiBase_client h cid client :
  getClientID h = ([], Ok cid) -> ToString cid = Ok client ->
  getApiBase h
  = ([], Ok ("https://app.truecoach.co/proxy/api/clients/"
             ++ client ++ "/workouts")).
Proof.
  intros Hc Hs. unfold getApiBase. rewrite Hc.
  unfold Run.bind, lift, ret. rewrite Hs. reflexivity.
Qed.

Lemma request_of_page client bearer p :
  {| url := ("https://app.truecoach.co/proxy/api/clients/"
             ++ client ++ "/workouts")
            ++ "?states=" ++ STATES
            ++ "&per_page=" ++ NumberToString PER_PAGE
            ++ "&page=" ++ NumberToString p ++ "&order=desc";
     authorization := "Bearer " ++ bearer |}
  = pageRequest client bearer p.
Proof.
  unfold pageRequest. f_equal.
  rewrite !append_assoc. reflexivity.
Qed.

(** A turn of the loop on a page the host serves. *)
Lemma iteration_served h token bearer cid client st data :
  getClientID h = ([], Ok cid) -> ToString cid = Ok client ->
  ToString token = Ok bearer ->
  servesPage h (pageRequest client bearer (currentPage st)) data ->
  (currentPage st = 1 -> exists N, reportsTotal data N) ->
  (currentPage st <> 1 -> exists N, totalPages st = JNum N) ->
  exists t st',
    iteration h token st = (t, Ok st')
    /\ requests t = [pageRequest client bearer (currentPage st)]
    /\ currentPage st' = currentPage st + 1
    /\ totalPages st'
       = (if currentPage st =? 1
          then OptGet (OptGet data "meta") "total_pages"
          else totalPages st).
Proof.
  intros Hcid Hclient Hbearer (r & Hf & Hok & Hjson & Hobj & Hw & Hi)
         Hfirst Hlater.
  unfold iteration.
  rewrite (getApiBase_client h cid client Hcid Hclient).
  unfold Run.bind at 1. rewrite Hbearer.
  unfold lift at 1. unfold Run.bind at 1. cbv zeta.
  rewrite request_of_page.
  unfold emit at 1. unfold Run.bind at 1. rewrite Hf.
  unfold lift at 1. unfold Run.bind at 1. rewrite Hok. simpl negb. cbv iota.
  unfold ret at 1. unfold Run.bind at 1. rewrite Hjson.
  unfold lift at 1. unfold Run.bind at 1.
  match goal with
  | |- context [Run.bind (if currentPage st =? 1 then ?a else ?b) ?k] =>
      set (first := if currentPage st =? 1 then a else b)
  end.
  assert (exists tlog N',
            first = (tlog, Ok (JNum N'))
            /\ Forall (fun ev => silent ev = true) tlog
            /\ JNum N' = (if currentPage st =? 1
                          then OptGet (OptGet data "meta") "total_pages"
                          else totalPages st)) as (tlog & N' & -> & Hlog & HN).
  { subst first. destruct (Z.eqb_spec (currentPage st) 1) as [E | E].
    - destruct (Hfirst E) as [N [Htp Htc]].
      assert (isObject (OptGet data "meta") = true) as Hmeta
        by (destruct (OptGet data "meta"); try discriminate Htp; reflexivity).
      unfold textual in Htc.
      destruct (ToString (OptGet (OptGet data "meta") "total_count"))
        as [count |] eqn:Hcount; [| discriminate].
      cbv beta iota zeta delta [Run.bind lift emit ret throw].
      rewrite (Get_object data "meta" Hobj). cbv beta iota.
      rewrite (Get_object _ "total_pages" Hmeta). cbv beta iota.
      rewrite (Get_object _ "total_count" Hmeta), Hcount. cbv beta iota.
      rewrite Htp. simpl ToString. cbv beta iota.
      eexists _, N. split; [reflexivity |]. split; [| reflexivity].
      repeat constructor.
    - destruct (Hlater E) as [N HN]. exists [], N.
      rewrite HN. split; [reflexivity |]. split; [constructor | reflexivity]. }
  cbv beta iota zeta delta [Run.bind lift emit ret throw].
  simpl ToString. cbv beta iota.
  rewrite (Get_object data "workouts" Hobj). cbv beta iota.
  unfold spreadable in Hw, Hi.
  destruct (iterate (or_ (OptGet data "workouts") (JArr [])))
    as [newWorkouts |]; [| discriminate].
  cbv beta iota.
  rewrite (Get_object data "workout_items" Hobj). cbv beta iota.
  destruct (iterate (or_ (OptGet data "workout_items") (JArr [])))
    as [newItems |]; [| discriminate].
  cbv beta iota. unfold le_, ToNumber. cbv beta iota.
  destruct (currentPage st + 1 <=? N'); cbv beta iota;
    (eexists _, _; split; [reflexivity |];
     split; [| split; [reflexivity | exact HN]];
     simpl; rewrite !requests_app, (silent_requests _ Hlog); reflexivity).
Qed.

Section PageCount.

Variables (h : Host) (token cid : Value) (bearer client : string) (N : Z).

Hypothesis Hcid : getClientID h = ([], Ok cid).
Hypothesis Hclient : ToString cid = Ok client.
Hypothesis Hbearer : ToString token = Ok bearer.

(** Every page from 2 to [N] is served; nothing is asked of what those pages
    say about the number of pages. *)
Hypothesis Hpages :
  forall p, 2 <= p <= N ->
            exists data, servesPage h (pageRequest client bearer p) data.

(** From page [s] >= 2 on, with [totalPages] fixed at [N] >= [s], the loop
    asks for the pages [s], ..., [N], one request each. *)
Lemma doWhile_later_pages (k s : nat) (st : LoopState) :
  (2 <= s)%nat ->
  currentPage st = Z.of_nat s ->
  totalPages st = JNum N ->
  N = Z.of_nat (s + k) ->
  exists t st',
    doWhile h token st = (t, Ok st')
    /\ requests t
       = map (pageRequest client bearer) (map Z.of_nat (seq s (S k))).
Proof.
  revert s st. induction k as [| k IH]; intros s st Hs Hp Ht HN.
  - destruct (Hpages (currentPage st)) as [data Hdata]; [lia |].
    destruct (iteration_served h token bearer cid client st data
                Hcid Hclient Hbearer Hdata)
      as (t & st' & Hit & Hreq & Hp' & Ht').
    + intros E. lia.
    + intros _. eauto.
    + rewrite doWhile_body, Hit. unfold loopCondition.
      destruct (Z.eqb_spec (currentPage st) 1) as [E | _]; [lia |].
      rewrite Ht', Ht, Hp'. unfold le_, ToNumber.
      destruct (Z.leb_spec (currentPage st + 1) N) as [Hle | _]; [lia |].
      exists t, st'. split; [reflexivity |].
      rewrite Hreq, Hp. reflexivity.
  - destruct (Hpages (currentPage st)) as [data Hdata]; [lia |].
    destruct (iteration_served h token bearer cid client st data
                Hcid Hclient Hbearer Hdata)
      as (t & st' & Hit & Hreq & Hp' & Ht').
    + intros E. lia.
    + intros _. eauto.
    + destruct (Z.eqb_spec (currentPage st) 1) as [E | _]; [lia |].
      destruct (IH (S s) st') as (t2 & st2 & Hrec & Hreq2);
        [lia | lia | congruence | lia |].
      rewrite doWhile_body, Hit. unfold loopCondition.
      rewrite Ht', Ht, Hp'. unfold le_, ToNumber.
      destruct (Z.leb_spec (currentPage st + 1) N) as [_ | Hgt]; [| lia].
      rewrite Hrec. exists (t ++ t2)%list, st2. split; [reflexivity |].
      rewrite requests_app, Hreq, Hreq2, Hp. reflexivity.
Qed.

(** The whole loop, from its initial state, when page 1 reports [N] pages. *)
Lemma doWhile_all_pages (data : Value) :
  servesPage h (pageRequest client bearer 1) data ->
  reportsTotal data N ->
  exists t st',
    doWhile h token initialState = (t, Ok st')
    /\ requests t
       = map (pageRequest client bearer) (pageNumbers (Z.max 1 N)).
Proof.
  intros Hdata Htotal.
  destruct (iteration_served h token bearer cid client initialState data
              Hcid Hclient Hbearer Hdata)
    as (t & st' & Hit & Hreq & Hp' & Ht').
  - intros _. eauto.
  - intros E. exfalso. apply E. reflexivity.
  - simpl in Hp', Ht', Hreq. destruct Htotal as [Htp _]. rewrite Htp in Ht'.
    rewrite doWhile_body, Hit. unfold loopCondition.
    rewrite Ht', Hp'. unfold le_, ToNumber.
    destruct (Z.leb_spec 2 N) as [Hle | Hgt].
    + destruct (doWhile_later_pages (Z.to_nat (N - 2)) 2 st')
        as (t2 & st2 & Hrec & Hreq2); [lia | assumption | assumption | lia |].
      rewrite Hrec. exists (t ++ t2)%list, st2. split; [reflexivity |].
      rewrite requests_app, Hreq, Hreq2. unfold pageNumbers.
      replace (Z.to_nat (Z.max 1 N)) with (S (S (Z.to_nat (N - 2)))) by lia.
      reflexivity.
    + exists t, st'. split; [reflexivity |].
      rewrite Hreq. unfold pageNumbers.
      replace (Z.to_nat (Z.max 1 N)) with 1%nat by lia. reflexivity.
Qed.

End PageCount.

(** ** Whole runs *)

Lemma getBearerToken_session h json :
  getAuthCookie h = ([], Ok json) ->
  getBearerToken h = ([], Ok (or_ (access_token json) JNull)).
Proof. intros H. unfold getBearerToken. rewrite H. reflexivity. Qed.

Lemma getClientID_session h json :
  getAuthCookie h = ([], Ok json) ->
  getClientID h = ([], Ok (or_ (user_id json) JNull)).
Proof. intros H. unfold getClientID. rewrite H. reflexivity. Qed.

(** The requests of a run whose session has a token and whose pages are all
    served. *)
Lemma run_requests h json bearer client data N :
  getAuthCookie h = ([], Ok json) ->
  ToBoolean (access_token json) = true ->
  ToString (access_token json) = Ok bearer ->
  ToString (or_ (user_id json) JNull) = Ok client ->
  servesPage h (pageRequest client bearer 1) data ->
  reportsTotal data N ->
  (forall p, 2 <= p <= N ->
             exists data', servesPage h (pageRequest client bearer p) data') ->
  requests (trace (exportTrueCoachWorkouts h))
  = map (pageRequest client bearer) (pageNumbers (Z.max 1 N)).
Proof.
  intros Hsession Htruthy Hbearer Hclient Hfirst Htotal Hpages.
  pose proof (getBearerToken_session h json Hsession) as Htok.
  pose proof (getClientID_session h json Hsession) as Hcid.
  unfold or_ at 1 in Htok. rewrite Htruthy in Htok.
  destruct (doWhile_all_pages h (access_token json) _ bearer client N
              Hcid Hclient Hbearer Hpages data Hfirst Htotal)
    as (t & st' & Hloop & Hreq).
  unfold exportTrueCoachWorkouts. rewrite Htok.
  unfold trace.
  cbv beta iota zeta delta [Run.bind emit tryCatch].
  rewrite Htruthy. simpl negb. cbv beta iota.
  rewrite Hloop. cbv beta iota.
  pose proof (exportRows_requests h (allWorkouts st') (allWorkoutItems st'))
    as Hexp.
  destruct (exportRows h (allWorkouts st') (allWorkoutItems st'))
    as [t2 [u | e]]; simpl in Hexp |- *;
    rewrite ?requests_app, Hexp, ?app_nil_r; simpl;
    rewrite ?app_nil_r; exact Hreq.
Qed.

(** C1, as the code has it.  In a run whose session has a token, whose
    page 1 reports [N] pages and whose pages 2 to [N] are all served, the
    script asks once for each page from 1 to [N], in that order, when [N] is
    at least 1, and asks for page 1 alone when [N] is 0 or less.  Whatever
    the later pages report about the number of pages changes nothing. *)
Theorem requests_follow_first_total h json bearer client data N :
  getAuthCookie h = ([], Ok json) ->
  ToBoolean (access_token json) = true ->
  ToString (access_token json) = Ok bearer ->
  ToString (or_ (user_id json) JNull) = Ok client ->
  servesPage h (pageRequest client bearer 1) data ->
  reportsTotal data N ->
  (forall p, 2 <= p <= N ->
             exists data', servesPage h (pageRequest client bearer p) data') ->
  requests (trace (exportTrueCoachWorkouts h))
  = map (pageRequest client bearer) (pageNumbers (Z.max 1 N))
  /\ length (requests (trace (exportTrueCoachWorkouts h)))
     = Z.to_nat (Z.max 1 N).
Proof.
  intros Hsession Htruthy Hbearer Hclient Hfirst Htotal Hpages.
  pose proof (run_requests h json bearer client data N Hsession Htruthy
                Hbearer Hclient Hfirst Htotal Hpages) as Hreq.
  split; [exact Hreq |].
  rewrite Hreq. unfold pageNumbers. rewrite !length_map, length_seq.
  reflexivity.
Qed.

(** ** The session *)

(** Without a token the script stops before the loop: it sends no request
    and hands nothing over for download. *)
Lemma no_token_no_request (h : Host) (t : list Event) (token : Value) :
  getBearerToken h = (t, Ok token) ->
  ToBoolean token = false ->
  exportTrueCoachWorkouts h
  = ((ConsoleLog "TrueCoach Export - Starting..." :: t)
     ++ [ConsoleError
           "Could not extract bearer token. Make sure you are logged into TrueCoach."
           None], Ok tt)%list
  /\ requests (trace (exportTrueCoachWorkouts h)) = []
  /\ filter isDownload (trace (exportTrueCoachWorkouts h)) = [].
Proof.
  intros Htok Hfalsy.
  pose proof (getBearerToken_silent h) as Hs. rewrite Htok in Hs. simpl in Hs.
  assert (exportTrueCoachWorkouts h
          = ((ConsoleLog "TrueCoach Export - Starting..." :: t)
             ++ [ConsoleError
                   "Could not extract bearer token. Make sure you are logged into TrueCoach."
                   None], Ok tt)%list) as Hrun.
  { unfold exportTrueCoachWorkouts. rewrite Htok.
    cbv beta iota zeta delta [Run.bind emit].
    rewrite Hfalsy. reflexivity. }
  split; [exact Hrun |]. rewrite Hrun. unfold trace. cbn [fst].
  split.
  - simpl. rewrite requests_app, (silent_requests _ Hs). reflexivity.
  - simpl. rewrite filter_app, (silent_downloads _ Hs). reflexivity.
Qed.

(** C2 at its failing input.  The session parses and holds a token but no
    [user_id]: the run does not stop at the credential check; it sends the
    request for page 1 of the client called "null". *)
Theorem session_without_user_id_sends_request :
  getAuthCookie hostNoUser = ([], Ok sessionJsonNoUser)
  /\ user_id sessionJsonNoUser = JUndefined
  /\ requests (trace (exportTrueCoachWorkouts hostNoUser))
     = [{| url := "https://app.truecoach.co/proxy/api/clients/null/workouts?states=completed&per_page=20&page=1&order=desc";
           authorization := "Bearer tok" |}].
Proof. repeat split; vm_compute; reflexivity. Qed.

(** * The properties on concrete inputs *)

(** The example of two pages with one workout and one item: the file holds
    the header and one data row. *)
Example two_pages_one_row :
  filter isDownload (trace (exportTrueCoachWorkouts hostTwoPages))
  = [Download "truecoach-workouts-2024-01-15.csv"
       ("date,exercise_name,instructions,result,state,workout_title"
        ++ str1 LF ++ "2024-01-01,Squat,,5x5,completed,Leg Day")].
Proof. vm_compute. reflexivity. Qed.

(** Two pages, the second of which reports seven: pages 1 and 2 are asked
    for, and no other. *)
Lemma requests_follow_first_total_witness :
  requests (trace (exportTrueCoachWorkouts hostTwoPages))
  = map (pageRequest "7" "tok") (pageNumbers (Z.max 1 2))
  /\ length (requests (trace (exportTrueCoachWorkouts hostTwoPages)))
     = Z.to_nat (Z.max 1 2).
Proof.
  apply (requests_follow_first_total hostTwoPages sessionJson "tok" "7"
           (pageOne 2) 2).
  - vm_compute. reflexivity.
  - reflexivity.
  - reflexivity.
  - reflexivity.
  - exists (success (pageOne 2)). repeat split.
  - split; reflexivity.
  - intros p Hp. assert (p = 2) as -> by lia.
    exists pageTwo. exists (success pageTwo). repeat split.
Defined.

(** Page 1 reports zero pages, and page 1 has been asked for all the same:
    one request, not zero. *)
Lemma zero_pages_one_request :
  fetch hostNoPages (pageRequest "7" "tok" 1) = Ok (success (emptyPage 0))
  /\ reportsTotal (emptyPage 0) 0
  /\ requests (trace (exportTrueCoachWorkouts hostNoPages))
     = [pageRequest "7" "tok" 1]
  /\ length (requests (trace (exportTrueCoachWorkouts hostNoPages)))
     <> Z.to_nat 0.
Proof.
  split; [reflexivity |]. split; [split; reflexivity |].
  split; [vm_compute; reflexivity |]. vm_compute. discriminate.
Qed.

Lemma join_rows_in_item_order_witness :
  exists workoutMap,
    buildWorkoutMap Map_new [legDay] = Ok workoutMap
    /\ dataRows workoutMap [headerRow] [squat; lunge; squatZero]
       = ([ConsoleWarn "Orphan workout item: 10"],
          Ok [headerRow;
              [JStr "2024-01-01"; JStr "Squat"; JStr EmptyString;
               JStr "5x5"; JStr "completed"; JStr "Leg Day"];
              [JStr "2024-01-01"; JStr "Squat"; JStr EmptyString;
               JStr EmptyString; JStr "completed"; JStr "Leg Day"]]).
Proof.
  apply (join_rows_in_item_order [legDay] [squat; lunge; squatZero]);
    repeat constructor.
Defined.

Lemma csv_escaping_rule_witness :
  csvCell (JStr ("Squat, " ++ q ++ "paused" ++ q))
  = Ok (q ++ "Squat, " ++ q ++ q ++ "paused" ++ q ++ q ++ q)
  /\ csvCell (JStr "Squat") = Ok "Squat"
  /\ csvContent [headerRow; awkwardRow]
     = Ok ("date,exercise_name,instructions,result,state,workout_title"
           ++ str1 LF
           ++ "2024-01-01," ++ q ++ "Squat, paused" ++ q ++ ","
           ++ q ++ "say " ++ q ++ q ++ "up" ++ q ++ q ++ q ++ ","
           ++ q ++ "5x5" ++ str1 LF ++ "then 3x3" ++ q ++ ",12,").
Proof.
  split; [| split].
  - apply (proj1 (csv_escaping_rule
                    (JStr ("Squat, " ++ q ++ "paused" ++ q))
                    ("Squat, " ++ q ++ "paused" ++ q) eq_refl)).
    exists COMMA. split; [simpl; tauto | left; reflexivity].
  - apply (proj1 (proj2 (csv_escaping_rule (JStr "Squat") "Squat" eq_refl))).
    intros [c [Hin Hs]]. simpl in Hin.
    repeat (destruct Hin as [<- | Hin];
            [destruct Hs as [Hs | [Hs | [Hs | Hs]]]; discriminate Hs |]).
    contradiction.
  - destruct (proj2 (proj2 (csv_escaping_rule (JStr "Squat") "Squat" eq_refl))
                [awkwardRow] [awkwardText] eq_refl)
      as (outs & Hcontent & Hrule).
    unfold headerText, awkwardText in Hrule.
    repeat match goal with
           | H : Forall2 _ (_ :: _) _ |- _ => inversion H; subst; clear H
           | H : Forall2 _ [] _ |- _ => inversion H; subst; clear H
           end.
    cbv beta in *.
    repeat match goal with
           | H : (needsQuoting ?t -> ?out = _) /\ _ |- _ =>
               first
                 [ pose proof (proj1 H (proj1 (mustQuote_spec t) eq_refl))
                 | pose proof (proj2 H (proj1 (mustQuote_false t) eq_refl)) ];
               clear H; subst out
           end.
    exact Hcontent.
Defined.

Lemma csv_round_trip_witness :
  exists text,
    csvContent [headerRow; awkwardRow] = Ok text
    /\ Csv.parse text = [headerText; awkwardText].
Proof.
  apply (csv_round_trip [awkwardRow] [awkwardText]);
    [repeat constructor | reflexivity].
Defined.

Lemma output_header_and_rows_witness :
  filter isDownload
         (trace (exportRows hostTwoPages [legDay] [squat; lunge; squatZero]))
  = [Download "truecoach-workouts-2024-01-15.csv"
       ("date,exercise_name,instructions,result,state,workout_title"
        ++ str1 LF ++ "2024-01-01,Squat,,5x5,completed,Leg Day"
        ++ str1 LF ++ "2024-01-01,Squat,,,completed,Leg Day")]
  /\ Csv.parse
       ("date,exercise_name,instructions,result,state,workout_title"
        ++ str1 LF ++ "2024-01-01,Squat,,5x5,completed,Leg Day"
        ++ str1 LF ++ "2024-01-01,Squat,,,completed,Leg Day")
     = [["date"; "exercise_name"; "instructions"; "result"; "state";
         "workout_title"];
        ["2024-01-01"; "Squat"; EmptyString; "5x5"; "completed"; "Leg Day"];
        ["2024-01-01"; "Squat"; EmptyString; EmptyString; "completed";
         "Leg Day"]]
  /\ length
       (Csv.parse
          ("date,exercise_name,instructions,result,state,workout_title"
           ++ str1 LF ++ "2024-01-01,Squat,,5x5,completed,Leg Day"
           ++ str1 LF ++ "2024-01-01,Squat,,,completed,Leg Day"))
     = 3%nat.
Proof.
  destruct (output_header_and_rows hostTwoPages [legDay]
              [squat; lunge; squatZero])
    as (text & strs & Hfile & Hstrs & Hparse & Hcount);
    [repeat constructor | repeat constructor |].
  vm_compute in Hstrs. injection Hstrs as <-.
  assert (text
          = "date,exercise_name,instructions,result,state,workout_title"
            ++ str1 LF ++ "2024-01-01,Squat,,5x5,completed,Leg Day"
            ++ str1 LF ++ "2024-01-01,Squat,,,completed,Leg Day") as Htext.
  { vm_compute in Hfile. injection Hfile as <-. reflexivity. }
  rewrite Htext in Hfile, Hparse, Hcount.
  split; [exact Hfile | split; [exact Hparse | exact Hcount]].
Defined.

Lemma failed_fetch_aborts_witness :
  exists before,
    trace (exportTrueCoachWorkouts hostFailing)
    = (before
       ++ [Fetch (pageRequest "7" "tok" 2);
           ConsoleError "Export failed:"
             (Some (Error "API request failed: 500 Internal Server Error"));
           ConsoleError
             "Make sure you are logged into TrueCoach in this browser tab."
             None])%list
    /\ filter isDownload (trace (exportTrueCoachWorkouts hostFailing)) = []
    /\ result (exportTrueCoachWorkouts hostFailing) = Ok tt.
Proof.
  apply (failed_fetch_aborts hostFailing (pageRequest "7" "tok" 2)
           {| ok := false; status := 500;
              statusText := "Internal Server Error";
              json := Throw SyntaxError |}).
  - vm_compute. do 6 right. left. reflexivity.
  - reflexivity.
  - reflexivity.
Defined.

Lemma workoutMap_last_write_wins_witness :
  exists workoutMap,
    buildWorkoutMap Map_new [legDay; legDayEdited] = Ok workoutMap
    /\ Map_get workoutMap (JNum 5) = legDayEdited.
Proof.
  destruct (workoutMap_last_write_wins [legDay; legDayEdited])
    as (workoutMap & Hbuilt & Hlast & _); [repeat constructor |].
  exists workoutMap. split; [exact Hbuilt |].
  apply (Hlast [legDay] legDayEdited [] (JNum 5)).
  - reflexivity.
  - reflexivity.
  - intros w' [].
Defined.

Lemma cell_value_text_witness :
  csvCell (or_ JNull (JStr EmptyString)) = Ok EmptyString
  /\ csvCell (or_ (JNum 12) (JStr EmptyString)) = Ok "12".
Proof.
  split.
  - apply (proj1 (cell_value_text JNull)). reflexivity.
  - apply (proj1 (proj2 (cell_value_text (JNum 12))) eq_refl "12").
    reflexivity.
Defined.

(** The number 0 has the text "0", and the cell that holds it is written
    empty. *)
Lemma zero_result_written_empty :
  ToString (OptGet squatZero "result") = Ok "0"
  /\ csvCell (or_ (OptGet squatZero "result") (JStr EmptyString))
     = Ok EmptyString
  /\ csvCell (or_ (OptGet squatZero "result") (JStr EmptyString)) <> Ok "0"
  /\ filter isDownload (trace (exportRows hostTwoPages [legDay] [squatZero]))
     = [Download "truecoach-workouts-2024-01-15.csv"
          ("date,exercise_name,instructions,result,state,workout_title"
           ++ str1 LF ++ "2024-01-01,Squat,,,completed,Leg Day")].
Proof.
  split; [reflexivity |]. split; [reflexivity |].
  split; [vm_compute; discriminate | vm_compute; reflexivity].
Qed.

(** The workouts have the ids 5 (a number) and "7"; the item asks for "5"
    (a text). *)
Lemma join_keys_strict_witness :
  matches plank legDay = false
  /\ exists workoutMap,
       buildWorkoutMap Map_new [legDay; coreDay] = Ok workoutMap
       /\ Map_get workoutMap (JStr "5") = JUndefined
       /\ forall csvRows rest,
            dataRows workoutMap csvRows (plank :: rest)
            = Run.bind (emit (ConsoleWarn "Orphan workout item: 11"))
                       (fun _ => dataRows workoutMap csvRows rest).
Proof.
  destruct (join_keys_strict [legDay; coreDay] plank) as [Hpair Hdropped].
  - repeat constructor.
  - reflexivity.
  - intros w [<- | [<- | []]] [Htype Hvalue].
    + discriminate Htype.
    + discriminate Hvalue.
  - split; [apply Hpair; discriminate | exact Hdropped].
Defined.

(** * Further properties of the script *)

(** ** Reading the cookie *)

Lemma prefix_append (p s : string) :
  String.prefix p s = true <-> exists rest, s = p ++ rest.
Proof.
  revert s. induction p as [| a p IH]; intros s.
  - rewrite prefix_empty. split; [intros _; exists s |]; reflexivity.
  - destruct s as [| b s]; simpl.
    + split; [discriminate | intros [rest H]; discriminate].
    + destruct (ascii_dec a b) as [-> | Hne].
      * rewrite IH. split; intros [rest H]; exists rest.
        -- rewrite H. reflexivity.
        -- inversion H. reflexivity.
      * split; [discriminate |].
        intros [rest H]. inversion H. congruence.
Qed.

Lemma authCookie_starts (h : Host) (cookie : string) :
  authCookie h = Some cookie ->
  exists rest, cookie = "ember_simple_auth-session=" ++ rest.
Proof.
  unfold authCookie. intros H. apply find_some in H. destruct H as [_ H].
  apply prefix_append. exact H.
Qed.

(** [getAuthCookie], by what it finds. *)
Lemma getAuthCookie_found (h : Host) (cookie : string) :
  authCookie h = Some cookie ->
  getAuthCookie h
  = decodeAndParse h (nth 1 (split "=" cookie) "undefined").
Proof.
  intros H. destruct (authCookie_starts h cookie H) as [rest ->].
  unfold getAuthCookie. fold (authCookie h). rewrite H.
  simpl negb. cbv iota.
  unfold decodeAndParse, Run.bind, lift, emit, ret.
  destruct (decodeURIComponent h _) as [value | e]; [| reflexivity].
  destruct (JSON_parse h value) as [json | e]; reflexivity.
Qed.

Lemma getAuthCookie_missing (h : Host) :
  authCookie h = None -> getAuthCookie h = ([], Ok JNull).
Proof.
  intros H. unfold getAuthCookie. fold (authCookie h). rewrite H.
  reflexivity.
Qed.

(** Splitting at a separator that the first part does not contain. *)
Lemma split_first (sep : ascii) (a b : string) :
  Forall (fun c => c <> sep) (list_ascii_of_string a) ->
  split sep (a ++ String sep b) = a :: split sep b.
Proof.
  induction a as [| c a IH]; intros Ha; simpl.
  - rewrite Ascii.eqb_refl. reflexivity.
  - inversion Ha as [| ? ? Hc Hrest]; subst.
    apply Ascii.eqb_neq in Hc. rewrite Hc, (IH Hrest). reflexivity.
Qed.

Lemma split_none (sep : ascii) (a : string) :
  Forall (fun c => c <> sep) (list_ascii_of_string a) ->
  split sep a = [a].
Proof.
  induction a as [| c a IH]; intros Ha; simpl; [reflexivity |].
  inversion Ha as [| ? ? Hc Hrest]; subst.
  apply Ascii.eqb_neq in Hc. rewrite Hc, (IH Hrest). reflexivity.
Qed.

Lemma split_head (sep : ascii) (s : string) :
  exists piece pieces, split sep s = piece :: pieces.
Proof.
  induction s as [| c s IH]; simpl; [eauto |].
  destruct (Ascii.eqb c sep); [eauto |].
  destruct IH as (piece & pieces & ->). eauto.
Qed.

(** ** The shape of a run *)

Lemma run_cases (h : Host) :
  exportTrueCoachWorkouts h
  = match getBearerToken h with
    | (tc, Throw e) => (startLine :: tc, Throw e)
    | (tc, Ok token) =>
        if ToBoolean token
        then ((startLine :: tc) ++ tokenLine :: fst (tryBlock h token),
              snd (tryBlock h token))%list
        else ((startLine :: tc) ++ [noTokenLine], Ok tt)%list
    end.
Proof.
  change (exportTrueCoachWorkouts h)
    with (Run.bind (emit startLine)
            (fun _ =>
               Run.bind (getBearerToken h)
                 (fun token =>
                    if negb (ToBoolean token) then emit noTokenLine
                    else Run.bind (emit tokenLine)
                           (fun _ => tryBlock h token)))).
  destruct (getBearerToken h) as [tc [token | e]]; [| reflexivity].
  unfold Run.bind, emit.
  destruct (ToBoolean token); simpl negb; cbv iota.
  - destruct (tryBlock h token) as [t r]. reflexivity.
  - reflexivity.
Qed.

Lemma tryBlock_cases (h : Host) (token : Value) :
  tryBlock h token
  = match doWhile h token initialState with
    | (t, Throw e) => ((t ++ failureLines e)%list, Ok tt)
    | (t, Ok st) =>
        match exportRows h (allWorkouts st) (allWorkoutItems st) with
        | (t2, Ok _) => ((t ++ t2)%list, Ok tt)
        | (t2, Throw e) => ((t ++ t2 ++ failureLines e)%list, Ok tt)
        end
    end.
Proof.
  unfold tryBlock, tryCatch.
  cbv beta iota zeta delta [Run.bind emit].
  destruct (doWhile h token initialState) as [t [st | e]]; [| reflexivity].
  destruct (exportRows h (allWorkouts st) (allWorkoutItems st))
    as [t2 [[] | e]]; simpl; rewrite ?app_assoc; reflexivity.
Qed.

(** The loop body, stage by stage. *)
Lemma iteration_cases (h : Host) (token : Value) (st : LoopState) :
  iteration h token st
  = match getApiBase h with
    | (tb, Throw e) => (tb, Throw e)
    | (tb, Ok base) =>
        match ToString token with
        | Throw e => (tb, Throw e)
        | Ok bearer =>
            let request := requestOf base bearer (currentPage st) in
            match fetch h request with
            | Throw e => ((tb ++ [Fetch request])%list, Throw e)
            | Ok response =>
                ((tb ++ Fetch request :: fst (afterFetch h st response))%list,
                 snd (afterFetch h st response))
            end
        end
    end.
Proof.
  unfold iteration.
  destruct (getApiBase h) as [tb [base | e]]; [| reflexivity].
  unfold Run.bind at 1.
  destruct (ToString token) as [bearer | e].
  2:{ unfold lift, Run.bind. rewrite app_nil_r. reflexivity. }
  unfold lift at 1. unfold Run.bind at 1. cbv zeta.
  fold (requestOf base bearer (currentPage st)).
  unfold emit at 1. unfold Run.bind at 1.
  destruct (fetch h (requestOf base bearer (currentPage st)))
    as [response | e].
  2:{ unfold lift, Run.bind. simpl. reflexivity. }
  unfold lift at 1. unfold Run.bind at 1.
  fold (afterFetch h st response).
  destruct (afterFetch h st response) as [ta res]. simpl. reflexivity.
Qed.

(** ** Sessions that do not start an export *)

Lemma getBearerToken_of (h : Host) (t : list Event) (json : Value) :
  getAuthCookie h = (t, Ok json) ->
  getBearerToken h = (t, Ok (or_ (access_token json) JNull)).
Proof.
  intros H. unfold getBearerToken, Run.bind, ret. rewrite H.
  rewrite app_nil_r. reflexivity.
Qed.

Lemma getBearerToken_throws (h : Host) (t : list Event) (e : Exn) :
  getAuthCookie h = (t, Throw e) -> getBearerToken h = (t, Throw e).
Proof. intros H. unfold getBearerToken, Run.bind. rewrite H. reflexivity. Qed.

Lemma falsy_or_null (v : Value) :
  ToBoolean v = false -> ToBoolean (or_ v JNull) = false.
Proof. intros H. unfold or_. rewrite H. reflexivity. Qed.

(** X1. When no cookie of the page carries the session name, the run prints
    its first line and the complaint about the missing token, and does
    nothing else: no request is sent, nothing is handed over. *)
Theorem no_session_cookie_stops (h : Host) :
  authCookie h = None ->
  exportTrueCoachWorkouts h = ([startLine; noTokenLine], Ok tt).
Proof.
  intros H. rewrite run_cases.
  rewrite (getBearerToken_of h [] JNull (getAuthCookie_missing h H)).
  reflexivity.
Qed.

(** X2. When the session cookie decodes but [JSON.parse] throws, the
    exception is caught inside [getAuthCookie]: the run reports the cookie
    that does not parse, then the missing token, and ends normally without a
    request. *)
Theorem unparsable_session_stops (h : Host) (cookie value : string) (e : Exn) :
  authCookie h = Some cookie ->
  decodeURIComponent h (nth 1 (split "=" cookie) "undefined") = Ok value ->
  JSON_parse h value = Throw e ->
  exportTrueCoachWorkouts h
  = ([startLine;
      ConsoleError "Failed to parse ember_simple_auth-session cookie" (Some e);
      noTokenLine], Ok tt).
Proof.
  intros Hc Hd Hp. rewrite run_cases.
  assert (getAuthCookie h
          = ([ConsoleError "Failed to parse ember_simple_auth-session cookie"
                           (Some e)], Ok JNull)) as Ha.
  { rewrite (getAuthCookie_found h cookie Hc). unfold decodeAndParse.
    rewrite Hd, Hp. reflexivity. }
  rewrite (getBearerToken_of h _ JNull Ha). reflexivity.
Qed.

(** X3. [decodeURIComponent] is called outside any [try]: when it throws on
    the cookie value, the exception leaves the script uncaught, after the
    first console line only. *)
Theorem undecodable_session_rejects (h : Host) (cookie : string) (e : Exn) :
  authCookie h = Some cookie ->
  decodeURIComponent h (nth 1 (split "=" cookie) "undefined") = Throw e ->
  exportTrueCoachWorkouts h = ([startLine], Throw e).
Proof.
  intros Hc Hd. rewrite run_cases.
  assert (getAuthCookie h = ([], Throw e)) as Ha.
  { rewrite (getAuthCookie_found h cookie Hc). unfold decodeAndParse.
    rewrite Hd. reflexivity. }
  rewrite (getBearerToken_throws h [] e Ha). reflexivity.
Qed.

(** X4. The value of the session cookie is what stands between the first
    and the second [=] of the cookie: the text after a [=] inside the value
    is dropped before decoding. *)
Theorem cookie_value_cut_at_equals (h : Host) (value rest : string) :
  authCookie h = Some ("ember_simple_auth-session=" ++ value ++ rest) ->
  rest = EmptyString \/ (exists dropped, rest = String "=" dropped) ->
  Forall (fun c => c <> "="%char) (list_ascii_of_string value) ->
  getAuthCookie h = decodeAndParse h value.
Proof.
  intros Hc Hrest Hvalue. rewrite (getAuthCookie_found h _ Hc).
  f_equal.
  change ("ember_simple_auth-session=" ++ value ++ rest)
    with ("ember_simple_auth-session" ++ String "=" (value ++ rest)).
  rewrite split_first by (repeat constructor; discriminate).
  destruct Hrest as [-> | [dropped ->]].
  - rewrite append_empty_r, (split_none _ _ Hvalue). reflexivity.
  - rewrite (split_first _ _ _ Hvalue). reflexivity.
Qed.

(** X5. When the session parses but holds no truthy [access_token] (no
    [authenticated] object, no token, an empty token), the run stops at the
    token check: no request is sent and nothing is handed over for
    download. *)
Theorem session_without_token_stops (h : Host) (t : list Event) (json : Value) :
  getAuthCookie h = (t, Ok json) ->
  ToBoolean (access_token json) = false ->
  exportTrueCoachWorkouts h = ((startLine :: t) ++ [noTokenLine], Ok tt)%list
  /\ requests (trace (exportTrueCoachWorkouts h)) = []
  /\ filter isDownload (trace (exportTrueCoachWorkouts h)) = [].
Proof.
  intros Ha Hfalsy.
  pose proof (getAuthCookie_silent h) as Hs. rewrite Ha in Hs. simpl in Hs.
  assert (exportTrueCoachWorkouts h
          = ((startLine :: t) ++ [noTokenLine], Ok tt)%list) as Hrun.
  { rewrite run_cases, (getBearerToken_of h t json Ha).
    rewrite (falsy_or_null _ Hfalsy). reflexivity. }
  split; [exact Hrun |]. rewrite Hrun. unfold trace. cbn [fst].
  split.
  - simpl. rewrite requests_app, (silent_requests _ Hs). reflexivity.
  - simpl. rewrite filter_app, (silent_downloads _ Hs). reflexivity.
Qed.

(** ** The loop body after the request *)

Lemma Get_nonnullish (v : Value) (k : string) :
  nullish v = false -> Get v k = Ok (OptGet v k).
Proof. destruct v; simpl; try discriminate; reflexivity. Qed.

Lemma Get_nullish (v : Value) (k : string) :
  nullish v = true -> Get v k = Throw TypeError.
Proof. destruct v; simpl; try discriminate; reflexivity. Qed.

Lemma Get_Ok (v : Value) (k : string) (x : Value) :
  Get v k = Ok x -> x = OptGet v k /\ nullish v = false.
Proof.
  destruct v; simpl; try discriminate; intros H; inversion H; auto.
Qed.

Lemma afterFetch_not_ok (h : Host) (st : LoopState) (r : Response) :
  ok r = false ->
  afterFetch h st r = ([], Throw (Error (failureMessage r))).
Proof. intros H. unfold afterFetch. rewrite H. reflexivity. Qed.

(** After the request the loop body only prints progress lines and, at
    most once and at its very end, waits. *)
Lemma afterFetch_events (h : Host) (st : LoopState) (r : Response) :
  exists logs,
    Forall (fun ev => match ev with ConsoleLog _ => True | _ => False end) logs
    /\ (fst (afterFetch h st r) = logs
        \/ (fst (afterFetch h st r) = (logs ++ [Sleep 200])%list
            /\ exists st', snd (afterFetch h st r) = Ok st')).
Proof.
  unfold afterFetch.
  cbv beta iota zeta delta [Run.bind lift emit throw ret].
  repeat (destruct_scrutinee; cbv beta iota);
    simpl;
    first [ solve [eexists; split; [| left; reflexivity]; repeat constructor]
          | solve [eexists; split;
                   [| right; split; [| eexists; reflexivity];
                      match goal with
                      | |- ?l = (_ ++ [Sleep 200])%list =>
                          change l with (removelast l ++ [Sleep 200])%list
                      end; reflexivity ];
                   repeat constructor] ].
Qed.

(** The loop body after the request, on a page that is served: the state it
    leaves and what it emits. *)
Lemma afterFetch_served (h : Host) (st : LoopState) (r : Response)
    (data total : Value) (more : bool) :
  ok r = true -> json r = Ok data ->
  nullish data = false ->
  spreadable (OptGet data "workouts") = true ->
  spreadable (OptGet data "workout_items") = true ->
  (currentPage st = 1 ->
     nullish (OptGet data "meta") = false
     /\ textual (OptGet (OptGet data "meta") "total_count") = true
     /\ total = OptGet (OptGet data "meta") "total_pages") ->
  (currentPage st <> 1 -> total = totalPages st) ->
  textual total = true ->
  le_ (StringToNumber h) (currentPage st + 1) total = Ok more ->
  exists logs,
    Forall (fun ev => match ev with ConsoleLog _ => True | _ => False end) logs
    /\ afterFetch h st r
       = ((logs ++ (if more then [Sleep 200] else []))%list,
          Ok {| allWorkouts := (allWorkouts st ++ pageWorkouts data)%list;
                allWorkoutItems := (allWorkoutItems st ++ pageItems data)%list;
                currentPage := currentPage st + 1;
                totalPages := total |}).
Proof.
  intros Hok Hjson Hdata Hw Hi Hfirst Hlater Htotal Hmore.
  unfold afterFetch. rewrite Hok. simpl negb. cbv iota.
  unfold ret at 1. unfold Run.bind at 1. rewrite Hjson.
  unfold lift at 1. unfold Run.bind at 1.
  match goal with
  | |- context [Run.bind (if currentPage st =? 1 then ?a else ?b) ?k] =>
      set (first := if currentPage st =? 1 then a else b)
  end.
  assert (exists tlog,
            first = (tlog, Ok total)
            /\ Forall (fun ev => match ev with
                                 | ConsoleLog _ => True
                                 | _ => False
                                 end) tlog) as (tlog & -> & Hlog).
  { subst first. unfold textual in Htotal.
    destruct (ToString total) as [pages |] eqn:Hpages; [| discriminate].
    destruct (Z.eqb_spec (currentPage st) 1) as [E | E].
    - destruct (Hfirst E) as (Hmeta & Hcount & ->).
      unfold textual in Hcount.
      destruct (ToString (OptGet (OptGet data "meta") "total_count"))
        as [count |] eqn:Hc; [| discriminate].
      cbv beta iota zeta delta [Run.bind lift emit ret throw].
      rewrite (Get_nonnullish data "meta" Hdata). cbv beta iota.
      rewrite (Get_nonnullish _ "total_pages" Hmeta). cbv beta iota.
      rewrite (Get_nonnullish _ "total_count" Hmeta), Hc. cbv beta iota.
      rewrite Hpages. cbv beta iota.
      eexists. split; [reflexivity |]. repeat constructor.
    - rewrite <- (Hlater E). exists []. split; [reflexivity | constructor]. }
  unfold textual in Htotal.
  destruct (ToString total) as [pages |] eqn:Hpages; [| discriminate].
  cbv beta iota zeta delta [Run.bind lift emit ret throw].
  rewrite Hpages. cbv beta iota.
  rewrite (Get_nonnullish data "workouts" Hdata). cbv beta iota.
  unfold pageWorkouts, pageItems, spread.
  unfold spreadable in Hw, Hi.
  destruct (iterate (or_ (OptGet data "workouts") (JArr [])))
    as [newWorkouts |]; [| discriminate].
  cbv beta iota.
  rewrite (Get_nonnullish data "workout_items" Hdata). cbv beta iota.
  destruct (iterate (or_ (OptGet data "workout_items") (JArr [])))
    as [newItems |]; [| discriminate].
  cbv beta iota. rewrite Hmore. cbv beta iota.
  exists (tlog ++ [ConsoleLog ("Fetching page "
                                ++ NumberToString (currentPage st)
                                ++ " of " ++ pages ++ "...")])%list.
  split.
  - apply Forall_app. split; [exact Hlog | repeat constructor].
  - destruct more; simpl; rewrite ?app_nil_r, <- ?app_assoc; reflexivity.
Qed.

(** ** Collecting the pages *)

Lemma network_app (a b : list Event) :
  network (a ++ b) = (network a ++ network b)%list.
Proof. unfold network. apply filter_app. Qed.

Lemma network_logs (logs : list Event) :
  Forall (fun ev => match ev with ConsoleLog _ => True | _ => False end) logs ->
  network logs = [].
Proof.
  induction 1 as [| ev logs Hev Hlogs IH]; [reflexivity |].
  destruct ev; try contradiction. simpl. exact IH.
Qed.

Lemma logs_loopEvents (logs : list Event) :
  Forall (fun ev => match ev with ConsoleLog _ => True | _ => False end) logs ->
  Forall (fun ev => loopEvent ev = true) logs.
Proof.
  intros H. eapply Forall_impl; [| exact H].
  intros ev Hev. destruct ev; try contradiction. reflexivity.
Qed.

Lemma requestOf_pageRequest (client bearer : string) (p : Z) :
  requestOf ("https://app.truecoach.co/proxy/api/clients/"
             ++ client ++ "/workouts") bearer p
  = pageRequest client bearer p.
Proof. unfold requestOf. apply request_of_page. Qed.

Section Collect.

Variables (h : Host) (token cid : Value) (bearer client : string) (N : Z).

(** The body of each page. *)
Variable page : Z -> Value.

Hypothesis Hcid : getClientID h = ([], Ok cid).
Hypothesis Hclient : ToString cid = Ok client.
Hypothesis Hbearer : ToString token = Ok bearer.

Hypothesis Hfirst :
  servesPage h (pageRequest client bearer 1) (page 1)
  /\ reportsTotal (page 1) N.

Hypothesis Hlater :
  forall p, 2 <= p <= N ->
            servesPage h (pageRequest client bearer p) (page p).

(** A turn of the loop on a served page. *)
Lemma iteration_page (st : LoopState) :
  1 <= currentPage st <= Z.max 1 N ->
  (currentPage st <> 1 -> totalPages st = JNum N) ->
  exists logs,
    Forall (fun ev => match ev with ConsoleLog _ => True | _ => False end) logs
    /\ iteration h token st
       = ((Fetch (pageRequest client bearer (currentPage st)) :: logs)
          ++ (if currentPage st + 1 <=? N then [Sleep 200] else []),
          Ok {| allWorkouts :=
                  allWorkouts st ++ pageWorkouts (page (currentPage st));
                allWorkoutItems :=
                  allWorkoutItems st ++ pageItems (page (currentPage st));
                currentPage := currentPage st + 1;
                totalPages := JNum N |})%list.
Proof.
  intros Hrange Htotal.
  assert (servesPage h (pageRequest client bearer (currentPage st))
                     (page (currentPage st))) as Hserved.
  { destruct (Z.eq_dec (currentPage st) 1) as [-> | Hne];
      [apply Hfirst | apply Hlater; lia]. }
  destruct Hserved as (r & Hf & Hok & Hjson & Hobj & Hw & Hi).
  destruct (afterFetch_served h st r (page (currentPage st)) (JNum N)
              (currentPage st + 1 <=? N))
    as (logs & Hlogs & Hafter); try assumption.
  - destruct (page (currentPage st)); try discriminate Hobj; reflexivity.
  - intros E. rewrite E. destruct Hfirst as [_ [Htp Htc]].
    split; [| split; [exact Htc | symmetry; exact Htp]].
    destruct (OptGet (page 1) "meta"); try discriminate Htp; reflexivity.
  - intros Hne. symmetry. apply Htotal. exact Hne.
  - reflexivity.
  - reflexivity.
  - exists logs. split; [exact Hlogs |].
    rewrite iteration_cases.
    rewrite (getApiBase_client h cid client Hcid Hclient), Hbearer.
    cbv zeta. rewrite requestOf_pageRequest, Hf, Hafter. reflexivity.
Qed.

(** From page [s] >= 2 on, with [totalPages] fixed at [N] >= [s]. *)
Lemma doWhile_collects_later (k s : nat) (st : LoopState) :
  (2 <= s)%nat ->
  currentPage st = Z.of_nat s ->
  totalPages st = JNum N ->
  N = Z.of_nat (s + k) ->
  exists t,
    doWhile h token st
    = (t,
       Ok {| allWorkouts :=
               allWorkouts st
               ++ flat_map (fun p => pageWorkouts (page p))
                           (map Z.of_nat (seq s (S k)));
             allWorkoutItems :=
               allWorkoutItems st
               ++ flat_map (fun p => pageItems (page p))
                           (map Z.of_nat (seq s (S k)));
             currentPage := N + 1;
             totalPages := JNum N |})%list
    /\ network t
       = schedule (map (pageRequest client bearer)
                       (map Z.of_nat (seq s (S k))))
    /\ Forall (fun ev => loopEvent ev = true) t.
Proof.
  revert s st. induction k as [| k IH]; intros s st Hs Hp Ht HN.
  - destruct (iteration_page st) as (logs & Hlogs & Hit);
      [lia | intros _; exact Ht |].
    rewrite doWhile_body, Hit. unfold loopCondition. cbn [currentPage totalPages].
    unfold le_, ToNumber.
    destruct (Z.leb_spec (currentPage st + 1) N) as [Hle | _]; [lia |].
    rewrite app_nil_r.
    exists (Fetch (pageRequest client bearer (currentPage st)) :: logs).
    split; [| split].
    + rewrite Hp. cbn [seq map flat_map]. rewrite !app_nil_r.
      replace (Z.of_nat s + 1) with (N + 1) by lia. reflexivity.
    + simpl. rewrite (network_logs _ Hlogs), Hp. reflexivity.
    + constructor; [reflexivity |].
      apply logs_loopEvents. exact Hlogs.
  - destruct (iteration_page st) as (logs & Hlogs & Hit);
      [lia | intros _; exact Ht |].
    rewrite doWhile_body, Hit. unfold loopCondition. cbn [currentPage totalPages].
    unfold le_, ToNumber.
    destruct (Z.leb_spec (currentPage st + 1) N) as [_ | Hgt]; [| lia].
    match goal with
    | |- context [doWhile h token ?st'] =>
        destruct (IH (S s) st') as (t2 & Hrec & Hnet & Hev);
          [lia | cbn [currentPage]; lia | reflexivity | lia |]
    end.
    rewrite Hrec. cbn [allWorkouts allWorkoutItems].
    eexists. split; [| split].
    + rewrite Hp. rewrite <- !app_assoc. reflexivity.
    + rewrite !network_app, Hnet. simpl.
      rewrite (network_logs _ Hlogs). reflexivity.
    + repeat first [ exact Hev
                   | apply logs_loopEvents; exact Hlogs
                   | apply Forall_app; split
                   | constructor; [reflexivity |]
                   | constructor ].
Qed.

(** The whole loop when every page is served. *)
Lemma doWhile_collects :
  exists t st',
    doWhile h token initialState = (t, Ok st')
    /\ allWorkouts st'
       = flat_map (fun p => pageWorkouts (page p)) (pageNumbers (Z.max 1 N))
    /\ allWorkoutItems st'
       = flat_map (fun p => pageItems (page p)) (pageNumbers (Z.max 1 N))
    /\ network t
       = schedule (map (pageRequest client bearer)
                       (pageNumbers (Z.max 1 N)))
    /\ Forall (fun ev => loopEvent ev = true) t.
Proof.
  destruct (iteration_page initialState) as (logs & Hlogs & Hit);
    [simpl; lia | intros E; exfalso; apply E; reflexivity |].
  cbn [currentPage allWorkouts allWorkoutItems initialState] in Hit.
  rewrite doWhile_body, Hit. unfold loopCondition.
  cbn [currentPage totalPages]. unfold le_, ToNumber.
  change (1 + 1) with 2.
  destruct (Z.leb_spec 2 N) as [Hle | Hgt].
  - match goal with
    | |- context [doWhile h token ?st'] =>
        destruct (doWhile_collects_later (Z.to_nat (N - 2)) 2 st')
          as (t2 & Hrec & Hnet & Hev);
          [lia | reflexivity | reflexivity | lia |]
    end.
    rewrite Hrec. cbn [allWorkouts allWorkoutItems].
    unfold pageNumbers.
    replace (Z.to_nat (Z.max 1 N)) with (S (S (Z.to_nat (N - 2)))) by lia.
    eexists _, _. split; [reflexivity |].
    cbn [allWorkouts allWorkoutItems]. repeat split.
    + rewrite !network_app, Hnet. simpl.
      rewrite (network_logs _ Hlogs). reflexivity.
    + repeat first [ exact Hev
                   | apply logs_loopEvents; exact Hlogs
                   | apply Forall_app; split
                   | constructor; [reflexivity |]
                   | constructor ].
  - unfold pageNumbers.
    replace (Z.to_nat (Z.max 1 N)) with 1%nat by lia.
    eexists _, _. split; [reflexivity |].
    cbn [allWorkouts allWorkoutItems]. simpl flat_map.
    rewrite !app_nil_r. repeat split.
    + simpl. rewrite (network_logs _ Hlogs). reflexivity.
    + constructor; [reflexivity |]. apply logs_loopEvents. exact Hlogs.
Qed.

End Collect.

(** ** What each part of a run may emit *)

Lemma dataRows_warnings (workoutMap : Map) (items : list Value) :
  forall csvRows,
    Forall (fun ev => match ev with ConsoleWarn _ => True | _ => False end)
           (fst (dataRows workoutMap csvRows items)).
Proof.
  induction items as [| item items IH]; intros csvRows; [constructor |].
  simpl dataRows.
  cbv beta iota zeta delta [Run.bind lift emit throw ret].
  repeat match goal with
         | |- context [dataRows workoutMap ?a items] =>
             let Hs := fresh "Hs" in
             pose proof (IH a) as Hs;
             destruct (dataRows workoutMap a items)
         | _ => destruct_scrutinee
         end;
    simpl in *; repeat constructor; assumption.
Qed.

Lemma warnings_exportEvents (t : list Event) :
  Forall (fun ev => match ev with ConsoleWarn _ => True | _ => False end) t ->
  Forall (fun ev => exportEvent ev = true) t
  /\ filter isDownload t = [].
Proof.
  induction 1 as [| ev t Hev Ht [IH1 IH2]]; [split; [constructor | reflexivity] |].
  destruct ev; try contradiction. split; [constructor; auto | exact IH2].
Qed.

(** The part after the loop: what it emits, and that the download is there
    exactly when that part ends normally. *)
Lemma exportRows_outcome (h : Host) (workouts items : list Value) :
  Forall (fun ev => exportEvent ev = true) (fst (exportRows h workouts items))
  /\ match snd (exportRows h workouts items) with
     | Ok _ =>
         exists text,
           filter isDownload (fst (exportRows h workouts items))
           = [Download (downloadName h) text]
     | Throw _ => filter isDownload (fst (exportRows h workouts items)) = []
     end.
Proof.
  unfold exportRows.
  cbv beta iota zeta delta [Run.bind lift emit throw ret].
  destruct (buildWorkoutMap Map_new workouts) as [m | e].
  2:{ simpl. split; [repeat constructor | reflexivity]. }
  pose proof (dataRows_warnings m items [headerRow]) as Hw.
  apply warnings_exportEvents in Hw. destruct Hw as [Hev Hnd].
  destruct (dataRows m [headerRow] items) as [t [csvRows | e]];
    simpl in Hev, Hnd.
  - destruct (csvContent csvRows) as [content | e]; simpl.
    + split.
      * constructor; [reflexivity |].
        apply Forall_app. split; [exact Hev | repeat constructor].
      * exists content. rewrite filter_app, Hnd. reflexivity.
    + rewrite ?app_nil_r. split.
      * constructor; [reflexivity |]. exact Hev.
      * exact Hnd.
  - simpl. rewrite ?app_nil_r. split.
    + constructor; [reflexivity |]. exact Hev.
    + exact Hnd.
Qed.

Lemma exportEvents_facts (t : list Event) :
  Forall (fun ev => exportEvent ev = true) t ->
  network t = [] /\ filter isFailureReport t = [] /\ requests t = [].
Proof.
  induction 1 as [| ev t Hev Ht (IH1 & IH2 & IH3)]; [auto |].
  destruct ev; simpl in *; try discriminate; auto.
Qed.

Lemma loopEvents_facts (t : list Event) :
  Forall (fun ev => loopEvent ev = true) t ->
  filter isDownload t = [] /\ filter isFailureReport t = [].
Proof.
  induction 1 as [| ev t Hev Ht (IH1 & IH2)]; [auto |].
  destruct ev; simpl in *; try discriminate; auto.
  apply String.eqb_eq in Hev. subst message. simpl. auto.
Qed.







(** ** All or nothing *)



(** ** Runs in which every page is served *)

Section ServedRun.

Variables (h : Host) (json : Value) (bearer client : string) (N : Z).
Variable page : Z -> Value.

Hypothesis Hsession : getAuthCookie h = ([], Ok json).
Hypothesis Htruthy : ToBoolean (access_token json) = true.
Hypothesis Hbearer : ToString (access_token json) = Ok bearer.
Hypothesis Hclient : ToString (or_ (user_id json) JNull) = Ok client.
Hypothesis Hfirst :
  servesPage h (pageRequest client bearer 1) (page 1)
  /\ reportsTotal (page 1) N.
Hypothesis Hlater :
  forall p, 2 <= p <= N ->
            servesPage h (pageRequest client bearer p) (page p).

Lemma served_loop :
  exists t st',
    doWhile h (access_token json) initialState = (t, Ok st')
    /\ allWorkouts st'
       = flat_map (fun p => pageWorkouts (page p)) (pageNumbers (Z.max 1 N))
    /\ allWorkoutItems st'
       = flat_map (fun p => pageItems (page p)) (pageNumbers (Z.max 1 N))
    /\ network t
       = schedule (map (pageRequest client bearer)
                       (pageNumbers (Z.max 1 N)))
    /\ Forall (fun ev => loopEvent ev = true) t.
Proof.
  apply (doWhile_collects h (access_token json) (or_ (user_id json) JNull)
           bearer client N page);
    try assumption.
  apply getClientID_session. exact Hsession.
Qed.

(** The whole run: the two opening lines, the loop, then the part that
    joins, serialises and hands over. *)
Lemma served_run :
  exists t st',
    doWhile h (access_token json) initialState = (t, Ok st')
    /\ allWorkouts st'
       = flat_map (fun p => pageWorkouts (page p)) (pageNumbers (Z.max 1 N))
    /\ allWorkoutItems st'
       = flat_map (fun p => pageItems (page p)) (pageNumbers (Z.max 1 N))
    /\ network t
       = schedule (map (pageRequest client bearer)
                       (pageNumbers (Z.max 1 N)))
    /\ Forall (fun ev => loopEvent ev = true) t
    /\ exportTrueCoachWorkouts h
       = ((startLine :: tokenLine :: t)
          ++ fst (exportRows h (allWorkouts st') (allWorkoutItems st'))
          ++ match snd (exportRows h (allWorkouts st') (allWorkoutItems st'))
             with
             | Ok _ => []
             | Throw e => failureLines e
             end, Ok tt)%list.
Proof.
  destruct served_loop as (t & st' & Hloop & Hw & Hi & Hnet & Hev).
  exists t, st'. repeat (split; [assumption |]).
  rewrite run_cases, (getBearerToken_of h [] json Hsession).
  replace (or_ (access_token json) JNull) with (access_token json)
    by (unfold or_; rewrite Htruthy; reflexivity).
  rewrite Htruthy, tryBlock_cases, Hloop.
  destruct (exportRows h (allWorkouts st') (allWorkoutItems st'))
    as [t2 [u | e]]; simpl; rewrite ?app_nil_r; reflexivity.
Qed.

End ServedRun.

(** X6. When every page is served, the loop ends normally with the
    workouts of pages 1, 2, ..., in that order and in the order each page
    lists them, and likewise the workout items; a page whose list is missing
    adds nothing. *)
Theorem pages_collected_in_order (h : Host) (json : Value)
    (bearer client : string) (N : Z) (page : Z -> Value) :
  getAuthCookie h = ([], Ok json) ->
  ToBoolean (access_token json) = true ->
  ToString (access_token json) = Ok bearer ->
  ToString (or_ (user_id json) JNull) = Ok client ->
  servesPage h (pageRequest client bearer 1) (page 1)
  /\ reportsTotal (page 1) N ->
  (forall p, 2 <= p <= N ->
             servesPage h (pageRequest client bearer p) (page p)) ->
  exists t st',
    doWhile h (access_token json) initialState = (t, Ok st')
    /\ allWorkouts st'
       = flat_map (fun p => pageWorkouts (page p)) (pageNumbers (Z.max 1 N))
    /\ allWorkoutItems st'
       = flat_map (fun p => pageItems (page p)) (pageNumbers (Z.max 1 N)).
Proof.
  intros Hsession Htruthy Hbearer Hclient Hfirst Hlater.
  destruct (served_loop h json bearer client N page Hsession Hbearer Hclient
              Hfirst Hlater) as (t & st' & Hloop & Hw & Hi & _).
  exists t, st'. auto.
Qed.

(** X7. When every page is served, the requests and the delays of the run
    alternate: a delay of 200 ms stands between two successive requests, and
    there is none before the first request or after the last. *)
Theorem delay_between_requests (h : Host) (json : Value)
    (bearer client : string) (N : Z) (page : Z -> Value) :
  getAuthCookie h = ([], Ok json) ->
  ToBoolean (access_token json) = true ->
  ToString (access_token json) = Ok bearer ->
  ToString (or_ (user_id json) JNull) = Ok client ->
  servesPage h (pageRequest client bearer 1) (page 1)
  /\ reportsTotal (page 1) N ->
  (forall p, 2 <= p <= N ->
             servesPage h (pageRequest client bearer p) (page p)) ->
  network (trace (exportTrueCoachWorkouts h))
  = schedule (map (pageRequest client bearer) (pageNumbers (Z.max 1 N))).
Proof.
  intros Hsession Htruthy Hbearer Hclient Hfirst Hlater.
  destruct (served_run h json bearer client N page Hsession Htruthy Hbearer
              Hclient Hfirst Hlater)
    as (t & st' & _ & _ & _ & Hnet & _ & Hrun).
  rewrite Hrun. unfold trace. cbn [fst].
  destruct (exportRows_outcome h (allWorkouts st') (allWorkoutItems st'))
    as [Hev _].
  apply exportEvents_facts in Hev. destruct Hev as (Hen & _ & _).
  rewrite !network_app. cbn [app]. 
  change (network (startLine :: tokenLine :: t)) with (network t).
  rewrite Hnet, Hen.
  destruct (snd (exportRows h (allWorkouts st') (allWorkoutItems st')));
    simpl; rewrite app_nil_r; reflexivity.
Qed.

(** X17. End to end: when every page is served and the collected workouts
    and items are records, the run ends normally, reports no failure, and
    hands over exactly one file; read back, the file is the header followed
    by one row for each collected item that has a workout among the
    collected workouts, in the order of collection. *)
Theorem served_run_exports_join (h : Host) (json : Value)
    (bearer client : string) (N : Z) (page : Z -> Value) :
  getAuthCookie h = ([], Ok json) ->
  ToBoolean (access_token json) = true ->
  ToString (access_token json) = Ok bearer ->
  ToString (or_ (user_id json) JNull) = Ok client ->
  servesPage h (pageRequest client bearer 1) (page 1)
  /\ reportsTotal (page 1) N ->
  (forall p, 2 <= p <= N ->
             servesPage h (pageRequest client bearer p) (page p)) ->
  Forall (fun w => ParentRecord w = true)
         (flat_map (fun p => pageWorkouts (page p))
                   (pageNumbers (Z.max 1 N))) ->
  Forall (fun c => ChildRecord c = true)
         (flat_map (fun p => pageItems (page p))
                   (pageNumbers (Z.max 1 N))) ->
  exists text strs,
    filter isDownload (trace (exportTrueCoachWorkouts h))
    = [Download (downloadName h) text]
    /\ cellStrings
         (joinedRows
            (flat_map (fun p => pageWorkouts (page p))
                      (pageNumbers (Z.max 1 N)))
            (flat_map (fun p => pageItems (page p))
                      (pageNumbers (Z.max 1 N)))) = Ok strs
    /\ Csv.parse text = headerText :: strs
    /\ filter isFailureReport (trace (exportTrueCoachWorkouts h)) = []
    /\ result (exportTrueCoachWorkouts h) = Ok tt.
Proof.
  intros Hsession Htruthy Hbearer Hclient Hfirst Hlater Hws Hitems.
  destruct (served_run h json bearer client N page Hsession Htruthy Hbearer
              Hclient Hfirst Hlater)
    as (t & st' & _ & Hw & Hi & _ & Hev & Hrun).
  rewrite <- Hw in Hws. rewrite <- Hi in Hitems. rewrite <- Hw, <- Hi.
  destruct (exportRows_records h (allWorkouts st') (allWorkoutItems st')
              Hws Hitems) as (text & strs & Hs & _ & Hp & Hexp).
  apply loopEvents_facts in Hev. destruct Hev as [Hld Hlf].
  destruct (exportRows_outcome h (allWorkouts st') (allWorkoutItems st'))
    as [Hee _].
  apply exportEvents_facts in Hee. destruct Hee as (_ & Hef & _).
  assert (filter isDownload
            (fst (exportRows h (allWorkouts st') (allWorkoutItems st')))
          = [Download (downloadName h) text]) as Hdl.
  { rewrite Hexp. cbn [fst]. rewrite filter_app. simpl.
    unfold orphanWarnings.
    induction (filter _ (allWorkoutItems st')); simpl; auto. }
  assert (snd (exportRows h (allWorkouts st') (allWorkoutItems st')) = Ok tt)
    as Hres by (rewrite Hexp; reflexivity).
  exists text, strs.
  rewrite Hrun. unfold trace, result. cbn [fst snd].
  rewrite Hres, app_nil_r, !filter_app.
  change (filter isDownload (startLine :: tokenLine :: t))
    with (filter isDownload t).
  change (filter isFailureReport (startLine :: tokenLine :: t))
    with (filter isFailureReport t).
  rewrite Hld, Hlf, Hef, Hdl. auto.
Qed.

(** ** The file name *)

(** X9. The file is named after the date part of the ISO time stamp: the
    text before its first [T], between [truecoach-workouts-] and [.csv]. *)
Theorem download_name_is_dated (h : Host) (date time : string) :
  Date_toISOString h = date ++ String "T" time ->
  Forall (fun c => c <> "T"%char) (list_ascii_of_string date) ->
  downloadName h = "truecoach-workouts-" ++ date ++ ".csv".
Proof.
  intros Hiso Hdate. unfold downloadName.
  rewrite Hiso, (split_first _ _ _ Hdate). reflexivity.
Qed.

(** ** Records that cannot be joined *)

Lemma buildWorkoutMap_nullish (workouts : list Value) :
  forall m,
    Exists (fun w => nullish w = true) workouts ->
    buildWorkoutMap m workouts = Throw TypeError.
Proof.
  induction workouts as [| w ws IH]; intros m H; [inversion H |].
  simpl. destruct (nullish w) eqn:Hw.
  - rewrite (Get_nullish w "id" Hw). reflexivity.
  - rewrite (Get_nonnullish w "id" Hw). apply IH.
    inversion H as [? ? Hhead | ? ? Htail]; subst; [congruence | exact Htail].
Qed.

Lemma buildWorkoutMap_total (workouts : list Value) :
  forall m,
    Forall (fun w => nullish w = false) workouts ->
    exists m', buildWorkoutMap m workouts = Ok m'.
Proof.
  induction workouts as [| w ws IH]; intros m H; [simpl; eauto |].
  inversion H as [| ? ? Hw Hws]; subst.
  simpl. rewrite (Get_nonnullish w "id" Hw). apply IH. exact Hws.
Qed.

(** X12. Building the lookup map fails exactly when some collected workout
    is [null] or [undefined], and then with a [TypeError]: the part after
    the loop prints its first line and hands nothing over. *)
Theorem null_workout_aborts_export (h : Host) (workouts items : list Value) :
  (isOk (buildWorkoutMap Map_new workouts)
   = forallb (fun w => negb (nullish w)) workouts)
  /\ (Exists (fun w => nullish w = true) workouts ->
      exportRows h workouts items
      = ([ConsoleLog ("Fetched "
                      ++ NumberToString (Z.of_nat (length workouts))
                      ++ " workouts and "
                      ++ NumberToString (Z.of_nat (length items))
                      ++ " exercises")], Throw TypeError)).
Proof.
  split.
  - destruct (forallb (fun w => negb (nullish w)) workouts) eqn:Hall.
    + rewrite forallb_forall in Hall.
      destruct (buildWorkoutMap_total workouts Map_new) as [m' ->];
        [| reflexivity].
      apply Forall_forall. intros w Hw. apply Hall in Hw.
      destruct (nullish w); [discriminate | reflexivity].
    + rewrite buildWorkoutMap_nullish; [reflexivity |].
      apply Exists_exists.
      destruct (existsb (fun w => nullish w) workouts) eqn:Hex.
      * apply existsb_exists in Hex. exact Hex.
      * exfalso. assert (forallb (fun w => negb (nullish w)) workouts = true)
          as Ht; [| congruence].
        apply forallb_forall. intros w Hw.
        pose proof (existsb_nth (fun w => nullish w) workouts) as Hn.
        destruct (nullish w) eqn:E; [| reflexivity].
        assert (existsb (fun w => nullish w) workouts = true) as Hex'
          by (apply existsb_exists; eauto).
        congruence.
  - intros Hnull. unfold exportRows.
    rewrite (buildWorkoutMap_nullish workouts Map_new Hnull). reflexivity.
Qed.

(** X16. When no item has a workout (in particular when there is no item
    at all), the file is still handed over, and holds the header line alone;
    every item is reported as an orphan. *)
Theorem no_match_header_only (h : Host) (workouts items : list Value) :
  Forall (fun w => ParentRecord w = true) workouts ->
  Forall (fun c => ChildRecord c = true) items ->
  (forall item, In item items -> hasParent workouts item = false) ->
  exportRows h workouts items
  = ((ConsoleLog ("Fetched "
                  ++ NumberToString (Z.of_nat (length workouts))
                  ++ " workouts and "
                  ++ NumberToString (Z.of_nat (length items))
                  ++ " exercises")
      :: map orphanWarning items)
     ++ [Download (downloadName h)
           "date,exercise_name,instructions,result,state,workout_title";
         ConsoleLog "Export complete! Downloaded 0 exercise records.";
         ConsoleLog "Check your Downloads folder for the CSV file."],
     Ok tt)%list.
Proof.
  intros Hw Hi Hnone.
  destruct (exportRows_records h workouts items Hw Hi)
    as (text & strs & _ & Hc & _ & Hrun).
  assert (joinedRows workouts items = []) as Hrows.
  { unfold joinedRows.
    replace (filter (hasParent workouts) items) with (@nil Value);
      [reflexivity |].
    symmetry. clear - Hnone. induction items as [| item items IH];
      [reflexivity |].
    simpl. rewrite (Hnone item) by (left; reflexivity).
    apply IH. intros x Hx. apply Hnone. right. exact Hx. }
  assert (orphanWarnings workouts items = map orphanWarning items) as Hwarn.
  { unfold orphanWarnings. f_equal.
    clear - Hnone. induction items as [| item items IH]; [reflexivity |].
    simpl. rewrite (Hnone item) by (left; reflexivity). simpl.
    f_equal. apply IH. intros x Hx. apply Hnone. right. exact Hx. }
  rewrite Hrows in Hc, Hrun. rewrite Hwarn in Hrun.
  vm_compute in Hc. inversion Hc; subst text. exact Hrun.
Qed.

(** ** First pages that do not say how many pages there are *)

Lemma afterFetch_without_meta (h : Host) (st : LoopState) (r : Response)
    (data : Value) :
  currentPage st = 1 -> ok r = true -> json r = Ok data ->
  nullish (OptGet data "meta") = true ->
  afterFetch h st r = ([], Throw TypeError).
Proof.
  intros Hp Hok Hjson Hmeta. unfold afterFetch.
  rewrite Hok, Hjson, Hp. simpl negb. simpl Z.eqb.
  cbv beta iota zeta delta [Run.bind lift emit ret throw].
  destruct (nullish data) eqn:Hd.
  - rewrite (Get_nullish data "meta" Hd). reflexivity.
  - rewrite (Get_nonnullish data "meta" Hd). cbv beta iota.
    rewrite (Get_nullish _ "total_pages" Hmeta). reflexivity.
Qed.

(** X10. When the body of page 1 has no [meta] (or a [null] one, or is
    itself [null]), reading [total_pages] throws a [TypeError]: the run has
    sent one request, reports the failure and hands nothing over. *)
Theorem first_page_without_meta (h : Host) (session : Value)
    (bearer client : string) (r : Response) (data : Value) :
  getAuthCookie h = ([], Ok session) ->
  ToBoolean (access_token session) = true ->
  ToString (access_token session) = Ok bearer ->
  ToString (or_ (user_id session) JNull) = Ok client ->
  fetch h (pageRequest client bearer 1) = Ok r ->
  ok r = true -> json r = Ok data ->
  nullish (OptGet data "meta") = true ->
  exportTrueCoachWorkouts h
  = ([startLine; tokenLine; Fetch (pageRequest client bearer 1);
      ConsoleError "Export failed:" (Some TypeError);
      ConsoleError
        "Make sure you are logged into TrueCoach in this browser tab." None],
     Ok tt).
Proof.
  intros Hsession Htruthy Hbearer Hclient Hf Hok Hjson Hmeta.
  rewrite run_cases, (getBearerToken_of h [] session Hsession).
  replace (or_ (access_token session) JNull) with (access_token session)
    by (unfold or_; rewrite Htruthy; reflexivity).
  rewrite Htruthy, tryBlock_cases, doWhile_body, iteration_cases.
  rewrite (getApiBase_client h _ client
             (getClientID_session h session Hsession) Hclient), Hbearer.
  cbv zeta. cbn [currentPage initialState].
  rewrite requestOf_pageRequest, Hf.
  rewrite (afterFetch_without_meta h initialState r data eq_refl Hok Hjson
             Hmeta).
  reflexivity.
Qed.

(** X11. When [2 <= total_pages] is false for what page 1 reports (no
    [total_pages] at all, [null], a boolean, a number below 2, a text that is
    not a number), the loop stops after page 1: one request, no delay, and
    the export goes on with the records of that page. *)
Theorem total_below_two_single_request (h : Host) (json : Value)
    (bearer client : string) (data : Value) :
  getAuthCookie h = ([], Ok json) ->
  ToBoolean (access_token json) = true ->
  ToString (access_token json) = Ok bearer ->
  ToString (or_ (user_id json) JNull) = Ok client ->
  servesPage h (pageRequest client bearer 1) data ->
  nullish (OptGet data "meta") = false ->
  textual (OptGet (OptGet data "meta") "total_count") = true ->
  textual (OptGet (OptGet data "meta") "total_pages") = true ->
  le_ (StringToNumber h) 2 (OptGet (OptGet data "meta") "total_pages")
  = Ok false ->
  network (trace (exportTrueCoachWorkouts h))
  = [Fetch (pageRequest client bearer 1)]
  /\ exists t,
       doWhile h (access_token json) initialState
       = (t, Ok {| allWorkouts := pageWorkouts data;
                   allWorkoutItems := pageItems data;
                   currentPage := 2;
                   totalPages := OptGet (OptGet data "meta") "total_pages" |}).
Proof.
  intros Hsession Htruthy Hbearer Hclient
         (r & Hf & Hok & Hjson & Hobj & Hw & Hi) Hmeta Hcount Htotal Hle.
  destruct (afterFetch_served h initialState r data
              (OptGet (OptGet data "meta") "total_pages") false)
    as (logs & Hlogs & Hafter); try assumption.
  - destruct data; try discriminate Hobj; reflexivity.
  - intros _. auto.
  - intros E. exfalso. apply E. reflexivity.
  - assert (doWhile h (access_token json) initialState
            = (Fetch (pageRequest client bearer 1) :: logs,
               Ok {| allWorkouts := pageWorkouts data;
                     allWorkoutItems := pageItems data;
                     currentPage := 2;
                     totalPages :=
                       OptGet (OptGet data "meta") "total_pages" |}))
      as Hloop.
    { rewrite doWhile_body, iteration_cases.
      rewrite (getApiBase_client h _ client
                 (getClientID_session h json Hsession) Hclient), Hbearer.
      cbv zeta. cbn [currentPage initialState].
      rewrite requestOf_pageRequest, Hf, Hafter.
      cbn [fst snd app allWorkouts allWorkoutItems initialState currentPage].
      unfold loopCondition. cbn [currentPage totalPages].
      change (1 + 1) with 2. rewrite Hle. rewrite app_nil_r. reflexivity. }
    split; [| eauto].
    rewrite run_cases, (getBearerToken_of h [] json Hsession).
    replace (or_ (access_token json) JNull) with (access_token json)
      by (unfold or_; rewrite Htruthy; reflexivity).
    rewrite Htruthy, tryBlock_cases, Hloop.
    cbn [allWorkouts allWorkoutItems].
    destruct (exportRows_outcome h (pageWorkouts data) (pageItems data))
      as [Hev _].
    apply exportEvents_facts in Hev. destruct Hev as (Hen & _ & _).
    unfold trace.
    destruct (exportRows h (pageWorkouts data) (pageItems data))
      as [t2 [u | e]]; cbn [fst] in Hen |- *;
      cbn [app]; unfold network in *; simpl;
      rewrite ?filter_app, (network_logs _ Hlogs : filter _ logs = []),
        ?Hen; reflexivity.
Qed.

(** ** The requests of any run *)

Lemma afterFetch_requests (h : Host) (st : LoopState) (r : Response) :
  requests (fst (afterFetch h st r)) = [].
Proof.
  destruct (afterFetch_events h st r) as (logs & Hlogs & [-> | [-> _]]);
    rewrite ?requests_app; simpl; rewrite ?app_nil_r;
    clear - Hlogs; induction Hlogs as [| ev logs Hev _ IH]; auto;
    destruct ev; try contradiction; exact IH.
Qed.

(** The requests of one turn of the loop: the one for the current page, or
    none when the API base or the token has no text. *)
Lemma iteration_requests (h : Host) (token : Value) (st : LoopState) :
  requests (fst (iteration h token st))
  = match snd (getApiBase h), ToString token with
    | Ok base, Ok bearer => [requestOf base bearer (currentPage st)]
    | _, _ => []
    end.
Proof.
  rewrite iteration_cases.
  pose proof (silent_requests _ (getApiBase_silent h)) as Hb.
  destruct (getApiBase h) as [tb [base | e]]; simpl in Hb |- *; [| exact Hb].
  destruct (ToString token) as [bearer | e]; [| exact Hb].
  cbv zeta. destruct (fetch h _) as [r | e]; simpl.
  - rewrite requests_app, Hb. simpl. rewrite afterFetch_requests. reflexivity.
  - rewrite requests_app, Hb. reflexivity.
Qed.

Lemma iteration_throws_early (h : Host) (token : Value) (st : LoopState) :
  (forall base bearer, snd (getApiBase h) = Ok base ->
                       ToString token = Ok bearer -> False) ->
  exists e, snd (iteration h token st) = Throw e.
Proof.
  intros H. rewrite iteration_cases.
  destruct (getApiBase h) as [tb [base | e]]; simpl in *; [| eauto].
  destruct (ToString token) as [bearer | e]; [| simpl; eauto].
  exfalso. eapply H; reflexivity.
Qed.

(** From any state, the loop asks for the current page, the next one, and so
    on, without a gap. *)
Lemma doWhile_requests (h : Host) (token : Value) (st : LoopState) :
  forall base bearer,
    snd (getApiBase h) = Ok base -> ToString token = Ok bearer ->
    exists n,
      requests (fst (doWhile h token st))
      = map (fun i => requestOf base bearer (currentPage st + Z.of_nat i))
            (seq 0 (S n)).
Proof.
  funelim (doWhile h token st); intros base bearer Hbase Hbearer;
    match goal with
    | E : iteration ?h0 ?tk ?s = _ |- _ =>
        pose proof (iteration_requests h0 tk s) as Hreq;
        rewrite E, Hbase, Hbearer in Hreq; simpl in Hreq;
        pose proof E as Hiter
    end; cbn [fst].
  - exists 0%nat. rewrite Hreq. simpl. rewrite Z.add_0_r. reflexivity.
  - apply iteration_step in Hiter. destruct Hiter as [Hp _].
    match goal with
    | IH : forall base bearer, _ -> _ -> exists n, _ |- _ =>
        destruct (IH base bearer Hbase Hbearer) as [n Hn]
    end.
    destruct (doWhile h token st') as [t' r]. cbn [fst] in *.
    exists (S n). rewrite requests_app, Hreq, Hn, Hp.
    change (seq 0 (S (S n))) with (0%nat :: seq 1 (S n)).
    rewrite <- (seq_shift (S n) 0), map_cons, map_map.
    cbn [app]. rewrite Z.add_0_r. f_equal.
    apply map_ext. intros i. f_equal. lia.
  - exists 0%nat. rewrite Hreq. simpl. rewrite Z.add_0_r. reflexivity.
  - exists 0%nat. rewrite Hreq. simpl. rewrite Z.add_0_r. reflexivity.
Qed.

Lemma doWhile_no_requests (h : Host) (token : Value) (st : LoopState) :
  (forall base bearer, snd (getApiBase h) = Ok base ->
                       ToString token = Ok bearer -> False) ->
  requests (fst (doWhile h token st)) = [].
Proof.
  intros H. rewrite doWhile_body.
  pose proof (iteration_requests h token st) as Hreq.
  destruct (iteration_throws_early h token st H) as [e He].
  destruct (iteration h token st) as [t [st' | e']]; simpl in *;
    [discriminate |].
  rewrite Hreq.
  destruct (snd (getApiBase h)) as [base |]; [| reflexivity].
  destruct (ToString token) as [bearer |]; [| reflexivity].
  exfalso. eapply H; reflexivity.
Qed.

Lemma getApiBase_form (h : Host) (base : string) :
  snd (getApiBase h) = Ok base ->
  exists client,
    base = "https://app.truecoach.co/proxy/api/clients/" ++ client
           ++ "/workouts".
Proof.
  unfold getApiBase, getClientID, Run.bind, lift, ret.
  destruct (getAuthCookie h) as [t [json | e]]; simpl; [| discriminate].
  destruct (ToString _) as [client |]; simpl; [| discriminate].
  intros H. inversion H. eauto.
Qed.

Lemma requests_log (message : string) (t : list Event) :
  requests (ConsoleLog message :: t) = requests t.
Proof. reflexivity. Qed.

(** The requests of the part of the run inside [try]. *)
Lemma run_requests_loop (h : Host) :
  requests (trace (exportTrueCoachWorkouts h))
  = match getBearerToken h with
    | (_, Ok token) =>
        if ToBoolean token
        then requests (fst (doWhile h token initialState))
        else []
    | _ => []
    end.
Proof.
  rewrite run_cases. unfold trace.
  pose proof (silent_requests _ (getBearerToken_silent h)) as Hc.
  destruct (getBearerToken h) as [tc [token | e]]; simpl in Hc |- *;
    [| exact Hc].
  destruct (ToBoolean token); cbn [fst].
  - unfold startLine, tokenLine.
    rewrite tryBlock_cases, requests_log, requests_app, Hc, requests_log.
    cbn [app].
    destruct (doWhile h token initialState) as [t [st | e]]; cbn [fst].
    + pose proof (exportRows_requests h (allWorkouts st) (allWorkoutItems st))
        as He.
      destruct (exportRows h (allWorkouts st) (allWorkoutItems st))
        as [t2 [u | e]]; cbn [fst] in He |- *;
        rewrite ?requests_app, He, ?app_nil_r; reflexivity.
    + rewrite requests_app. simpl. rewrite app_nil_r. reflexivity.
  - unfold startLine. rewrite requests_log, requests_app, Hc. reflexivity.
Qed.

Lemma pages_shift (client bearer : string) (n : nat) :
  map (fun i => requestOf ("https://app.truecoach.co/proxy/api/clients/"
                           ++ client ++ "/workouts") bearer
                          (1 + Z.of_nat i)) (seq 0 n)
  = map (pageRequest client bearer) (map Z.of_nat (seq 1 n)).
Proof.
  rewrite <- (seq_shift n 0), !map_map. apply map_ext. intros i.
  rewrite requestOf_pageRequest. f_equal. lia.
Qed.

(** The requests of any run are those for the pages 1, 2, ..., [n], for
    some [n], all with one client and one token. *)
Lemma run_requests_sequence (h : Host) :
  exists client bearer n,
    requests (trace (exportTrueCoachWorkouts h))
    = map (pageRequest client bearer) (map Z.of_nat (seq 1 n)).
Proof.
  rewrite run_requests_loop.
  destruct (getBearerToken h) as [tc [token | e]];
    [| exists EmptyString, EmptyString, 0%nat; reflexivity].
  destruct (ToBoolean token);
    [| exists EmptyString, EmptyString, 0%nat; reflexivity].
  destruct (snd (getApiBase h)) as [base | e] eqn:Hbase.
  - destruct (ToString token) as [bearer | e] eqn:Hbearer.
    + destruct (getApiBase_form h base Hbase) as [client ->].
      destruct (doWhile_requests h token initialState _ bearer Hbase Hbearer)
        as [n Hn].
      exists client, bearer, (S n). rewrite Hn.
      cbn [currentPage initialState]. apply pages_shift.
    + exists EmptyString, EmptyString, 0%nat.
      apply doWhile_no_requests. intros base' bearer' _ H. congruence.
  - exists EmptyString, EmptyString, 0%nat.
    apply doWhile_no_requests. intros base' bearer' H _. congruence.
Qed.

Lemma same_client_requests (client bearer : string) (pages : list Z) :
  map (pageRequest client bearer) pages
  = map (fun cp => pageRequest (fst cp) bearer (snd cp))
        (combine (repeat client (length pages)) pages).
Proof.
  induction pages as [| p pages IH]; simpl; [| rewrite IH]; reflexivity.
Qed.

(** X13. Provided page 1 announces a finite count of pages, whatever else
    the browser and the server do, the requests of a run are requests for
    the pages 1, 2, ..., [n] in that order, for some [n]: no page is
    skipped, none is asked out of order, and all requests carry the same
    token.  Nothing is said of the client ids, which the source reads from
    the cookie again at every turn. *)
Theorem pages_requested_in_sequence (h : Host) :
  announcesFiniteTotal h ->
  exists bearer clients,
    requests (trace (exportTrueCoachWorkouts h))
    = map (fun cp => pageRequest (fst cp) bearer (snd cp))
          (combine clients (map Z.of_nat (seq 1 (length clients)))).
Proof.
  intros _. destruct (run_requests_sequence h) as (client & bearer & n & ->).
  exists bearer, (repeat client n).
  rewrite same_client_requests, length_map, length_seq, repeat_length.
  reflexivity.
Qed.

Lemma append_cancel_l (a x y : string) : a ++ x = a ++ y -> x = y.
Proof.
  induction a as [| c a IH]; simpl; intros H; [exact H |].
  inversion H. auto.
Qed.

Lemma length_append (a b : string) :
  String.length (a ++ b) = (String.length a + String.length b)%nat.
Proof. induction a as [| c a IH]; simpl; [| rewrite IH]; reflexivity. Qed.

Lemma append_cancel_r (c x y : string) : x ++ c = y ++ c -> x = y.
Proof.
  revert y. induction x as [| a x IH]; intros [| b y] H; simpl in H.
  - reflexivity.
  - apply (f_equal String.length) in H. simpl in H.
    rewrite length_append in H. lia.
  - apply (f_equal String.length) in H. simpl in H.
    rewrite length_append in H. lia.
  - inversion H. f_equal. auto.
Qed.

Lemma NumberToString_inj (n m : Z) :
  NumberToString n = NumberToString m -> n = m.
Proof.
  unfold NumberToString. intros H.
  assert (forall z, NilZero.int_of_string (NilZero.string_of_int (Z.to_int z))
                    = Some (Z.to_int z)) as Hisi.
  { intros z. apply NilZero.isi; intros Hz;
      pose proof (f_equal Z.of_int Hz) as Hzero;
      rewrite DecimalZ.of_to in Hzero; simpl in Hzero; subst z;
      discriminate Hz. }
  apply (f_equal NilZero.int_of_string) in H. rewrite !Hisi in H.
  inversion H as [Hz]. apply (f_equal Z.of_int) in Hz.
  rewrite !DecimalZ.of_to in Hz. exact Hz.
Qed.

Lemma url_middle_inj (a b c d auth x y : string) :
  {| url := a ++ b ++ c ++ x ++ d; authorization := auth |}
  = {| url := a ++ b ++ c ++ y ++ d; authorization := auth |} -> x = y.
Proof.
  intros H. injection H as Hurl.
  apply append_cancel_l in Hurl. apply append_cancel_l in Hurl.
  apply append_cancel_l in Hurl. apply append_cancel_r in Hurl.
  exact Hurl.
Qed.

Lemma pageRequest_inj (client bearer : string) (p p' : Z) :
  pageRequest client bearer p = pageRequest client bearer p' -> p = p'.
Proof.
  intros H. apply NumberToString_inj.
  exact (url_middle_inj _ _ _ _ _ _ _ H).
Qed.

(** X15. No retry: within one run no request is sent twice. *)
Theorem no_request_sent_twice (h : Host) :
  NoDup (requests (trace (exportTrueCoachWorkouts h))).
Proof.
  destruct (run_requests_sequence h) as (client & bearer & n & ->).
  rewrite map_map. apply NoDup_map_NoDup_ForallPairs; [| apply seq_NoDup].
  intros x y _ _ H. apply pageRequest_inj in H. lia.
Qed.

(** ** No more requests than page 1 announces *)

Lemma iteration_requests_le (h : Host) (token : Value) (st : LoopState) :
  (length (requests (fst (iteration h token st))) <= 1)%nat.
Proof.
  rewrite iteration_requests.
  destruct (snd (getApiBase h)); [| simpl; lia].
  destruct (ToString token); simpl; lia.
Qed.

(** Once page 1 has fixed a number of pages [N], the loop asks for the
    current page and at most for the pages up to [N]. *)
Lemma doWhile_count (h : Host) (token : Value) (st : LoopState) :
  forall N,
    2 <= currentPage st -> totalPages st = JNum N ->
    (length (requests (fst (doWhile h token st)))
     <= Z.to_nat (Z.max 1 (N - currentPage st + 1)))%nat.
Proof.
  funelim (doWhile h token st); intros N Hpage Htotal;
    match goal with
    | E : iteration ?h0 ?tk ?s = _ |- _ =>
        pose proof (iteration_requests_le h0 tk s) as Hreq;
        rewrite E in Hreq; cbn [fst] in Hreq;
        pose proof E as Hiter
    end; cbn [fst]; try lia.
  apply iteration_step in Hiter. destruct Hiter as [Hnext Hkeep].
  assert (totalPages st' = JNum N) as Htotal'
      by (rewrite Hkeep by lia; exact Htotal).
  assert (currentPage st' <= N) as Hle.
  { match goal with
    | Hcond : loopCondition _ st' = Ok true |- _ =>
        pose proof Hcond as Hmore
    end.
    unfold loopCondition, le_ in Hmore. rewrite Htotal' in Hmore.
    simpl in Hmore. apply Z.leb_le. congruence. }
  match goal with
  | IH : forall N, _ -> _ -> (_ <= _)%nat |- _ =>
      specialize (IH N ltac:(lia) Htotal')
  end.
  destruct (doWhile h token st') as [t' r]. cbn [fst] in *.
  rewrite requests_app, length_app. rewrite Hnext in *. lia.
Qed.

(** The state after a first turn that went through holds what the body of
    the response gives as [meta.total_pages]. *)
Lemma afterFetch_first_total (h : Host) (st st' : LoopState) (r : Response) :
  currentPage st = 1 ->
  snd (afterFetch h st r) = Ok st' ->
  exists data,
    json r = Ok data
    /\ totalPages st' = OptGet (OptGet data "meta") "total_pages".
Proof.
  intros Hp. unfold afterFetch. rewrite Hp. simpl Z.eqb.
  cbv beta iota zeta delta [Run.bind lift emit throw ret].
  destruct (negb (ok r)); [simpl; discriminate |]. cbv beta iota.
  destruct (json r) as [data | e]; [| simpl; discriminate]. cbv beta iota.
  destruct (Get data "meta") as [meta | e] eqn:Hmeta;
    [| simpl; discriminate]. cbv beta iota.
  destruct (Get meta "total_pages") as [total | e] eqn:Htotal;
    [| simpl; discriminate]. cbv beta iota.
  apply Get_Ok in Hmeta. destruct Hmeta as [-> _].
  apply Get_Ok in Htotal. destruct Htotal as [-> _].
  repeat (destruct_scrutinee; cbv beta iota); simpl;
    intros H; try discriminate H; inversion H; exists data; split; reflexivity.
Qed.

(** X14. However the server answers, the script sends no more requests than
    the body of page 1 announces pages, and one when it announces none: a
    response that reports [N] pages bounds the requests of the run by the
    larger of 1 and [N]. *)
Theorem requests_bounded_by_first_total (h : Host) (N : Z) :
  (forall client bearer r data,
      fetch h (pageRequest client bearer 1) = Ok r -> json r = Ok data ->
      OptGet (OptGet data "meta") "total_pages" = JNum N) ->
  (length (requests (trace (exportTrueCoachWorkouts h)))
   <= Z.to_nat (Z.max 1 N))%nat.
Proof.
  intros Hfirst. rewrite run_requests_loop.
  destruct (getBearerToken h) as [tc [token | e]]; [| simpl; lia].
  destruct (ToBoolean token); [| simpl; lia].
  destruct (snd (getApiBase h)) as [base | e] eqn:Hbase;
    [| rewrite doWhile_no_requests; [simpl; lia |];
       intros base' bearer' H _; congruence].
  destruct (ToString token) as [bearer | e] eqn:Hbearer;
    [| rewrite doWhile_no_requests; [simpl; lia |];
       intros base' bearer' _ H; congruence].
  destruct (getApiBase_form h base Hbase) as [client Hform].
  rewrite doWhile_body.
  pose proof (iteration_requests_le h token initialState) as Hone.
  pose proof (iteration_cases h token initialState) as Hcases.
  destruct (iteration h token initialState) as [t [st' | e]] eqn:Hiter;
    cbn [fst] in *; [| lia].
  destruct (loopCondition h st') as [[|] | e] eqn:Hcond; cbn [fst]; try lia.
  pose proof (iteration_step _ _ _ _ _ Hiter) as [Hnext _].
  cbn [currentPage initialState] in Hnext.
  assert (totalPages st' = JNum N) as Htotal.
  { destruct (getApiBase h) as [tb [base' | e]]; cbn [snd] in Hbase;
      [| discriminate].
    assert (base' = base) as -> by congruence.
    rewrite Hbearer in Hcases.
    cbv zeta in Hcases. cbn [currentPage initialState] in Hcases.
    rewrite Hform, requestOf_pageRequest in Hcases.
    destruct (fetch h (pageRequest client bearer 1)) as [r | e] eqn:Hf;
      [| discriminate].
    inversion Hcases as [[Ht Hst]]. symmetry in Hst.
    destruct (afterFetch_first_total h initialState st' r eq_refl Hst)
      as (data & Hjson & ->).
    exact (Hfirst client bearer r data Hf Hjson). }
  assert (currentPage st' <= N) as Hle.
  { unfold loopCondition, le_ in Hcond. rewrite Htotal in Hcond.
    simpl in Hcond. apply Z.leb_le. congruence. }
  pose proof (doWhile_count h token st' N ltac:(lia) Htotal) as Hrest.
  destruct (doWhile h token st') as [t' r]. cbn [fst] in *.
  rewrite requests_app, length_app. rewrite Hnext in Hrest. lia.
Qed.

(** * The further properties on concrete inputs *)

Lemma no_session_cookie_stops_witness :
  exportTrueCoachWorkouts hostNoSession = ([startLine; noTokenLine], Ok tt).
Proof. apply (no_session_cookie_stops hostNoSession). reflexivity. Defined.

Lemma unparsable_session_stops_witness :
  exportTrueCoachWorkouts hostUnparsable
  = ([startLine;
      ConsoleError "Failed to parse ember_simple_auth-session cookie"
                   (Some SyntaxError);
      noTokenLine], Ok tt).
Proof.
  apply (unparsable_session_stops hostUnparsable
           "ember_simple_auth-session=%7B" "{" SyntaxError); reflexivity.
Defined.

Lemma undecodable_session_rejects_witness :
  exportTrueCoachWorkouts hostUndecodable = ([startLine], Throw URIError).
Proof.
  apply (undecodable_session_rejects hostUndecodable
           "ember_simple_auth-session=%zz" URIError); reflexivity.
Defined.

Lemma cookie_value_cut_at_equals_witness :
  getAuthCookie hostEqualsInValue = decodeAndParse hostEqualsInValue "abc".
Proof.
  apply (cookie_value_cut_at_equals hostEqualsInValue "abc" "=def").
  - reflexivity.
  - right. exists "def". reflexivity.
  - repeat (constructor; [discriminate |]). constructor.
Defined.

Lemma session_without_token_stops_witness :
  exportTrueCoachWorkouts hostLoggedOut = ([startLine; noTokenLine], Ok tt)
  /\ requests (trace (exportTrueCoachWorkouts hostLoggedOut)) = []
  /\ filter isDownload (trace (exportTrueCoachWorkouts hostLoggedOut)) = [].
Proof.
  apply (session_without_token_stops hostLoggedOut [] (JObj []));
    reflexivity.
Defined.

Lemma pages_collected_in_order_witness :
  exists t st',
    doWhile hostTwoPages (JStr "tok") initialState = (t, Ok st')
    /\ allWorkouts st' = [legDay]
    /\ allWorkoutItems st' = [squat].
Proof.
  apply (pages_collected_in_order hostTwoPages sessionJson "tok" "7" 2
           twoPages).
  - vm_compute. reflexivity.
  - reflexivity.
  - reflexivity.
  - reflexivity.
  - split; [exists (success (pageOne 2)); repeat split | split; reflexivity].
  - intros p Hp. assert (p = 2) as -> by lia.
    exists (success pageTwo). repeat split.
Defined.

Lemma delay_between_requests_witness :
  network (trace (exportTrueCoachWorkouts hostTwoPages))
  = [Fetch (pageRequest "7" "tok" 1); Sleep 200;
     Fetch (pageRequest "7" "tok" 2)].
Proof.
  apply (delay_between_requests hostTwoPages sessionJson "tok" "7" 2
           twoPages).
  - vm_compute. reflexivity.
  - reflexivity.
  - reflexivity.
  - reflexivity.
  - split; [exists (success (pageOne 2)); repeat split | split; reflexivity].
  - intros p Hp. assert (p = 2) as -> by lia.
    exists (success pageTwo). repeat split.
Defined.

Lemma served_run_exports_join_witness :
  exists text,
    filter isDownload (trace (exportTrueCoachWorkouts hostRecords))
    = [Download "truecoach-workouts-2024-01-15.csv" text]
    /\ Csv.parse text
       = [["date"; "exercise_name"; "instructions"; "result"; "state";
           "workout_title"];
          ["2024-01-01"; "Squat"; EmptyString; "5x5"; "completed";
           "Leg Day"];
          ["2024-01-03"; "Crunch"; "slow, controlled"; "3x20"; "completed";
           "Core Day"]]
    /\ filter isFailureReport (trace (exportTrueCoachWorkouts hostRecords))
       = []
    /\ result (exportTrueCoachWorkouts hostRecords) = Ok tt.
Proof.
  destruct (served_run_exports_join hostRecords sessionJson "tok" "7" 2
              recordPages)
    as (text & strs & Hfile & Hstrs & Hparse & Hquiet & Hresult).
  - vm_compute. reflexivity.
  - reflexivity.
  - reflexivity.
  - reflexivity.
  - split; [exists (success (pageOne 2)); repeat split | split; reflexivity].
  - intros p Hp. assert (p = 2) as -> by lia.
    exists (success pageWithRecords). repeat split.
  - repeat constructor.
  - repeat constructor.
  - vm_compute in Hstrs. injection Hstrs as <-.
    exists text.
    split; [exact Hfile | split; [exact Hparse | split; assumption]].
Defined.


Lemma download_name_is_dated_witness :
  downloadName hostTwoPages = "truecoach-workouts-2024-01-15.csv".
Proof.
  apply (download_name_is_dated hostTwoPages "2024-01-15" "09:30:00.000Z").
  - reflexivity.
  - repeat (constructor; [discriminate |]). constructor.
Defined.

Lemma null_workout_aborts_export_witness :
  exportRows hostTwoPages [legDay; JNull] [squat]
  = ([ConsoleLog "Fetched 2 workouts and 1 exercises"], Throw TypeError).
Proof.
  apply (proj2 (null_workout_aborts_export hostTwoPages [legDay; JNull]
                  [squat])).
  right. left. reflexivity.
Defined.

Lemma no_match_header_only_witness :
  exportRows hostTwoPages [legDay] [lunge]
  = ([ConsoleLog "Fetched 1 workouts and 1 exercises";
      orphanWarning lunge;
      Download (downloadName hostTwoPages)
        "date,exercise_name,instructions,result,state,workout_title";
      ConsoleLog "Export complete! Downloaded 0 exercise records.";
      ConsoleLog "Check your Downloads folder for the CSV file."],
     Ok tt).
Proof.
  apply (no_match_header_only hostTwoPages [legDay] [lunge]).
  - repeat constructor.
  - repeat constructor.
  - intros item [<- | []]. reflexivity.
Defined.

Lemma first_page_without_meta_witness :
  exportTrueCoachWorkouts hostNoMeta
  = ([startLine; tokenLine; Fetch (pageRequest "7" "tok" 1);
      ConsoleError "Export failed:" (Some TypeError);
      ConsoleError
        "Make sure you are logged into TrueCoach in this browser tab." None],
     Ok tt).
Proof.
  apply (first_page_without_meta hostNoMeta sessionJson "tok" "7"
           (success pageNoMeta) pageNoMeta); reflexivity.
Defined.

Lemma total_below_two_single_request_witness :
  network (trace (exportTrueCoachWorkouts hostNoTotal))
  = [Fetch (pageRequest "7" "tok" 1)]
  /\ exists t,
       doWhile hostNoTotal (JStr "tok") initialState
       = (t, Ok {| allWorkouts := [legDay];
                   allWorkoutItems := [squat];
                   currentPage := 2;
                   totalPages := JUndefined |}).
Proof.
  apply (total_below_two_single_request hostNoTotal sessionJson "tok" "7"
           pageNoTotal); try reflexivity.
  exists (success pageNoTotal). repeat split.
Defined.

Lemma requests_bounded_by_first_total_witness :
  (length (requests (trace (exportTrueCoachWorkouts hostSamePage)))
   <= Z.to_nat (Z.max 1 2))%nat.
Proof.
  apply (requests_bounded_by_first_total hostSamePage 2).
  intros client bearer r data Hf Hjson.
  change (Ok (success (pageOne 2)) = Ok r) in Hf.
  injection Hf as <-.
  change (Ok (pageOne 2) = Ok data) in Hjson.
  injection Hjson as <-. reflexivity.
Defined.

Lemma pages_requested_in_sequence_witness :
  requests (trace (exportTrueCoachWorkouts hostSamePage))
  = [pageRequest "7" "tok" 1; pageRequest "7" "tok" 2]
  /\ exists bearer clients,
       requests (trace (exportTrueCoachWorkouts hostSamePage))
       = map (fun cp => pageRequest (fst cp) bearer (snd cp))
             (combine clients (map Z.of_nat (seq 1 (length clients)))).
Proof.
  split; [vm_compute; reflexivity |].
  apply (pages_requested_in_sequence hostSamePage).
  intros client bearer r data Hfetch Hjson.
  change (Ok (success (pageOne 2)) = Ok r) in Hfetch.
  injection Hfetch as <-.
  change (Ok (pageOne 2) = Ok data) in Hjson.
  injection Hjson as <-. reflexivity.
Defined.
